(** * lighter-go: update-margin transaction and the WASM signer bindings

    A shallow embedding of

    - [txtypes.L2UpdateMarginTxInfo] with its [Validate] and [Hash] methods;
    - the package-level client registry of the WASM binding
      ([txClient], [backupTxClients]) with [createClient] and
      [switchAPIKey];
    - the argument handling of [signTransfer] and
      [signCreateGroupedOrders].

    Go integers are integers of [Z]; a conversion that can wrap is written
    with its modulus.  Go strings are byte strings ([string] of Stdlib),
    byte slices and arrays are lists of [Z] in [0, 256). *)

From Stdlib Require Import ZArith List String Ascii Bool Lia.
From stdpp Require Import base option list gmap strings pretty.

Local Open Scope Z_scope.

(** ** Machine integers *)

Definition uint8 (x : Z) : Z := x mod 2 ^ 8.
Definition uint32 (x : Z) : Z := x mod 2 ^ 32.
Definition int64 (x : Z) : Z := (x + 2 ^ 63) mod 2 ^ 64 - 2 ^ 63.

Definition is_uint8 (x : Z) : Prop := 0 <= x < 2 ^ 8.
Definition is_uint32 (x : Z) : Prop := 0 <= x < 2 ^ 32.
Definition is_int64 (x : Z) : Prop := - 2 ^ 63 <= x < 2 ^ 63.

(** ** Package txtypes: the update-margin transaction *)

Module txtypes.

(** The sentinel errors [Validate] returns.  They are package-level
    values, pairwise distinct. *)
Inductive error : Set :=
| ErrFromAccountIndexTooLow
| ErrFromAccountIndexTooHigh
| ErrApiKeyIndexTooHigh
| ErrMarketIndexTooLow
| ErrMarketIndexTooHigh
| ErrUSDCAmountIsZero
| ErrNonceTooLow
| ErrExpiredAtInvalid.

#[global] Instance error_eq_dec : EqDecision error.
Proof. solve_decision. Defined.

Record L2UpdateMarginTxInfo : Type := {
  AccountIndex : Z;   (* int64 *)
  ApiKeyIndex : Z;    (* uint8 *)
  MarketIndex : Z;    (* uint8 *)
  USDCAmount : Z;     (* int64, may be negative *)
  Direction : Z;      (* uint8 *)
  ExpiredAt : Z;      (* int64 *)
  Nonce : Z;          (* int64 *)
  Sig : list Z;
  SignedHash : string
}.

(** The values a Go program can store in the record. *)
Definition well_typed (tx : L2UpdateMarginTxInfo) : Prop :=
  is_int64 (AccountIndex tx) /\ is_uint8 (ApiKeyIndex tx) /\
  is_uint8 (MarketIndex tx) /\ is_int64 (USDCAmount tx) /\
  is_uint8 (Direction tx) /\ is_int64 (ExpiredAt tx) /\
  is_int64 (Nonce tx).

(** The fields that enter the hash, named after the record's. *)
Inductive field : Set :=
| FNonce | FExpiredAt | FAccountIndex | FApiKeyIndex
| FMarketIndex | FDirection | FUSDCAmount.

(** Protocol constants of the package.  The development is parametric
    in their values. *)
Class Constants : Type := {
  MinAccountIndex : Z;
  MaxAccountIndex : Z;
  MaxApiKeyIndex : Z;
  MinMarketIndex : Z;
  MaxMarketIndex : Z;
  MinNonce : Z;
  MaxTimestamp : Z;
  TxTypeL2UpdateMargin : Z
}.

(** The Goldilocks field and the Poseidon2 sponge of the external
    cryptographic library, at their interface. *)
Class Poseidon : Type := {
  Element : Type;
  FromUint32 : Z -> Element;
  FromInt64 : Z -> Element;
  HashOut : Type;
  HashToQuinticExtension : list Element -> HashOut;
  ToLittleEndianBytes : HashOut -> list Z
}.

Section UpdateMargin.

Context `{K : Constants} `{P : Poseidon}.

(** [Validate]: the checks, in program order; [None] is [nil]. *)
Definition Validate (txInfo : L2UpdateMarginTxInfo) : option error :=
  if AccountIndex txInfo <=? MinAccountIndex then
    Some ErrFromAccountIndexTooLow
  else if AccountIndex txInfo >? MaxAccountIndex then
    Some ErrFromAccountIndexTooHigh
  else if ApiKeyIndex txInfo >? MaxApiKeyIndex then
    Some ErrApiKeyIndexTooHigh
  else if MarketIndex txInfo <? MinMarketIndex then
    Some ErrMarketIndexTooLow
  else if MarketIndex txInfo >? MaxMarketIndex then
    Some ErrMarketIndexTooHigh
  else if USDCAmount txInfo =? 0 then
    Some ErrUSDCAmountIsZero
  else if Nonce txInfo <? MinNonce then
    Some ErrNonceTooLow
  else if (ExpiredAt txInfo <? 0) || (ExpiredAt txInfo >? MaxTimestamp) then
    Some ErrExpiredAtInvalid
  else None.

Definition GetTxType (txInfo : L2UpdateMarginTxInfo) : Z :=
  TxTypeL2UpdateMargin.

Definition GetTxHash (txInfo : L2UpdateMarginTxInfo) : string :=
  SignedHash txInfo.

(** The slice [elems] of [Hash] after its nine [append]s. *)
Definition Hash_elems (txInfo : L2UpdateMarginTxInfo)
    (lighterChainId : Z) : list Element :=
  let elems := [] in
  let elems := elems ++ [FromUint32 lighterChainId] in
  let elems := elems ++ [FromUint32 TxTypeL2UpdateMargin] in
  let elems := elems ++ [FromInt64 (Nonce txInfo)] in
  let elems := elems ++ [FromInt64 (ExpiredAt txInfo)] in
  let elems := elems ++ [FromInt64 (AccountIndex txInfo)] in
  let elems := elems ++ [FromUint32 (uint32 (ApiKeyIndex txInfo))] in
  let elems := elems ++ [FromUint32 (uint32 (MarketIndex txInfo))] in
  let elems := elems ++ [FromUint32 (uint32 (Direction txInfo))] in
  let usdcAmountField := FromInt64 (USDCAmount txInfo) in
  let elems := elems ++ [usdcAmountField] in
  elems.

(** [Hash]: the digest bytes and the error, which is always [nil].
    The variadic [extra] is accepted and never read. *)
Definition Hash (txInfo : L2UpdateMarginTxInfo) (lighterChainId : Z)
    (extra : list Element) : list Z * option error :=
  (ToLittleEndianBytes
     (HashToQuinticExtension (Hash_elems txInfo lighterChainId)),
   None).

(** *** The declared orders, as the specification words them *)

(** How one field is turned into a field element. *)
Definition encode_field (tx : L2UpdateMarginTxInfo) (f : field) : Element :=
  match f with
  | FNonce => FromInt64 (Nonce tx)
  | FExpiredAt => FromInt64 (ExpiredAt tx)
  | FAccountIndex => FromInt64 (AccountIndex tx)
  | FApiKeyIndex => FromUint32 (uint32 (ApiKeyIndex tx))
  | FMarketIndex => FromUint32 (uint32 (MarketIndex tx))
  | FDirection => FromUint32 (uint32 (Direction tx))
  | FUSDCAmount => FromInt64 (USDCAmount tx)
  end.

Definition domain_separator (chainId : Z) : list Element :=
  [FromUint32 chainId; FromUint32 TxTypeL2UpdateMargin].

Definition declared_field_order : list field :=
  [FNonce; FExpiredAt; FAccountIndex; FApiKeyIndex;
   FMarketIndex; FDirection; FUSDCAmount].

(** One range check: when it fails, and the error it reports. *)
Definition check : Type := (L2UpdateMarginTxInfo -> bool) * error.

Definition declared_checks : list check :=
  [ (fun tx => AccountIndex tx <=? MinAccountIndex, ErrFromAccountIndexTooLow);
    (fun tx => AccountIndex tx >? MaxAccountIndex, ErrFromAccountIndexTooHigh);
    (fun tx => ApiKeyIndex tx >? MaxApiKeyIndex, ErrApiKeyIndexTooHigh);
    (fun tx => MarketIndex tx <? MinMarketIndex, ErrMarketIndexTooLow);
    (fun tx => MarketIndex tx >? MaxMarketIndex, ErrMarketIndexTooHigh);
    (fun tx => USDCAmount tx =? 0, ErrUSDCAmountIsZero);
    (fun tx => Nonce tx <? MinNonce, ErrNonceTooLow);
    (fun tx => (ExpiredAt tx <? 0) || (ExpiredAt tx >? MaxTimestamp),
     ErrExpiredAtInvalid) ].

(** The error of the first failing check of a list, if any fails. *)
Fixpoint first_failing (cs : list check) (tx : L2UpdateMarginTxInfo)
    : option error :=
  match cs with
  | [] => None
  | (fails, e) :: cs' => if fails tx then Some e else first_failing cs' tx
  end.

Definition passes (tx : L2UpdateMarginTxInfo) (c : check) : Prop :=
  fst c tx = false.

(** The range conditions, as propositions. *)
Definition account_index_ok (tx : L2UpdateMarginTxInfo) : Prop :=
  MinAccountIndex < AccountIndex tx <= MaxAccountIndex.
Definition api_key_index_ok (tx : L2UpdateMarginTxInfo) : Prop :=
  ApiKeyIndex tx <= MaxApiKeyIndex.
Definition market_index_ok (tx : L2UpdateMarginTxInfo) : Prop :=
  MinMarketIndex <= MarketIndex tx <= MaxMarketIndex.
Definition usdc_amount_ok (tx : L2UpdateMarginTxInfo) : Prop :=
  USDCAmount tx <> 0.
Definition nonce_ok (tx : L2UpdateMarginTxInfo) : Prop :=
  MinNonce <= Nonce tx.
Definition expired_at_ok (tx : L2UpdateMarginTxInfo) : Prop :=
  0 <= ExpiredAt tx <= MaxTimestamp.

End UpdateMargin.

End txtypes.

(** ** Libraries the binding calls *)

(** [encoding/hex] of the Go standard library and [hexutil.Decode] of
    go-ethereum, which [signTransfer] uses to read the memo. *)
Module hexutil.

(** The reverse table of [encoding/hex]: the value of a hexadecimal
    digit of either case; every other byte has none. *)
Definition fromHexChar (c : ascii) : option Z :=
  let n := Z.of_nat (nat_of_ascii c) in
  if (48 <=? n) && (n <=? 57) then Some (n - 48)
  else if (97 <=? n) && (n <=? 102) then Some (n - 97 + 10)
  else if (65 <=? n) && (n <=? 70) then Some (n - 65 + 10)
  else None.

(** [hex.Decode]: two digits make one byte, high nibble first.  The
    result is the bytes decoded before the first error, and the error. *)
Fixpoint hex_Decode (src : list ascii) : list Z * option string :=
  match src with
  | [] => ([], None)
  | [p] =>
      match fromHexChar p with
      | None => ([], Some "invalid hex string"%string)
      | Some _ => ([], Some "hex string of odd length"%string)
      end
  | p :: q :: rest =>
      match fromHexChar p, fromHexChar q with
      | Some a, Some b =>
          let '(bs, err) := hex_Decode rest in
          (Z.lor (Z.shiftl a 4) b :: bs, err)
      | _, _ => ([], Some "invalid hex string"%string)
      end
  end.

Definition has0xPrefix (input : list ascii) : bool :=
  match input with
  | c0 :: c1 :: _ =>
      bool_decide (c0 = "0"%char) &&
      (bool_decide (c1 = "x"%char) || bool_decide (c1 = "X"%char))
  | _ => false
  end.

(** [hexutil.Decode]: the input must carry the [0x] prefix. *)
Definition Decode (input : string) : list Z * option string :=
  let cs := list_ascii_of_string input in
  match cs with
  | [] => ([], Some "empty hex string"%string)
  | _ =>
      if has0xPrefix cs then hex_Decode (drop 2 cs)
      else ([], Some "hex string without 0x prefix"%string)
  end.

(** *** Hexadecimal text, as the specification reads it *)

(** The position of a byte in a string, counted from 0. *)
Fixpoint position (c : ascii) (digits : list ascii) : option Z :=
  match digits with
  | [] => None
  | d :: digits' =>
      if decide (c = d) then Some 0
      else option_map Z.succ (position c digits')
  end.

(** The value of a hexadecimal digit: its position among the sixteen
    digits, written in lower or in upper case. *)
Definition digit_value (c : ascii) : option Z :=
  match position c (list_ascii_of_string "0123456789abcdef") with
  | Some v => Some v
  | None => position c (list_ascii_of_string "0123456789ABCDEF")
  end.

Definition is_hex_digit (c : ascii) : Prop := is_Some (digit_value c).

(** The bytes a hexadecimal text denotes: each pair of digits is one
    byte, sixteen times the first digit plus the second. *)
Fixpoint hex_bytes (cs : list ascii) : list Z :=
  match cs with
  | hi :: lo :: rest =>
      (16 * default 0 (digit_value hi) + default 0 (digit_value lo))
      :: hex_bytes rest
  | _ => []
  end.

End hexutil.

(** ** Package main: the WASM binding *)

Module sharedlib.

(** *** JavaScript arguments *)

(** A [js.Value] as far as the binding looks at it.  [JsNumber n]
    carries the integer [Int()] yields for the number. *)
Inductive jsValue : Type :=
| JsNull
| JsUndefined
| JsNumber (n : Z)
| JsString (s : string)
| JsOther.

Definition IsNull (v : jsValue) : bool :=
  match v with JsNull => true | _ => false end.

Definition IsUndefined (v : jsValue) : bool :=
  match v with JsUndefined => true | _ => false end.

(** *** Records of packages client and types *)

Record HTTPClient : Type := {
  endpoint : string;
  channelName : string;
  fatFingerProtection : bool
}.

(** [NewHTTPClient]; the result is a pointer, [None] is [nil]. *)
Definition NewHTTPClient (baseUrl : string) : option HTTPClient :=
  if decide (baseUrl = ""%string) then None
  else Some {| endpoint := baseUrl;
               channelName := ""%string;
               fatFingerProtection := true |}.

(** A [*client.TxClient]: [None] is [nil], [Some l] the address of a
    client. *)
Definition loc : Type := positive.
Definition TxClientPtr : Type := option loc.

Record TransferTxReq : Type := {
  ToAccountIndex : Z;
  USDCAmount : Z;
  Fee : Z;
  Memo : list Z        (* [32]byte *)
}.

(** The fields of [types.TransactOpts] the binding writes; [Nonce] is
    a pointer. *)
Record TransactOpts : Type := {
  Nonce : option Z;
  ExpiredAt : Z
}.

(** The element type of [orderRequests] in [signCreateGroupedOrders]. *)
Record orderRequest : Type := {
  MarketIndex : Z;
  BaseAmount : Z;
  Price : Z;
  IsAsk : Z;
  Type_ : Z;
  TimeInForce : Z;
  ReduceOnly : Z;
  TriggerPrice : Z;
  OrderExpiry : Z
}.

Record CreateOrderTxReq : Type := {
  ReqMarketIndex : Z;
  ClientOrderIndex : Z;
  ReqBaseAmount : Z;
  ReqPrice : Z;
  ReqIsAsk : Z;
  ReqType : Z;
  ReqTimeInForce : Z;
  ReqReduceOnly : Z;
  ReqTriggerPrice : Z;
  ReqOrderExpiry : Z
}.

Record CreateGroupedOrdersTxReq : Type := {
  GroupingType : Z;
  Orders : list CreateOrderTxReq
}.

(** *** Responses *)

Record ErrorResponse : Type := { Error : string }.

Record StringResponse : Type := {
  Result : string;
  StringResponse_Error : string
}.

(** *** Program state *)

(** A call into package client, as the binding made it. *)
Inductive event : Type :=
| CallNewTxClient (httpClient : option HTTPClient) (privateKey : string)
    (accountIndex apiKeyIndex chainId : Z)
| CallGetTransferTransaction (c : loc) (txInfo : TransferTxReq)
    (ops : TransactOpts)
| CallGetCreateGroupedOrdersTransaction (c : loc)
    (txInfo : CreateGroupedOrdersTxReq) (ops : TransactOpts).

(** The two package-level variables, and two histories that the
    program does not store: the calls made into package client, oldest
    first, and the number of readings of the wall clock. *)
Record State : Type := {
  txClient : TxClientPtr;
  backupTxClients : option (gmap Z TxClientPtr);   (* [None] is the nil map *)
  calls : list event;
  ticks : nat
}.

Definition init : State :=
  {| txClient := None; backupTxClients := None; calls := []; ticks := O |}.

(** What lies outside the binding: the rest of package client, the
    JSON codec, the JavaScript runtime and the clock.  A result of
    package client may depend on the calls made before. *)
Class Host : Type := {
  (** [String()] of a value that is not a string *)
  describe : jsValue -> string;
  (** the transactions package client builds *)
  TransferTx : Type;
  GroupedOrdersTx : Type;
  NewTxClient :
    list event -> option HTTPClient -> string -> Z -> Z -> Z ->
    TxClientPtr * option string;
  GetTransferTransaction :
    list event -> loc -> TransferTxReq -> TransactOpts ->
    string + TransferTx;
  GetCreateGroupedOrdersTransaction :
    list event -> loc -> CreateGroupedOrdersTxReq -> TransactOpts ->
    string + GroupedOrdersTx;
  (** [json.Marshal] of the transfer, the detour through a generic map
      that adds [MessageToSign], and [json.Marshal] of the map; the
      error is already prefixed with the step that failed *)
  transfer_json : TransferTx -> string + string;
  (** [json.Marshal] of the grouped-orders transaction *)
  Marshal_grouped : GroupedOrdersTx -> string + string;
  (** [json.Unmarshal] into [orderRequests] *)
  Unmarshal_orderRequests : string -> string + list orderRequest;
  (** the reading of [time.Now()], in Unix milliseconds, by its rank *)
  now_ms : nat -> Z
}.

(** *** Control flow *)

(** A step of a function body goes on with a value, leaves the function
    with its result, or panics. *)
Inductive flow (R A : Type) : Type :=
| Next (a : A)
| Return (r : R)
| Panic.
Arguments Next {R A} a.
Arguments Return {R A} r.
Arguments Panic {R A}.

Definition M (R A : Type) : Type := State -> State * flow R A.

Definition ret {R A} (a : A) : M R A := fun s => (s, Next a).

Definition bind {R A B} (m : M R A) (k : A -> M R B) : M R B :=
  fun s =>
    match m s with
    | (s', Next a) => k a s'
    | (s', Return r) => (s', Return r)
    | (s', Panic) => (s', Panic)
    end.

Definition leave {R A} (r : R) : M R A := fun s => (s, Return r).
Definition panic {R A} : M R A := fun s => (s, Panic).
Definition get {R} : M R State := fun s => (s, Next s).

(** The exported functions return [any] through an unnamed result and
    recover from panics in a deferred function: after a panic the caller
    receives [nil], here [None]. *)
Definition run {R} (body : M R R) (s : State) : State * option R :=
  match body s with
  | (s', Next r) => (s', Some r)
  | (s', Return r) => (s', Some r)
  | (s', Panic) => (s', None)
  end.

Notation "'let*' x ':=' m 'in' k" := (bind m (fun x => k))
  (at level 10, x pattern, m at level 100, k at level 200).

(** *** Globals, by name *)

Definition with_txClient (c : TxClientPtr) (s : State) : State :=
  {| txClient := c; backupTxClients := backupTxClients s;
     calls := calls s; ticks := ticks s |}.

Definition with_backupTxClients (m : option (gmap Z TxClientPtr))
    (s : State) : State :=
  {| txClient := txClient s; backupTxClients := m;
     calls := calls s; ticks := ticks s |}.

Definition set_txClient {R} (c : TxClientPtr) : M R unit :=
  fun s => (with_txClient c s, Next tt).

Definition set_backupTxClients {R} (m : option (gmap Z TxClientPtr))
    : M R unit :=
  fun s => (with_backupTxClients m s, Next tt).

(** Records a call into package client and hands its history to [f]. *)
Definition call {R A} (e : event) (f : list event -> A) : M R A :=
  fun s =>
    ({| txClient := txClient s; backupTxClients := backupTxClients s;
        calls := calls s ++ [e]; ticks := ticks s |}, Next (f (calls s))).

(** Reading a map that may be [nil]: a [nil] map has no keys. *)
Definition map_lookup (m : option (gmap Z TxClientPtr)) (k : Z)
    : option TxClientPtr :=
  match m with
  | None => None
  | Some m => m !! k
  end.

Section Binding.

Context `{H : Host}.

(** [time.Now()], in Unix milliseconds. *)
Definition time_Now {R} : M R Z :=
  fun s =>
    ({| txClient := txClient s; backupTxClients := backupTxClients s;
        calls := calls s; ticks := S (ticks s) |}, Next (now_ms (ticks s))).

(** [args[i]]; an index out of range panics. *)
Definition index {R} (args : list jsValue) (i : nat) : M R jsValue :=
  match args !! i with
  | Some v => ret v
  | None => panic
  end.

(** [Value.Int()] panics unless the value is a number. *)
Definition Int {R} (v : jsValue) : M R Z :=
  match v with
  | JsNumber n => ret n
  | _ => panic
  end.

(** [Value.String()] never panics. *)
Definition String (v : jsValue) : string :=
  match v with
  | JsString s => s
  | _ => describe v
  end.

Definition validateArg (args : list jsValue) (index : nat)
    (argName : string) : option string :=
  if (length args <=? index)%nat then
    Some ("missing required argument: " +:+ argName +:+
          " (index " +:+ pretty index +:+ ")")%string
  else
    match args !! index with
    | Some v =>
        if IsNull v then
          Some ("argument " +:+ argName +:+ " cannot be null")%string
        else if IsUndefined v then
          Some ("argument " +:+ argName +:+ " cannot be undefined")%string
        else None
    | None => None
    end.

(** The pattern after each [validateArg]: leave with the error. *)
Definition require {R} (mk : string -> R) (args : list jsValue)
    (index : nat) (argName : string) : M R unit :=
  match validateArg args index argName with
  | Some err => leave (mk err)
  | None => ret tt
  end.

Definition errorResponse (msg : string) : ErrorResponse :=
  {| Error := msg |}.

Definition stringError (msg : string) : StringResponse :=
  {| Result := ""%string; StringResponse_Error := msg |}.

(** *** Function #2: createClient *)

Definition createClient_body (args : list jsValue)
    : M ErrorResponse ErrorResponse :=
  if negb (length args =? 5)%nat then
    leave (errorResponse
      "createClient requires 5 arguments: url, privateKey, chainId, apiKeyIndex, accountIndex")
  else
  let* _ := require errorResponse args 0 "url" in
  let* _ := require errorResponse args 1 "privateKey" in
  let* _ := require errorResponse args 2 "chainId" in
  let* _ := require errorResponse args 3 "apiKeyIndex" in
  let* _ := require errorResponse args 4 "accountIndex" in
  let* a0 := index args 0 in
  let url := String a0 in
  let* a1 := index args 1 in
  let privateKey := String a1 in
  let* a2 := index args 2 in
  let* n2 := Int a2 in
  let chainId := uint32 n2 in
  let* a3 := index args 3 in
  let* n3 := Int a3 in
  let apiKeyIndex := uint8 n3 in
  let* a4 := index args 4 in
  let* n4 := Int a4 in
  let accountIndex := int64 n4 in
  if accountIndex <=? 0 then
    leave (errorResponse "invalid account index")
  else
  let httpClient := NewHTTPClient url in
  let* (c, err) :=
    call (CallNewTxClient httpClient privateKey accountIndex
            apiKeyIndex chainId)
         (fun past => NewTxClient past httpClient privateKey
                        accountIndex apiKeyIndex chainId) in
  let* _ := set_txClient c in
  match err with
  | Some e =>
      leave (errorResponse
        ("error occurred when creating TxClient. err: " +:+ e))
  | None =>
      let* s := get in
      let* _ :=
        match backupTxClients s with
        | None => set_backupTxClients (Some ∅)
        | Some _ => ret tt
        end in
      let* s := get in
      match backupTxClients s with
      | None => panic   (* assignment to an entry of a nil map *)
      | Some m =>
          let* _ :=
            set_backupTxClients (Some (<[apiKeyIndex := txClient s]> m)) in
          ret (errorResponse "")
      end
  end.

Definition createClient (args : list jsValue) (s : State)
    : State * option ErrorResponse :=
  run (createClient_body args) s.

(** *** Function #20: switchAPIKey *)

Definition switchAPIKey_body (args : list jsValue)
    : M ErrorResponse ErrorResponse :=
  if negb (length args =? 1)%nat then
    leave (errorResponse "switchAPIKey requires 1 argument: apiKeyIndex")
  else
  let* _ := require errorResponse args 0 "apiKeyIndex" in
  let* a0 := index args 0 in
  let* n0 := Int a0 in
  let apiKeyIndex := uint8 n0 in
  let* s := get in
  match map_lookup (backupTxClients s) apiKeyIndex with
  | None => leave (errorResponse "no client initialized for api key")
  | Some client =>
      let* _ := set_txClient client in
      ret (errorResponse "")
  end.

Definition switchAPIKey (args : list jsValue) (s : State)
    : State * option ErrorResponse :=
  run (switchAPIKey_body args) s.

(** *** Function #11: signTransfer *)

(** The builtin [copy]: the common prefix of [dst] is overwritten. *)
Definition copy (dst src : list Z) : list Z :=
  take (length dst) src ++ drop (length src) dst.

(** The memo array of [signTransfer], from [memoStr]. *)
Definition transfer_memo (memoStr : string)
    : M StringResponse (list Z) :=
  let memo := replicate 32 0 in
  if decide (memoStr <> ""%string) then
    if negb (String.length memoStr =? 64)%nat then
      leave (stringError
        "memo expected to be 64 hex characters (32 bytes) or empty string")
    else
    let (memoBytes, err) := hexutil.Decode ("0x" +:+ memoStr) in
    match err with
    | Some e => leave (stringError ("invalid hex memo: " +:+ e))
    | None =>
        if negb (length memoBytes =? 32)%nat then
          leave (stringError
            ("memo must be exactly 32 bytes, got " +:+
             pretty (length memoBytes)))
        else ret (copy memo memoBytes)
    end
  else ret memo.

Definition signTransfer_body (args : list jsValue)
    : M StringResponse StringResponse :=
  if negb (length args =? 5)%nat then
    leave (stringError
      "signTransfer requires 5 arguments: toAccountIndex, usdcAmount, fee, memo, nonce")
  else
  let* _ := require stringError args 0 "toAccountIndex" in
  let* _ := require stringError args 1 "usdcAmount" in
  let* _ := require stringError args 2 "fee" in
  let* _ := require stringError args 3 "memo" in
  let* _ := require stringError args 4 "nonce" in
  let* s := get in
  match txClient s with
  | None =>
      leave (stringError "client is not created, call CreateClient() first")
  | Some c =>
      let* a0 := index args 0 in
      let* n0 := Int a0 in
      let toAccountIndex := int64 n0 in
      let* a1 := index args 1 in
      let* n1 := Int a1 in
      let usdcAmount := int64 n1 in
      let* a2 := index args 2 in
      let* n2 := Int a2 in
      let fee := int64 n2 in
      let* a3 := index args 3 in
      let memoStr := String a3 in
      let* a4 := index args 4 in
      let* n4 := Int a4 in
      let nonce := int64 n4 in
      let* memo := transfer_memo memoStr in
      let txInfo :=
        {| ToAccountIndex := toAccountIndex;
           USDCAmount := usdcAmount;
           Fee := fee;
           Memo := memo |} in
      let ops :=
        {| Nonce := if negb (nonce =? -1) then Some nonce else None;
           ExpiredAt := 0 |} in
      let* r :=
        call (CallGetTransferTransaction c txInfo ops)
             (fun past => GetTransferTransaction past c txInfo ops) in
      match r with
      | inl e =>
          leave (stringError ("failed to create transaction: " +:+ e))
      | inr tx =>
          match transfer_json tx with
          | inl e => leave (stringError e)
          | inr txInfoBytes =>
              ret {| Result := txInfoBytes;
                     StringResponse_Error := ""%string |}
          end
      end
  end.

Definition signTransfer (args : list jsValue) (s : State)
    : State * option StringResponse :=
  run (signTransfer_body args) s.

(** *** Function #18: signCreateGroupedOrders *)

(** 28 days, in milliseconds. *)
Definition days28_ms : Z := 28 * 24 * 3600 * 1000.

(** The loop that fills [orders], one leg per request. *)
Fixpoint build_orders {R} (orderRequests : list orderRequest)
    (orders : list CreateOrderTxReq) : M R (list CreateOrderTxReq) :=
  match orderRequests with
  | [] => ret orders
  | orderReq :: rest =>
      let* orderExpiry :=
        if OrderExpiry orderReq =? -1 then
          let* now := time_Now in ret (now + days28_ms)
        else ret (OrderExpiry orderReq) in
      build_orders rest
        (orders ++
         [ {| ReqMarketIndex := MarketIndex orderReq;
              ClientOrderIndex := 0;
              ReqBaseAmount := BaseAmount orderReq;
              ReqPrice := Price orderReq;
              ReqIsAsk := IsAsk orderReq;
              ReqType := Type_ orderReq;
              ReqTimeInForce := TimeInForce orderReq;
              ReqReduceOnly := ReduceOnly orderReq;
              ReqTriggerPrice := TriggerPrice orderReq;
              ReqOrderExpiry := orderExpiry |} ])
  end.

Definition signCreateGroupedOrders_body (args : list jsValue)
    : M StringResponse StringResponse :=
  if negb (length args =? 4)%nat then
    leave (stringError
      "signCreateGroupedOrders requires 4 arguments: groupingType, ordersJSON, expiredAt, nonce")
  else
  let* _ := require stringError args 0 "groupingType" in
  let* _ := require stringError args 1 "ordersJSON" in
  let* _ := require stringError args 2 "expiredAt" in
  let* _ := require stringError args 3 "nonce" in
  let* s := get in
  match txClient s with
  | None =>
      leave (stringError "client is not created, call CreateClient() first")
  | Some c =>
      let* a0 := index args 0 in
      let* n0 := Int a0 in
      let groupingType := uint8 n0 in
      let* a1 := index args 1 in
      let ordersJSON := String a1 in
      let* a2 := index args 2 in
      let* n2 := Int a2 in
      let expiredAt := int64 n2 in
      let* a3 := index args 3 in
      let* n3 := Int a3 in
      let nonce := int64 n3 in
      match Unmarshal_orderRequests ordersJSON with
      | inl e => leave (stringError ("failed to parse ordersJSON: " +:+ e))
      | inr orderRequests =>
          if (length orderRequests <? 2)%nat || (3 <? length orderRequests)%nat
          then leave (stringError "grouped orders must contain 2 or 3 orders")
          else
          let* orders := build_orders orderRequests [] in
          let txInfo :=
            {| GroupingType := groupingType; Orders := orders |} in
          let ops :=
            {| Nonce := if negb (nonce =? -1) then Some nonce else None;
               ExpiredAt :=
                 if negb (expiredAt =? -1) then expiredAt else 0 |} in
          let* r :=
            call (CallGetCreateGroupedOrdersTransaction c txInfo ops)
                 (fun past =>
                    GetCreateGroupedOrdersTransaction past c txInfo ops) in
          match r with
          | inl e =>
              leave (stringError ("failed to create transaction: " +:+ e))
          | inr tx =>
              match Marshal_grouped tx with
              | inl e =>
                  leave (stringError
                    ("failed to marshal transaction: " +:+ e))
              | inr txInfoBytes =>
                  ret {| Result := txInfoBytes;
                         StringResponse_Error := ""%string |}
              end
          end
      end
  end.

Definition signCreateGroupedOrders (args : list jsValue) (s : State)
    : State * option StringResponse :=
  run (signCreateGroupedOrders_body args) s.

(** *** Sequences of calls *)

(** The client a recorded signing call was made on. *)
Definition signed_by (c : TxClientPtr) (e : event) : Prop :=
  match e with
  | CallNewTxClient _ _ _ _ _ => False
  | CallGetTransferTransaction l _ _ => c = Some l
  | CallGetCreateGroupedOrdersTransaction l _ _ => c = Some l
  end.

(** Every leg of a recorded grouped-orders call has client order
    index 0. *)
Definition legs_without_client_order_index (e : event) : Prop :=
  match e with
  | CallGetCreateGroupedOrdersTransaction _ txInfo _ =>
      Forall (fun o => ClientOrderIndex o = 0) (Orders txInfo)
  | _ => True
  end.

Inductive signing_call : Type :=
| SignTransfer (args : list jsValue)
| SignCreateGroupedOrders (args : list jsValue).

Definition sign (c : signing_call) (s : State) : State :=
  match c with
  | SignTransfer args => fst (signTransfer args s)
  | SignCreateGroupedOrders args => fst (signCreateGroupedOrders args s)
  end.

Inductive registry_call : Type :=
| CreateClient (args : list jsValue)
| SwitchAPIKey (args : list jsValue).

Definition invoke (c : registry_call) (s : State)
    : State * option ErrorResponse :=
  match c with
  | CreateClient args => createClient args s
  | SwitchAPIKey args => switchAPIKey args s
  end.

(** A call succeeded when its response carries no error. *)
Definition succeeded (r : option ErrorResponse) : Prop :=
  r = Some (errorResponse "").

(** [runs cs s s']: the calls [cs], made in order from [s], all
    succeed and end in [s']. *)
Inductive runs : list registry_call -> State -> State -> Prop :=
| runs_nil s : runs [] s s
| runs_cons c cs s s1 s' r :
    invoke c s = (s1, r) -> succeeded r -> runs cs s1 s' ->
    runs (c :: cs) s s'.

(** The registry maps some api-key index to [c]. *)
Definition registered (s : State) (c : TxClientPtr) : Prop :=
  exists k, map_lookup (backupTxClients s) k = Some c.

(** *** What a step leaves untouched *)

(** [appends E s s']: the two globals of [s'] are those of [s], and
    the calls recorded in between all satisfy [E]. *)
Definition appends (E : event -> Prop) (s s' : State) : Prop :=
  txClient s' = txClient s /\ backupTxClients s' = backupTxClients s /\
  exists new, calls s' = calls s ++ new /\ Forall E new.

(** [keeps c E m Q]: run from a state whose active client is [c],
    the step [m] only appends calls that satisfy [E], and a value it
    goes on with satisfies [Q]. *)
Definition keeps {R A} (c : TxClientPtr) (E : event -> Prop)
    (m : M R A) (Q : A -> Prop) : Prop :=
  forall s, txClient s = c ->
    appends E s (fst (m s)) /\ forall a, snd (m s) = Next a -> Q a.

End Binding.

End sharedlib.

(** ** Instances to run the definitions on *)

(** Bounds in the shape the protocol uses: indices from 0, 48-bit
    account indices and timestamps, one reserved value at the top of
    each index range. *)
Definition sample_constants : txtypes.Constants :=
  {| txtypes.MinAccountIndex := 0;
     txtypes.MaxAccountIndex := 2 ^ 48 - 2;
     txtypes.MaxApiKeyIndex := 254;
     txtypes.MinMarketIndex := 0;
     txtypes.MaxMarketIndex := 254;
     txtypes.MinNonce := 0;
     txtypes.MaxTimestamp := 2 ^ 48 - 1;
     txtypes.TxTypeL2UpdateMargin := 29 |}.

Definition sample_tx : txtypes.L2UpdateMarginTxInfo :=
  {| txtypes.AccountIndex := 7;
     txtypes.ApiKeyIndex := 3;
     txtypes.MarketIndex := 1;
     txtypes.USDCAmount := -2500000;
     txtypes.Direction := 1;
     txtypes.ExpiredAt := 1700000000000;
     txtypes.Nonce := 12;
     txtypes.Sig := [];
     txtypes.SignedHash := ""%string |}.

(** [sample_tx] with another account index, and with another amount. *)
Definition with_AccountIndex (v : Z) (tx : txtypes.L2UpdateMarginTxInfo)
    : txtypes.L2UpdateMarginTxInfo :=
  {| txtypes.AccountIndex := v;
     txtypes.ApiKeyIndex := txtypes.ApiKeyIndex tx;
     txtypes.MarketIndex := txtypes.MarketIndex tx;
     txtypes.USDCAmount := txtypes.USDCAmount tx;
     txtypes.Direction := txtypes.Direction tx;
     txtypes.ExpiredAt := txtypes.ExpiredAt tx;
     txtypes.Nonce := txtypes.Nonce tx;
     txtypes.Sig := txtypes.Sig tx;
     txtypes.SignedHash := txtypes.SignedHash tx |}.

Definition with_USDCAmount (v : Z) (tx : txtypes.L2UpdateMarginTxInfo)
    : txtypes.L2UpdateMarginTxInfo :=
  {| txtypes.AccountIndex := txtypes.AccountIndex tx;
     txtypes.ApiKeyIndex := txtypes.ApiKeyIndex tx;
     txtypes.MarketIndex := txtypes.MarketIndex tx;
     txtypes.USDCAmount := v;
     txtypes.Direction := txtypes.Direction tx;
     txtypes.ExpiredAt := txtypes.ExpiredAt tx;
     txtypes.Nonce := txtypes.Nonce tx;
     txtypes.Sig := txtypes.Sig tx;
     txtypes.SignedHash := txtypes.SignedHash tx |}.

(** A host to run the binding on.  Every call into package client
    succeeds, except that an empty private key is refused; a new client
    lives at the first address no earlier call was given.  The order
    list is read off the length of the JSON text, one leg per byte, and
    the clock shows one second past the epoch per reading. *)
Definition sample_leg : sharedlib.orderRequest :=
  {| sharedlib.MarketIndex := 1;
     sharedlib.BaseAmount := 401;
     sharedlib.Price := 3000;
     sharedlib.IsAsk := 1;
     sharedlib.Type_ := 2;
     sharedlib.TimeInForce := 0;
     sharedlib.ReduceOnly := 1;
     sharedlib.TriggerPrice := 2900;
     sharedlib.OrderExpiry := -1 |}.

Definition sample_host : sharedlib.Host :=
  {| sharedlib.describe := fun _ => "<value>"%string;
     sharedlib.TransferTx := sharedlib.TransferTxReq;
     sharedlib.GroupedOrdersTx := sharedlib.CreateGroupedOrdersTxReq;
     sharedlib.NewTxClient := fun past _ privateKey _ _ _ =>
       if decide (privateKey = ""%string)
       then (None, Some "empty private key"%string)
       else (Some (Pos.of_succ_nat (length past)), None);
     sharedlib.GetTransferTransaction := fun _ _ txInfo _ => inr txInfo;
     sharedlib.GetCreateGroupedOrdersTransaction :=
       fun _ _ txInfo _ => inr txInfo;
     sharedlib.transfer_json := fun _ => inr "{}"%string;
     sharedlib.Marshal_grouped := fun _ => inr "{}"%string;
     sharedlib.Unmarshal_orderRequests := fun ordersJSON =>
       inr (replicate (String.length ordersJSON) sample_leg);
     sharedlib.now_ms := fun k => 1000 * Z.of_nat (S k) |}.

(** The state after [createClient] for api-key index 0 and then for
    api-key index 1, on [sample_host]. *)
Definition two_clients : sharedlib.State :=
  {| sharedlib.txClient := Some 2%positive;
     sharedlib.backupTxClients :=
       Some (<[1 := Some 2%positive]> (<[0 := Some 1%positive]> ∅));
     sharedlib.calls :=
       [ sharedlib.CallNewTxClient
           (sharedlib.NewHTTPClient "https://example.org") "0xaa" 7 0 300;
         sharedlib.CallNewTxClient
           (sharedlib.NewHTTPClient "https://example.org") "0xbb" 7 1 300 ];
     sharedlib.ticks := O |}.

Definition create_args (privateKey : string) (apiKeyIndex : Z)
    : list sharedlib.jsValue :=
  [ sharedlib.JsString "https://example.org"; sharedlib.JsString privateKey;
    sharedlib.JsNumber 300; sharedlib.JsNumber apiKeyIndex;
    sharedlib.JsNumber 7 ].

(** Arguments of the kind the tests of the binding pass. *)
Definition test_memo : string :=
  "0123456789abcdef0123456789abcdef0123456789abcdef0123456789abcdef".

Definition transfer_args (memo : string) : list sharedlib.jsValue :=
  [ sharedlib.JsNumber 8; sharedlib.JsNumber 1000000; sharedlib.JsNumber 1000;
    sharedlib.JsString memo; sharedlib.JsNumber 201 ].

Definition transfer_request (memo : list Z) : sharedlib.event :=
  sharedlib.CallGetTransferTransaction 2%positive
    {| sharedlib.ToAccountIndex := 8;
       sharedlib.USDCAmount := 1000000;
       sharedlib.Fee := 1000;
       sharedlib.Memo := memo |}
    {| sharedlib.Nonce := Some 201; sharedlib.ExpiredAt := 0 |}.

Definition grouped_args (ordersJSON : string) : list sharedlib.jsValue :=
  [ sharedlib.JsNumber 1; sharedlib.JsString ordersJSON;
    sharedlib.JsNumber (-1); sharedlib.JsNumber 301 ].

Definition three_calls : list sharedlib.registry_call :=
  [ sharedlib.CreateClient (create_args "0xaa" 0);
    sharedlib.CreateClient (create_args "0xbb" 1);
    sharedlib.SwitchAPIKey [sharedlib.JsNumber 0] ].

(** ** Further definitions *)

(** *** Update-margin transactions that differ in one field *)

Definition with_ExpiredAt (v : Z) (tx : txtypes.L2UpdateMarginTxInfo)
    : txtypes.L2UpdateMarginTxInfo :=
  {| txtypes.AccountIndex := txtypes.AccountIndex tx;
     txtypes.ApiKeyIndex := txtypes.ApiKeyIndex tx;
     txtypes.MarketIndex := txtypes.MarketIndex tx;
     txtypes.USDCAmount := txtypes.USDCAmount tx;
     txtypes.Direction := txtypes.Direction tx;
     txtypes.ExpiredAt := v;
     txtypes.Nonce := txtypes.Nonce tx;
     txtypes.Sig := txtypes.Sig tx;
     txtypes.SignedHash := txtypes.SignedHash tx |}.

Definition with_Nonce (v : Z) (tx : txtypes.L2UpdateMarginTxInfo)
    : txtypes.L2UpdateMarginTxInfo :=
  {| txtypes.AccountIndex := txtypes.AccountIndex tx;
     txtypes.ApiKeyIndex := txtypes.ApiKeyIndex tx;
     txtypes.MarketIndex := txtypes.MarketIndex tx;
     txtypes.USDCAmount := txtypes.USDCAmount tx;
     txtypes.Direction := txtypes.Direction tx;
     txtypes.ExpiredAt := txtypes.ExpiredAt tx;
     txtypes.Nonce := v;
     txtypes.Sig := txtypes.Sig tx;
     txtypes.SignedHash := txtypes.SignedHash tx |}.

(** Two transactions with the same account index, api-key index, market
    index, amount, nonce and expiry. *)
Definition same_bounded_fields (tx1 tx2 : txtypes.L2UpdateMarginTxInfo)
    : Prop :=
  txtypes.AccountIndex tx1 = txtypes.AccountIndex tx2 /\
  txtypes.ApiKeyIndex tx1 = txtypes.ApiKeyIndex tx2 /\
  txtypes.MarketIndex tx1 = txtypes.MarketIndex tx2 /\
  txtypes.USDCAmount tx1 = txtypes.USDCAmount tx2 /\
  txtypes.Nonce tx1 = txtypes.Nonce tx2 /\
  txtypes.ExpiredAt tx1 = txtypes.ExpiredAt tx2.

(** The same transaction, signed: another signature and signed hash. *)
Definition with_signature (sig : list Z) (signedHash : string)
    (tx : txtypes.L2UpdateMarginTxInfo) : txtypes.L2UpdateMarginTxInfo :=
  {| txtypes.AccountIndex := txtypes.AccountIndex tx;
     txtypes.ApiKeyIndex := txtypes.ApiKeyIndex tx;
     txtypes.MarketIndex := txtypes.MarketIndex tx;
     txtypes.USDCAmount := txtypes.USDCAmount tx;
     txtypes.Direction := txtypes.Direction tx;
     txtypes.ExpiredAt := txtypes.ExpiredAt tx;
     txtypes.Nonce := txtypes.Nonce tx;
     txtypes.Sig := sig;
     txtypes.SignedHash := signedHash |}.

(** *** Hexadecimal text of bytes *)

(** The lower-case digit of a value below 16. *)
Definition hex_digit (v : Z) : ascii :=
  nth (Z.to_nat v) (list_ascii_of_string "0123456789abcdef") "0"%char.

(** Two lower-case digits per byte, high nibble first, as the test of
    [signTransfer] prints a memo. *)
Fixpoint hex_text (bs : list Z) : list ascii :=
  match bs with
  | [] => []
  | b :: bs' => hex_digit (b / 16) :: hex_digit (b mod 16) :: hex_text bs'
  end.

(** *** Calls of the binding *)

Section MoreBinding.

Import sharedlib.
Context `{H : Host}.

(** How a leg of a grouped order follows from its request, given the
    expiry the loop settled on. *)
Definition leg_of (orderReq : orderRequest) (orderExpiry : Z)
    : CreateOrderTxReq :=
  {| ReqMarketIndex := MarketIndex orderReq;
     ClientOrderIndex := 0;
     ReqBaseAmount := BaseAmount orderReq;
     ReqPrice := Price orderReq;
     ReqIsAsk := IsAsk orderReq;
     ReqType := Type_ orderReq;
     ReqTimeInForce := TimeInForce orderReq;
     ReqReduceOnly := ReduceOnly orderReq;
     ReqTriggerPrice := TriggerPrice orderReq;
     ReqOrderExpiry := orderExpiry |}.

(** The legs for a list of requests when the clock has been read
    [tick] times before: a request with expiry -1 takes the next reading
    plus 28 days, any other keeps its own expiry. *)
Fixpoint legs_from (tick : nat) (orderRequests : list orderRequest)
    : list CreateOrderTxReq :=
  match orderRequests with
  | [] => []
  | orderReq :: rest =>
      if OrderExpiry orderReq =? -1
      then leg_of orderReq (now_ms tick + days28_ms) :: legs_from (S tick) rest
      else leg_of orderReq (OrderExpiry orderReq) :: legs_from tick rest
  end.

(** The number of requests that leave the expiry to the binding. *)
Definition default_expiries (orderRequests : list orderRequest) : nat :=
  length (filter (fun r => OrderExpiry r = -1) orderRequests).

(** Any call of the functions modelled so far. *)
Inductive api_call : Type :=
| Registry (c : registry_call)
| Signing (c : signing_call).

Definition perform (c : api_call) (s : State) : State :=
  match c with
  | Registry c => fst (invoke c s)
  | Signing c => sign c s
  end.

Definition perform_all (cs : list api_call) (s : State) : State :=
  foldl (fun s c => perform c s) s cs.

(** The api-key index a call of [createClient] registers under, when its
    fourth argument is a number. *)
Definition creates_at (c : api_call) (k : Z) : Prop :=
  match c with
  | Registry (CreateClient args) =>
      exists n, args !! 3%nat = Some (JsNumber n) /\ uint8 n = k
  | _ => False
  end.

End MoreBinding.

(** ** Package main: the other exported functions *)

Definition uint16 (x : Z) : Z := x mod 2 ^ 16.
Definition uint64 (x : Z) : Z := x mod 2 ^ 64.

Module exports.

Import sharedlib.

(** *** Requests of package types *)

Module ChangePubKeyReq.
Record t : Type := { PubKey : list Z }.   (* [40]byte *)
End ChangePubKeyReq.

Module CancelOrderTxReq.
Record t : Type := { MarketIndex : Z; Index : Z }.
End CancelOrderTxReq.

Module WithdrawTxReq.
Record t : Type := { USDCAmount : Z }.   (* uint64 *)
End WithdrawTxReq.

Module CancelAllOrdersTxReq.
Record t : Type := { TimeInForce : Z; Time : Z }.
End CancelAllOrdersTxReq.

Module ModifyOrderTxReq.
Record t : Type := {
  MarketIndex : Z;
  Index : Z;
  BaseAmount : Z;
  Price : Z;
  TriggerPrice : Z
}.
End ModifyOrderTxReq.

Module CreatePublicPoolTxReq.
Record t : Type := {
  OperatorFee : Z;
  InitialTotalShares : Z;
  MinOperatorShareRate : Z
}.
End CreatePublicPoolTxReq.

Module UpdatePublicPoolTxReq.
Record t : Type := {
  PublicPoolIndex : Z;
  Status : Z;
  OperatorFee : Z;
  MinOperatorShareRate : Z
}.
End UpdatePublicPoolTxReq.

Module MintSharesTxReq.
Record t : Type := { PublicPoolIndex : Z; ShareAmount : Z }.
End MintSharesTxReq.

Module BurnSharesTxReq.
Record t : Type := { PublicPoolIndex : Z; ShareAmount : Z }.
End BurnSharesTxReq.

Module UpdateLeverageTxReq.
Record t : Type := {
  MarketIndex : Z;
  InitialMarginFraction : Z;   (* uint16 *)
  MarginMode : Z
}.
End UpdateLeverageTxReq.

Module UpdateMarginTxReq.
Record t : Type := { MarketIndex : Z; USDCAmount : Z; Direction : Z }.
End UpdateMarginTxReq.

(** What a signing function asks of the active client: the method of
    [*client.TxClient] it calls, with the request it passes. *)
Inductive request : Type :=
| GetChangePubKeyTransaction (txInfo : ChangePubKeyReq.t)
| GetCreateOrderTransaction (txInfo : CreateOrderTxReq)
| GetCancelOrderTransaction (txInfo : CancelOrderTxReq.t)
| GetWithdrawTransaction (txInfo : WithdrawTxReq.t)
| GetCreateSubAccountTransaction
| GetCancelAllOrdersTransaction (txInfo : CancelAllOrdersTxReq.t)
| GetModifyOrderTransaction (txInfo : ModifyOrderTxReq.t)
| GetCreatePublicPoolTransaction (txInfo : CreatePublicPoolTxReq.t)
| GetUpdatePublicPoolTransaction (txInfo : UpdatePublicPoolTxReq.t)
| GetMintSharesTransaction (txInfo : MintSharesTxReq.t)
| GetBurnSharesTransaction (txInfo : BurnSharesTxReq.t)
| GetUpdateLeverageTransaction (txInfo : UpdateLeverageTxReq.t)
| GetUpdateMarginTransaction (txInfo : UpdateMarginTxReq.t).

(** What package client and the JSON codec answer during one call of
    the binding.  Nothing is assumed about the answers, and two calls of
    the binding may be given different ones. *)
Class TxClient : Type := {
  (** a signed transaction *)
  Tx : Type;
  (** [txClient.Get...Transaction(txInfo, ops)] *)
  GetTransaction : loc -> request -> TransactOpts -> string + Tx;
  (** [json.Marshal(tx)] *)
  Marshal : Tx -> string + string;
  (** [json.Marshal(tx)], the detour through a generic map that adds
      [MessageToSign], and [json.Marshal] of the map; the error is
      already prefixed with the step that failed *)
  Marshal_with_MessageToSign : Tx -> string + string;
  (** [txClient.GetAuthToken(time.Unix(deadline, 0))] *)
  GetAuthToken : loc -> Z -> string + string
}.

Section Exports.

Context `{H : Host} `{T : TxClient}.

(** *** Blocks the functions share *)

(** [args[i].Int()] *)
Definition number {R} (args : list jsValue) (i : nat) : M R Z :=
  let* a := index args i in Int a.

(** The check that a client exists. *)
Definition active_client : M StringResponse loc :=
  let* s := get in
  match txClient s with
  | None =>
      leave (stringError "client is not created, call CreateClient() first")
  | Some c => ret c
  end.

(** [ops := new(types.TransactOpts)], with the nonce unless it is -1. *)
Definition new_opts (nonce : Z) : TransactOpts :=
  {| Nonce := if negb (nonce =? -1) then Some nonce else None;
     ExpiredAt := 0 |}.

(** From the call into package client to the response. *)
Definition respond (r : string + Tx) : M StringResponse StringResponse :=
  match r with
  | inl e => leave (stringError ("failed to create transaction: " +:+ e))
  | inr tx =>
      match Marshal tx with
      | inl e => leave (stringError ("failed to marshal transaction: " +:+ e))
      | inr txInfoBytes =>
          ret {| Result := txInfoBytes; StringResponse_Error := ""%string |}
      end
  end.

(** The loop of [signCreateOrder] over [argNames]. *)
Fixpoint require_from {R} (mk : string -> R) (args : list jsValue)
    (i : nat) (argNames : list string) : M R unit :=
  match argNames with
  | [] => ret tt
  | argName :: rest =>
      let* _ := require mk args i argName in
      require_from mk args (S i) rest
  end.

(** *** Function #4: signChangePubKey *)

Definition signChangePubKey_body (args : list jsValue)
    : M StringResponse StringResponse :=
  if negb (length args =? 2)%nat then
    leave (stringError "signChangePubKey requires 2 arguments: pubKey, nonce")
  else
  let* _ := require stringError args 0 "pubKey" in
  let* _ := require stringError args 1 "nonce" in
  let* c := active_client in
  let* a0 := index args 0 in
  let pubKeyStr := String a0 in
  let* n1 := number args 1 in
  let nonce := int64 n1 in
  let (pubKeyBytes, err) := hexutil.Decode pubKeyStr in
  match err with
  | Some e => leave (stringError ("invalid public key format: " +:+ e))
  | None =>
      if negb (length pubKeyBytes =? 40)%nat then
        leave (stringError
          ("invalid pub key length. expected 40 but got " +:+
           pretty (length pubKeyBytes)))
      else
      let pubKey := copy (replicate 40 0) pubKeyBytes in
      let txInfo := {| ChangePubKeyReq.PubKey := pubKey |} in
      let ops := new_opts nonce in
      match GetTransaction c (GetChangePubKeyTransaction txInfo) ops with
      | inl e => leave (stringError ("failed to create transaction: " +:+ e))
      | inr tx =>
          match Marshal_with_MessageToSign tx with
          | inl e => leave (stringError e)
          | inr txInfoBytes =>
              ret {| Result := txInfoBytes;
                     StringResponse_Error := ""%string |}
          end
      end
  end.

(** *** Function #5: signCreateOrder *)

Definition signCreateOrder_argNames : list string :=
  [ "marketIndex"; "clientOrderIndex"; "baseAmount"; "price"; "isAsk";
    "orderType"; "timeInForce"; "reduceOnly"; "triggerPrice"; "orderExpiry";
    "nonce" ]%string.

Definition signCreateOrder_body (args : list jsValue)
    : M StringResponse StringResponse :=
  if negb (length args =? 11)%nat then
    leave (stringError
      "signCreateOrder requires 11 arguments: marketIndex, clientOrderIndex, baseAmount, price, isAsk, orderType, timeInForce, reduceOnly, triggerPrice, orderExpiry, nonce")
  else
  let* _ := require_from stringError args 0 signCreateOrder_argNames in
  let* c := active_client in
  let* n0 := number args 0 in
  let marketIndex := uint8 n0 in
  let* n1 := number args 1 in
  let clientOrderIndex := int64 n1 in
  let* n2 := number args 2 in
  let baseAmount := int64 n2 in
  let* n3 := number args 3 in
  let price := uint32 n3 in
  let* n4 := number args 4 in
  let isAsk := uint8 n4 in
  let* n5 := number args 5 in
  let orderType := uint8 n5 in
  let* n6 := number args 6 in
  let timeInForce := uint8 n6 in
  let* n7 := number args 7 in
  let reduceOnly := uint8 n7 in
  let* n8 := number args 8 in
  let triggerPrice := uint32 n8 in
  let* n9 := number args 9 in
  let orderExpiry := int64 n9 in
  let* n10 := number args 10 in
  let nonce := int64 n10 in
  let* orderExpiry :=
    if orderExpiry =? -1 then
      let* now := time_Now in ret (now + days28_ms)
    else ret orderExpiry in
  let txInfo :=
    {| ReqMarketIndex := marketIndex;
       ClientOrderIndex := clientOrderIndex;
       ReqBaseAmount := baseAmount;
       ReqPrice := price;
       ReqIsAsk := isAsk;
       ReqType := orderType;
       ReqTimeInForce := timeInForce;
       ReqReduceOnly := reduceOnly;
       ReqTriggerPrice := triggerPrice;
       ReqOrderExpiry := orderExpiry |} in
  let ops := new_opts nonce in
  respond (GetTransaction c (GetCreateOrderTransaction txInfo) ops).

(** *** Function #6: signCancelOrder *)

Definition signCancelOrder_body (args : list jsValue)
    : M StringResponse StringResponse :=
  if negb (length args =? 3)%nat then
    leave (stringError
      "signCancelOrder requires 3 arguments: marketIndex, orderIndex, nonce")
  else
  let* _ := require stringError args 0 "marketIndex" in
  let* _ := require stringError args 1 "orderIndex" in
  let* _ := require stringError args 2 "nonce" in
  let* c := active_client in
  let* n0 := number args 0 in
  let marketIndex := uint8 n0 in
  let* n1 := number args 1 in
  let orderIndex := int64 n1 in
  let* n2 := number args 2 in
  let nonce := int64 n2 in
  let txInfo :=
    {| CancelOrderTxReq.MarketIndex := marketIndex;
       CancelOrderTxReq.Index := orderIndex |} in
  let ops := new_opts nonce in
  respond (GetTransaction c (GetCancelOrderTransaction txInfo) ops).

(** *** Function #7: signWithdraw *)

Definition signWithdraw_body (args : list jsValue)
    : M StringResponse StringResponse :=
  if negb (length args =? 2)%nat then
    leave (stringError "signWithdraw requires 2 arguments: usdcAmount, nonce")
  else
  let* _ := require stringError args 0 "usdcAmount" in
  let* _ := require stringError args 1 "nonce" in
  let* c := active_client in
  let* n0 := number args 0 in
  let usdcAmount := uint64 n0 in
  let* n1 := number args 1 in
  let nonce := int64 n1 in
  let txInfo := {| WithdrawTxReq.USDCAmount := usdcAmount |} in
  let ops := new_opts nonce in
  respond (GetTransaction c (GetWithdrawTransaction txInfo) ops).

(** *** Function #8: signCreateSubAccount *)

Definition signCreateSubAccount_body (args : list jsValue)
    : M StringResponse StringResponse :=
  if negb (length args =? 1)%nat then
    leave (stringError "signCreateSubAccount requires 1 argument: nonce")
  else
  let* _ := require stringError args 0 "nonce" in
  let* c := active_client in
  let* n0 := number args 0 in
  let nonce := int64 n0 in
  let ops := new_opts nonce in
  respond (GetTransaction c GetCreateSubAccountTransaction ops).

(** *** Function #9: signCancelAllOrders *)

Definition signCancelAllOrders_body (args : list jsValue)
    : M StringResponse StringResponse :=
  if negb (length args =? 3)%nat then
    leave (stringError
      "signCancelAllOrders requires 3 arguments: timeInForce, time, nonce")
  else
  let* _ := require stringError args 0 "timeInForce" in
  let* _ := require stringError args 1 "time" in
  let* _ := require stringError args 2 "nonce" in
  let* c := active_client in
  let* n0 := number args 0 in
  let timeInForce := uint8 n0 in
  let* n1 := number args 1 in
  let t := int64 n1 in
  let* n2 := number args 2 in
  let nonce := int64 n2 in
  let txInfo :=
    {| CancelAllOrdersTxReq.TimeInForce := timeInForce;
       CancelAllOrdersTxReq.Time := t |} in
  let ops := new_opts nonce in
  respond (GetTransaction c (GetCancelAllOrdersTransaction txInfo) ops).

(** *** Function #10: signModifyOrder *)

Definition signModifyOrder_body (args : list jsValue)
    : M StringResponse StringResponse :=
  if negb (length args =? 6)%nat then
    leave (stringError
      "signModifyOrder requires 6 arguments: marketIndex, index, baseAmount, price, triggerPrice, nonce")
  else
  let* _ := require stringError args 0 "marketIndex" in
  let* _ := require stringError args 1 "index" in
  let* _ := require stringError args 2 "baseAmount" in
  let* _ := require stringError args 3 "price" in
  let* _ := require stringError args 4 "triggerPrice" in
  let* _ := require stringError args 5 "nonce" in
  let* c := active_client in
  let* n0 := number args 0 in
  let marketIndex := uint8 n0 in
  let* n1 := number args 1 in
  let index := int64 n1 in
  let* n2 := number args 2 in
  let baseAmount := int64 n2 in
  let* n3 := number args 3 in
  let price := uint32 n3 in
  let* n4 := number args 4 in
  let triggerPrice := uint32 n4 in
  let* n5 := number args 5 in
  let nonce := int64 n5 in
  let txInfo :=
    {| ModifyOrderTxReq.MarketIndex := marketIndex;
       ModifyOrderTxReq.Index := index;
       ModifyOrderTxReq.BaseAmount := baseAmount;
       ModifyOrderTxReq.Price := price;
       ModifyOrderTxReq.TriggerPrice := triggerPrice |} in
  let ops := new_opts nonce in
  respond (GetTransaction c (GetModifyOrderTransaction txInfo) ops).

(** *** Function #12: signCreatePublicPool *)

Definition signCreatePublicPool_body (args : list jsValue)
    : M StringResponse StringResponse :=
  if negb (length args =? 4)%nat then
    leave (stringError
      "signCreatePublicPool requires 4 arguments: operatorFee, initialTotalShares, minOperatorShareRate, nonce")
  else
  let* _ := require stringError args 0 "operatorFee" in
  let* _ := require stringError args 1 "initialTotalShares" in
  let* _ := require stringError args 2 "minOperatorShareRate" in
  let* _ := require stringError args 3 "nonce" in
  let* c := active_client in
  let* n0 := number args 0 in
  let operatorFee := int64 n0 in
  let* n1 := number args 1 in
  let initialTotalShares := int64 n1 in
  let* n2 := number args 2 in
  let minOperatorShareRate := int64 n2 in
  let* n3 := number args 3 in
  let nonce := int64 n3 in
  let txInfo :=
    {| CreatePublicPoolTxReq.OperatorFee := operatorFee;
       CreatePublicPoolTxReq.InitialTotalShares := initialTotalShares;
       CreatePublicPoolTxReq.MinOperatorShareRate := minOperatorShareRate |} in
  let ops := new_opts nonce in
  respond (GetTransaction c (GetCreatePublicPoolTransaction txInfo) ops).

(** *** Function #13: signUpdatePublicPool *)

Definition signUpdatePublicPool_body (args : list jsValue)
    : M StringResponse StringResponse :=
  if negb (length args =? 5)%nat then
    leave (stringError
      "signUpdatePublicPool requires 5 arguments: publicPoolIndex, status, operatorFee, minOperatorShareRate, nonce")
  else
  let* _ := require stringError args 0 "publicPoolIndex" in
  let* _ := require stringError args 1 "status" in
  let* _ := require stringError args 2 "operatorFee" in
  let* _ := require stringError args 3 "minOperatorShareRate" in
  let* _ := require stringError args 4 "nonce" in
  let* c := active_client in
  let* n0 := number args 0 in
  let publicPoolIndex := int64 n0 in
  let* n1 := number args 1 in
  let status := uint8 n1 in
  let* n2 := number args 2 in
  let operatorFee := int64 n2 in
  let* n3 := number args 3 in
  let minOperatorShareRate := int64 n3 in
  let* n4 := number args 4 in
  let nonce := int64 n4 in
  let txInfo :=
    {| UpdatePublicPoolTxReq.PublicPoolIndex := publicPoolIndex;
       UpdatePublicPoolTxReq.Status := status;
       UpdatePublicPoolTxReq.OperatorFee := operatorFee;
       UpdatePublicPoolTxReq.MinOperatorShareRate := minOperatorShareRate |} in
  let ops := new_opts nonce in
  respond (GetTransaction c (GetUpdatePublicPoolTransaction txInfo) ops).

(** *** Function #14: signMintShares *)

Definition signMintShares_body (args : list jsValue)
    : M StringResponse StringResponse :=
  if negb (length args =? 3)%nat then
    leave (stringError
      "signMintShares requires 3 arguments: publicPoolIndex, shareAmount, nonce")
  else
  let* _ := require stringError args 0 "publicPoolIndex" in
  let* _ := require stringError args 1 "shareAmount" in
  let* _ := require stringError args 2 "nonce" in
  let* c := active_client in
  let* n0 := number args 0 in
  let publicPoolIndex := int64 n0 in
  let* n1 := number args 1 in
  let shareAmount := int64 n1 in
  let* n2 := number args 2 in
  let nonce := int64 n2 in
  let txInfo :=
    {| MintSharesTxReq.PublicPoolIndex := publicPoolIndex;
       MintSharesTxReq.ShareAmount := shareAmount |} in
  let ops := new_opts nonce in
  respond (GetTransaction c (GetMintSharesTransaction txInfo) ops).

(** *** Function #15: signBurnShares *)

Definition signBurnShares_body (args : list jsValue)
    : M StringResponse StringResponse :=
  if negb (length args =? 3)%nat then
    leave (stringError
      "signBurnShares requires 3 arguments: publicPoolIndex, shareAmount, nonce")
  else
  let* _ := require stringError args 0 "publicPoolIndex" in
  let* _ := require stringError args 1 "shareAmount" in
  let* _ := require stringError args 2 "nonce" in
  let* c := active_client in
  let* n0 := number args 0 in
  let publicPoolIndex := int64 n0 in
  let* n1 := number args 1 in
  let shareAmount := int64 n1 in
  let* n2 := number args 2 in
  let nonce := int64 n2 in
  let txInfo :=
    {| BurnSharesTxReq.PublicPoolIndex := publicPoolIndex;
       BurnSharesTxReq.ShareAmount := shareAmount |} in
  let ops := new_opts nonce in
  respond (GetTransaction c (GetBurnSharesTransaction txInfo) ops).

(** *** Function #16: signUpdateLeverage *)

Definition signUpdateLeverage_body (args : list jsValue)
    : M StringResponse StringResponse :=
  if negb (length args =? 4)%nat then
    leave (stringError
      "signUpdateLeverage requires 4 arguments: marketIndex, initialMarginFraction, marginMode, nonce")
  else
  let* _ := require stringError args 0 "marketIndex" in
  let* _ := require stringError args 1 "initialMarginFraction" in
  let* _ := require stringError args 2 "marginMode" in
  let* _ := require stringError args 3 "nonce" in
  let* c := active_client in
  let* n0 := number args 0 in
  let marketIndex := uint8 n0 in
  let* n1 := number args 1 in
  let initialMarginFraction := uint16 n1 in
  let* n2 := number args 2 in
  let marginMode := uint8 n2 in
  let* n3 := number args 3 in
  let nonce := int64 n3 in
  let txInfo :=
    {| UpdateLeverageTxReq.MarketIndex := marketIndex;
       UpdateLeverageTxReq.InitialMarginFraction := initialMarginFraction;
       UpdateLeverageTxReq.MarginMode := marginMode |} in
  let ops := new_opts nonce in
  respond (GetTransaction c (GetUpdateLeverageTransaction txInfo) ops).

(** *** Function #17: signUpdateMargin *)

Definition signUpdateMargin_body (args : list jsValue)
    : M StringResponse StringResponse :=
  if negb (length args =? 4)%nat then
    leave (stringError
      "signUpdateMargin requires 4 arguments: marketIndex, usdcAmount, direction, nonce")
  else
  let* _ := require stringError args 0 "marketIndex" in
  let* _ := require stringError args 1 "usdcAmount" in
  let* _ := require stringError args 2 "direction" in
  let* _ := require stringError args 3 "nonce" in
  let* c := active_client in
  let* n0 := number args 0 in
  let marketIndex := uint8 n0 in
  let* n1 := number args 1 in
  let usdcAmount := int64 n1 in
  let* n2 := number args 2 in
  let direction := uint8 n2 in
  let* n3 := number args 3 in
  let nonce := int64 n3 in
  let txInfo :=
    {| UpdateMarginTxReq.MarketIndex := marketIndex;
       UpdateMarginTxReq.USDCAmount := usdcAmount;
       UpdateMarginTxReq.Direction := direction |} in
  let ops := new_opts nonce in
  respond (GetTransaction c (GetUpdateMarginTransaction txInfo) ops).

(** *** Function #19: createAuthToken *)

(** 7 hours, in seconds. *)
Definition hours7_s : Z := 7 * 3600.

Definition createAuthToken_body (args : list jsValue)
    : M StringResponse StringResponse :=
  let* deadline :=
    if (0 <? length args)%nat then
      let* n0 := number args 0 in ret (int64 n0)
    else ret 0 in
  let* c := active_client in
  let* deadline :=
    if deadline =? 0 then
      let* now := time_Now in ret (now / 1000 + hours7_s)
    else ret deadline in
  match GetAuthToken c deadline with
  | inl e => leave (stringError ("failed to create auth token: " +:+ e))
  | inr authToken =>
      ret {| Result := authToken; StringResponse_Error := ""%string |}
  end.

(** *** The signing functions, by name *)

Inductive signer : Type :=
| signChangePubKey
| signCreateOrder
| signCancelOrder
| signWithdraw
| signCreateSubAccount
| signCancelAllOrders
| signModifyOrder
| signCreatePublicPool
| signUpdatePublicPool
| signMintShares
| signBurnShares
| signUpdateLeverage
| signUpdateMargin
| createAuthToken.

Definition body (f : signer) : list jsValue -> M StringResponse StringResponse :=
  match f with
  | signChangePubKey => signChangePubKey_body
  | signCreateOrder => signCreateOrder_body
  | signCancelOrder => signCancelOrder_body
  | signWithdraw => signWithdraw_body
  | signCreateSubAccount => signCreateSubAccount_body
  | signCancelAllOrders => signCancelAllOrders_body
  | signModifyOrder => signModifyOrder_body
  | signCreatePublicPool => signCreatePublicPool_body
  | signUpdatePublicPool => signUpdatePublicPool_body
  | signMintShares => signMintShares_body
  | signBurnShares => signBurnShares_body
  | signUpdateLeverage => signUpdateLeverage_body
  | signUpdateMargin => signUpdateMargin_body
  | createAuthToken => createAuthToken_body
  end.

(** The exported function: the body under the deferred recover. *)
Definition exported (f : signer) (args : list jsValue) (s : State)
    : State * option StringResponse :=
  run (body f args) s.

(** The response [respond] ends in. *)
Definition response_of (r : string + Tx) : StringResponse :=
  match r with
  | inl e => stringError ("failed to create transaction: " +:+ e)
  | inr tx =>
      match Marshal tx with
      | inl e => stringError ("failed to marshal transaction: " +:+ e)
      | inr txInfoBytes =>
          {| Result := txInfoBytes; StringResponse_Error := ""%string |}
      end
  end.

(** The number of arguments a function asks for; [createAuthToken]
    reads at most one. *)
Definition arity (f : signer) : nat :=
  match f with
  | signChangePubKey => 2
  | signCreateOrder => 11
  | signCancelOrder => 3
  | signWithdraw => 2
  | signCreateSubAccount => 1
  | signCancelAllOrders => 3
  | signModifyOrder => 6
  | signCreatePublicPool => 4
  | signUpdatePublicPool => 5
  | signMintShares => 3
  | signBurnShares => 3
  | signUpdateLeverage => 4
  | signUpdateMargin => 4
  | createAuthToken => 1
  end.

End Exports.

(** A response that reports an error. *)
Definition is_error (r : StringResponse) : Prop :=
  Result r = ""%string /\ StringResponse_Error r <> ""%string.

(** [idle m]: started without an active client, the step [m] changes
    nothing, and when it leaves the function it is with an error. *)
Definition idle {A} (m : M StringResponse A) : Prop :=
  forall s, txClient s = None ->
    fst (m s) = s /\
    match snd (m s) with
    | Return r => is_error r
    | _ => True
    end.

(** [refuses m]: moreover the step does not go on. *)
Definition refuses {A} (m : M StringResponse A) : Prop :=
  forall s, txClient s = None ->
    fst (m s) = s /\
    match snd (m s) with
    | Next _ => False
    | Return r => is_error r
    | Panic => True
    end.

(** One call of a signing function, with what the outside answers
    during it. *)
Record signing : Type := {
  answers : TxClient;
  function : signer;
  arguments : list jsValue
}.

Definition exported_all `{H : Host} (cs : list signing) (s : State) : State :=
  foldl (fun s c =>
           fst (@exported H (answers c) (function c) (arguments c) s)) s cs.

(** A value that is not null, not undefined and not a number. *)
Definition not_a_number (v : jsValue) : Prop :=
  match v with
  | JsString _ | JsOther => True
  | _ => False
  end.

End exports.

(** ** Package main: keys and the client check *)

Module identity.

Import sharedlib.

(** *** hexutil.Encode and strings.Replace *)

Definition hextable : list ascii := list_ascii_of_string "0123456789abcdef".

(** [hex.Encode]: two digits per byte, the high nibble first. *)
Fixpoint hex_Encode (src : list Z) : list ascii :=
  match src with
  | [] => []
  | v :: rest =>
      nth (Z.to_nat (Z.shiftr v 4)) hextable "0"%char
      :: nth (Z.to_nat (Z.land v 15)) hextable "0"%char
      :: hex_Encode rest
  end.

(** [hexutil.Encode]: the digits after the prefix [0x]. *)
Definition Encode (b : list Z) : string :=
  string_of_list_ascii ("0"%char :: "x"%char :: hex_Encode b).

(** [strings.Replace(s, "0x", "", 1)]: the first [0x] is taken out. *)
Fixpoint remove_first_0x (cs : list ascii) : list ascii :=
  match cs with
  | [] => []
  | c0 :: rest =>
      match rest with
      | c1 :: rest' =>
          if bool_decide (c0 = "0"%char) && bool_decide (c1 = "x"%char)
          then rest'
          else c0 :: remove_first_0x rest
      | [] => [c0]
      end
  end.

(** *** Function #1: generateAPIKey *)

Record APIKeyResponse : Type := {
  PrivateKey : string;
  PublicKey : string;
  APIKeyResponse_Error : string
}.

(** The curve and the signature scheme of the external cryptographic
    library, during one call: the scalar sampled for a seed, or for no
    seed, and the bytes of the scalar and of its public key. *)
Class Curve : Type := {
  Scalar : Type;
  SampleScalar : option string -> Scalar;
  Scalar_bytes : Scalar -> list Z;
  SchnorrPk_bytes : Scalar -> list Z
}.

Section Keys.

Context `{H : Host} `{C : Curve}.

(** The seed argument, when there is one to read. *)
Definition seed_of (args : list jsValue) : string :=
  match args with
  | a0 :: _ =>
      if negb (IsNull a0) && negb (IsUndefined a0) then String a0
      else ""%string
  | [] => ""%string
  end.

(** [seedP]: the empty string becomes the nil pointer. *)
Definition seed_pointer (args : list jsValue) : option string :=
  let seed := seed_of args in
  if decide (seed <> ""%string) then Some seed else None.

(** [generateAPIKey] reads no global and checks no argument. *)
Definition generateAPIKey (args : list jsValue) : APIKeyResponse :=
  let seedP := seed_pointer args in
  let key := SampleScalar seedP in
  {| PublicKey := Encode (SchnorrPk_bytes key);
     PrivateKey := Encode (Scalar_bytes key);
     APIKeyResponse_Error := ""%string |}.

End Keys.

(** *** Function #3: checkClient *)

(** What a registered client and the exchange answer during one call.
    The getters of a nil client are taken to dereference it. *)
Class Lighter : Type := {
  (** an element of [key.ApiKeys] *)
  ApiKey : Type;
  ApiKey_PublicKey : ApiKey -> string;
  (** an api key printed with [%+v] *)
  ApiKey_text : ApiKey -> string;
  GetApiKeyIndex : loc -> Z;
  GetAccountIndex : loc -> Z;
  (** [client.GetKeyManager().PubKeyBytes()] *)
  PubKeyBytes : loc -> list Z;
  (** [client.HTTP().GetApiKey(accountIndex, apiKeyIndex)]: the error,
      or the [ApiKeys] of the result *)
  GetApiKey : loc -> Z -> Z -> string + list ApiKey;
  (** the value [Int()] panics with, as [%v] prints it *)
  Int_panic : jsValue -> string
}.

Section CheckClient.

Context `{H : Host} `{L : Lighter}.

(** [checkClient] has a named result, which its deferred function
    sets when it recovers from a panic. *)
Definition recovered {A} (r : string) : M ErrorResponse A :=
  leave (errorResponse ("PANIC in checkClient: " +:+ r)).

Definition Int_or_recover (v : jsValue) : M ErrorResponse Z :=
  match v with
  | JsNumber n => ret n
  | _ => recovered (Int_panic v)
  end.

Definition checkClient_body (args : list jsValue)
    : M ErrorResponse ErrorResponse :=
  if (length args =? 0)%nat then
    leave (errorResponse "no arguments provided")
  else
  if negb (length args =? 2)%nat then
    leave (errorResponse
      "checkClient requires 2 arguments: apiKeyIndex, accountIndex")
  else
  let* _ := require errorResponse args 0 "apiKeyIndex" in
  let* _ := require errorResponse args 1 "accountIndex" in
  let* a0 := index args 0 in
  let* n0 := Int_or_recover a0 in
  let apiKeyIndex := uint8 n0 in
  let* a1 := index args 1 in
  let* n1 := Int_or_recover a1 in
  let accountIndex := int64 n1 in
  let* s := get in
  match map_lookup (backupTxClients s) apiKeyIndex with
  | None => leave (errorResponse "api key not registered")
  | Some None =>
      recovered
        "runtime error: invalid memory address or nil pointer dereference"
  | Some (Some client) =>
      if negb (GetApiKeyIndex client =? apiKeyIndex) then
        leave (errorResponse
          ("apiKeyIndex does not match. expected " +:+
           pretty (GetApiKeyIndex client) +:+ " but got " +:+
           pretty apiKeyIndex))
      else
      if negb (GetAccountIndex client =? accountIndex) then
        leave (errorResponse
          ("accountIndex does not match. expected " +:+
           pretty (GetAccountIndex client) +:+ " but got " +:+
           pretty accountIndex))
      else
      match GetApiKey client accountIndex apiKeyIndex with
      | inl err =>
          leave (errorResponse ("failed to get Api Keys. err: " +:+ err))
      | inr ApiKeys =>
          let pubKeyBytes := PubKeyBytes client in
          let pubKeyStr := Encode pubKeyBytes in
          let pubKeyStr :=
            string_of_list_ascii
              (remove_first_0x (list_ascii_of_string pubKeyStr)) in
          match ApiKeys with
          | [] =>
              recovered "runtime error: index out of range [0] with length 0"
          | ak :: _ =>
              if negb (String.eqb (ApiKey_PublicKey ak) pubKeyStr) then
                leave (errorResponse
                  ("private key does not match the one on Lighter. ownPubKey: "
                   +:+ pubKeyStr +:+ " response: " +:+ ApiKey_text ak))
              else ret (errorResponse "")
          end
      end
  end.

Definition checkClient (args : list jsValue) (s : State)
    : State * option ErrorResponse :=
  run (checkClient_body args) s.

End CheckClient.

End identity.

(** ** Package main: the exported functions in sequence *)

Section Sequence.

Import sharedlib.
Context `{H : Host}.

(** One call from JavaScript of an exported function that reads or
    writes the two package-level variables, with what the outside
    answers during it: [createClient] and [switchAPIKey], [signTransfer]
    and [signCreateGroupedOrders], the other fourteen signing functions,
    and [checkClient]. *)
Inductive exported_call : Type :=
| OfRegistry (call : registry_call)
| OfSigning (call : signing_call)
| OfExports (call : exports.signing)
| OfCheckClient (L : identity.Lighter) (args : list jsValue).

(** The state a call leaves. *)
Definition step (call : exported_call) (s : State) : State :=
  match call with
  | OfRegistry call => fst (invoke call s)
  | OfSigning call => sign call s
  | OfExports call =>
      fst (@exports.exported H (exports.answers call) (exports.function call)
             (exports.arguments call) s)
  | OfCheckClient L args => fst (@identity.checkClient L args s)
  end.

Definition steps (cs : list exported_call) (s : State) : State :=
  foldl (fun s call => step call s) s cs.

(** The call is a [switchAPIKey] that succeeds. *)
Definition switches (call : exported_call) (s : State) : Prop :=
  match call with
  | OfRegistry (SwitchAPIKey args) => succeeded (snd (switchAPIKey args s))
  | _ => False
  end.

(** The call assigns the active client: it is a [switchAPIKey] that
    succeeds, or a [createClient] that gets as far as [NewTxClient]. *)
Definition repoints (call : exported_call) (s : State) : Prop :=
  match call with
  | OfRegistry (SwitchAPIKey args) => succeeded (snd (switchAPIKey args s))
  | OfRegistry (CreateClient args) =>
      calls (fst (createClient args s)) <> calls s
  | _ => False
  end.

(** [quiet P cs s]: no call of the run [cs], made from [s], satisfies
    [P] in the state it is made in. *)
Fixpoint quiet (P : exported_call -> State -> Prop)
    (cs : list exported_call) (s : State) : Prop :=
  match cs with
  | [] => True
  | call :: rest => ~ P call s /\ quiet P rest (step call s)
  end.

(** The request a signing function whose arguments are all numbers
    builds from them, in closed form; [now] is the reading of the clock
    at the call.  The last number is the nonce. *)
Definition request_of (f : exports.signer) (zs : list Z) (now : Z)
    : option exports.request :=
  match f with
  | exports.signChangePubKey => None
  | exports.signCreateOrder =>
      match zs with
      | [ marketIndex; clientOrderIndex; baseAmount; price; isAsk; orderType;
          timeInForce; reduceOnly; triggerPrice; orderExpiry; _ ] =>
          Some (exports.GetCreateOrderTransaction
                  {| ReqMarketIndex := uint8 marketIndex;
                     ClientOrderIndex := int64 clientOrderIndex;
                     ReqBaseAmount := int64 baseAmount;
                     ReqPrice := uint32 price;
                     ReqIsAsk := uint8 isAsk;
                     ReqType := uint8 orderType;
                     ReqTimeInForce := uint8 timeInForce;
                     ReqReduceOnly := uint8 reduceOnly;
                     ReqTriggerPrice := uint32 triggerPrice;
                     ReqOrderExpiry :=
                       if int64 orderExpiry =? -1 then now + days28_ms
                       else int64 orderExpiry |})
      | _ => None
      end
  | exports.signCancelOrder =>
      match zs with
      | [marketIndex; orderIndex; _] =>
          Some (exports.GetCancelOrderTransaction
                  {| exports.CancelOrderTxReq.MarketIndex := uint8 marketIndex;
                     exports.CancelOrderTxReq.Index := int64 orderIndex |})
      | _ => None
      end
  | exports.signWithdraw =>
      match zs with
      | [usdcAmount; _] =>
          Some (exports.GetWithdrawTransaction
                  {| exports.WithdrawTxReq.USDCAmount := uint64 usdcAmount |})
      | _ => None
      end
  | exports.signCreateSubAccount =>
      match zs with
      | [_] => Some exports.GetCreateSubAccountTransaction
      | _ => None
      end
  | exports.signCancelAllOrders =>
      match zs with
      | [timeInForce; t; _] =>
          Some (exports.GetCancelAllOrdersTransaction
                  {| exports.CancelAllOrdersTxReq.TimeInForce :=
                       uint8 timeInForce;
                     exports.CancelAllOrdersTxReq.Time := int64 t |})
      | _ => None
      end
  | exports.signModifyOrder =>
      match zs with
      | [marketIndex; index; baseAmount; price; triggerPrice; _] =>
          Some (exports.GetModifyOrderTransaction
                  {| exports.ModifyOrderTxReq.MarketIndex := uint8 marketIndex;
                     exports.ModifyOrderTxReq.Index := int64 index;
                     exports.ModifyOrderTxReq.BaseAmount := int64 baseAmount;
                     exports.ModifyOrderTxReq.Price := uint32 price;
                     exports.ModifyOrderTxReq.TriggerPrice :=
                       uint32 triggerPrice |})
      | _ => None
      end
  | exports.signCreatePublicPool =>
      match zs with
      | [operatorFee; initialTotalShares; minOperatorShareRate; _] =>
          Some (exports.GetCreatePublicPoolTransaction
                  {| exports.CreatePublicPoolTxReq.OperatorFee :=
                       int64 operatorFee;
                     exports.CreatePublicPoolTxReq.InitialTotalShares :=
                       int64 initialTotalShares;
                     exports.CreatePublicPoolTxReq.MinOperatorShareRate :=
                       int64 minOperatorShareRate |})
      | _ => None
      end
  | exports.signUpdatePublicPool =>
      match zs with
      | [publicPoolIndex; status; operatorFee; minOperatorShareRate; _] =>
          Some (exports.GetUpdatePublicPoolTransaction
                  {| exports.UpdatePublicPoolTxReq.PublicPoolIndex :=
                       int64 publicPoolIndex;
                     exports.UpdatePublicPoolTxReq.Status := uint8 status;
                     exports.UpdatePublicPoolTxReq.OperatorFee :=
                       int64 operatorFee;
                     exports.UpdatePublicPoolTxReq.MinOperatorShareRate :=
                       int64 minOperatorShareRate |})
      | _ => None
      end
  | exports.signMintShares =>
      match zs with
      | [publicPoolIndex; shareAmount; _] =>
          Some (exports.GetMintSharesTransaction
                  {| exports.MintSharesTxReq.PublicPoolIndex :=
                       int64 publicPoolIndex;
                     exports.MintSharesTxReq.ShareAmount :=
                       int64 shareAmount |})
      | _ => None
      end
  | exports.signBurnShares =>
      match zs with
      | [publicPoolIndex; shareAmount; _] =>
          Some (exports.GetBurnSharesTransaction
                  {| exports.BurnSharesTxReq.PublicPoolIndex :=
                       int64 publicPoolIndex;
                     exports.BurnSharesTxReq.ShareAmount :=
                       int64 shareAmount |})
      | _ => None
      end
  | exports.signUpdateLeverage =>
      match zs with
      | [marketIndex; initialMarginFraction; marginMode; _] =>
          Some (exports.GetUpdateLeverageTransaction
                  {| exports.UpdateLeverageTxReq.MarketIndex :=
                       uint8 marketIndex;
                     exports.UpdateLeverageTxReq.InitialMarginFraction :=
                       uint16 initialMarginFraction;
                     exports.UpdateLeverageTxReq.MarginMode :=
                       uint8 marginMode |})
      | _ => None
      end
  | exports.signUpdateMargin =>
      match zs with
      | [marketIndex; usdcAmount; direction; _] =>
          Some (exports.GetUpdateMarginTransaction
                  {| exports.UpdateMarginTxReq.MarketIndex := uint8 marketIndex;
                     exports.UpdateMarginTxReq.USDCAmount := int64 usdcAmount;
                     exports.UpdateMarginTxReq.Direction := uint8 direction |})
      | _ => None
      end
  | exports.createAuthToken => None
  end.

(** [signs_with l s]: called in the state [s] with arguments of the
    kind it expects, each of the sixteen signing functions puts its
    request to the client [l], and its response is made of what [l]
    answers. *)
Definition signs_with (l : loc) (s : State) : Prop :=
  (* the twelve functions whose arguments are all numbers *)
  (forall (T : exports.TxClient) (f : exports.signer) (zs : list Z)
          (req : exports.request),
     request_of f zs (now_ms (ticks s)) = Some req ->
     snd (exports.exported f (JsNumber <$> zs) s)
     = Some (exports.response_of
               (exports.GetTransaction l req
                  (exports.new_opts (int64 (default 0 (last zs)))))))
  (* signChangePubKey, for a key of 40 bytes *)
  /\ (forall (T : exports.TxClient) (digits : string) (nonce : Z),
        Forall hexutil.is_hex_digit (list_ascii_of_string digits) ->
        String.length digits = 80%nat ->
        snd (exports.exported exports.signChangePubKey
               [JsString ("0x" +:+ digits); JsNumber nonce] s)
        = Some
            match
              exports.GetTransaction l
                (exports.GetChangePubKeyTransaction
                   {| exports.ChangePubKeyReq.PubKey :=
                        hexutil.hex_bytes (list_ascii_of_string digits) |})
                (exports.new_opts (int64 nonce))
            with
            | inl e => stringError ("failed to create transaction: " +:+ e)
            | inr tx =>
                match exports.Marshal_with_MessageToSign tx with
                | inl e => stringError e
                | inr txInfoBytes =>
                    {| Result := txInfoBytes;
                       StringResponse_Error := ""%string |}
                end
            end)
  (* createAuthToken *)
  /\ (forall (T : exports.TxClient) (deadline : Z),
        snd (exports.exported exports.createAuthToken [JsNumber deadline] s)
        = Some
            match
              exports.GetAuthToken l
                (if int64 deadline =? 0
                 then now_ms (ticks s) / 1000 + exports.hours7_s
                 else int64 deadline)
            with
            | inl e => stringError ("failed to create auth token: " +:+ e)
            | inr authToken =>
                {| Result := authToken; StringResponse_Error := ""%string |}
            end)
  (* signTransfer, for a memo of 64 digits *)
  /\ (forall (to amount fee nonce : Z) (memo : string),
        String.length memo = 64%nat ->
        Forall hexutil.is_hex_digit (list_ascii_of_string memo) ->
        calls (fst (signTransfer
                      [JsNumber to; JsNumber amount; JsNumber fee;
                       JsString memo; JsNumber nonce] s))
        = calls s ++
          [CallGetTransferTransaction l
             {| ToAccountIndex := int64 to; USDCAmount := int64 amount;
                Fee := int64 fee;
                Memo := hexutil.hex_bytes (list_ascii_of_string memo) |}
             (exports.new_opts (int64 nonce))])
  (* signCreateGroupedOrders, for 2 or 3 orders *)
  /\ (forall (groupingType expiredAt nonce : Z) (ordersJSON : string)
             (orderRequests : list orderRequest),
        Unmarshal_orderRequests ordersJSON = inr orderRequests ->
        (2 <= length orderRequests <= 3)%nat ->
        calls (fst (signCreateGroupedOrders
                      [JsNumber groupingType; JsString ordersJSON;
                       JsNumber expiredAt; JsNumber nonce] s))
        = calls s ++
          [CallGetCreateGroupedOrdersTransaction l
             {| GroupingType := uint8 groupingType;
                Orders := legs_from (ticks s) orderRequests |}
             {| Nonce := if negb (int64 nonce =? -1) then Some (int64 nonce)
                         else None;
                ExpiredAt := if negb (int64 expiredAt =? -1)
                             then int64 expiredAt else 0 |}]).

(** What the specification says of [switchAPIKey], in its own words:
    once a switch to a registered index has succeeded, the client of
    that index is the active one after every run of calls none of which
    is a [switchAPIKey] that succeeds. *)
Definition active_until_next_switch : Prop :=
  forall (n : Z) (s : State) (c : TxClientPtr) (cs : list exported_call),
    map_lookup (backupTxClients s) (uint8 n) = Some c ->
    quiet switches cs (fst (switchAPIKey [JsNumber n] s)) ->
    txClient (steps cs (fst (switchAPIKey [JsNumber n] s))) = c.

End Sequence.

(** ** Further instances to run the definitions on *)

Definition with_Direction (v : Z) (tx : txtypes.L2UpdateMarginTxInfo)
    : txtypes.L2UpdateMarginTxInfo :=
  {| txtypes.AccountIndex := txtypes.AccountIndex tx;
     txtypes.ApiKeyIndex := txtypes.ApiKeyIndex tx;
     txtypes.MarketIndex := txtypes.MarketIndex tx;
     txtypes.USDCAmount := txtypes.USDCAmount tx;
     txtypes.Direction := v;
     txtypes.ExpiredAt := txtypes.ExpiredAt tx;
     txtypes.Nonce := txtypes.Nonce tx;
     txtypes.Sig := txtypes.Sig tx;
     txtypes.SignedHash := txtypes.SignedHash tx |}.

(** Answers of package client that always sign: the transaction is
    the request itself, and its JSON text is a fixed one. *)
Definition sample_answers : exports.TxClient :=
  {| exports.Tx := exports.request * sharedlib.TransactOpts;
     exports.GetTransaction := fun _ r ops => inr (r, ops);
     exports.Marshal := fun _ => inr "{}"%string;
     exports.Marshal_with_MessageToSign := fun _ => inr "{}"%string;
     exports.GetAuthToken := fun _ _ => inr "token"%string |}.

(** A curve whose keys are fixed bytes. *)
Definition sample_curve : identity.Curve :=
  {| identity.Scalar := unit;
     identity.SampleScalar := fun _ => tt;
     identity.Scalar_bytes := fun _ => replicate 40 7;
     identity.SchnorrPk_bytes := fun _ => replicate 40 171 |}.

(** An exchange that knows every client of [two_clients] by the key
    of [sample_curve]. *)
Definition sample_lighter : identity.Lighter :=
  {| identity.ApiKey := string;
     identity.ApiKey_PublicKey := fun ak => ak;
     identity.ApiKey_text := fun ak => ak;
     identity.GetApiKeyIndex := fun l => Z.pos l - 1;
     identity.GetAccountIndex := fun _ => 7;
     identity.PubKeyBytes := fun _ => replicate 40 171;
     identity.GetApiKey := fun _ _ _ =>
       inr [string_of_list_ascii (identity.hex_Encode (replicate 40 171))];
     identity.Int_panic := fun _ => "syscall/js: call of Value.Int on string"%string |}.

(** [two_clients] before any client was made active. *)
Definition no_client : sharedlib.State :=
  {| sharedlib.txClient := None;
     sharedlib.backupTxClients := sharedlib.backupTxClients two_clients;
     sharedlib.calls := sharedlib.calls two_clients;
     sharedlib.ticks := O |}.

Definition order_args (orderExpiry : Z) : list sharedlib.jsValue :=
  [ sharedlib.JsNumber 1; sharedlib.JsNumber 55; sharedlib.JsNumber 401;
    sharedlib.JsNumber 3000; sharedlib.JsNumber 1; sharedlib.JsNumber 0;
    sharedlib.JsNumber 1; sharedlib.JsNumber 0; sharedlib.JsNumber 0;
    sharedlib.JsNumber orderExpiry; sharedlib.JsNumber 301 ].

(** A host whose JSON codec refuses every text. *)
Definition deaf_host : sharedlib.Host :=
  {| sharedlib.describe := @sharedlib.describe sample_host;
     sharedlib.TransferTx := @sharedlib.TransferTx sample_host;
     sharedlib.GroupedOrdersTx := @sharedlib.GroupedOrdersTx sample_host;
     sharedlib.NewTxClient := fun _ _ _ _ _ _ =>
       (None, Some "invalid private key"%string);
     sharedlib.GetTransferTransaction :=
       @sharedlib.GetTransferTransaction sample_host;
     sharedlib.GetCreateGroupedOrdersTransaction :=
       @sharedlib.GetCreateGroupedOrdersTransaction sample_host;
     sharedlib.transfer_json := @sharedlib.transfer_json sample_host;
     sharedlib.Marshal_grouped := @sharedlib.Marshal_grouped sample_host;
     sharedlib.Unmarshal_orderRequests := fun _ =>
       inl "unexpected end of JSON input"%string;
     sharedlib.now_ms := @sharedlib.now_ms sample_host |}.

(** A memo of 64 characters, the last of which is no digit. *)
Definition bad_memo : string :=
  "0123456789abcdef0123456789abcdef0123456789abcdef0123456789abcdeg".

(** A public key of 40 bytes, with the prefix. *)
Definition sample_pubKey : string :=
  "0xabababababababababababababababababababababababababababababababababababababababab".

(** A client whose answers name the client that was asked. *)
Definition echo_answers : exports.TxClient :=
  {| exports.Tx := sharedlib.loc;
     exports.GetTransaction := fun l _ _ => inr l;
     exports.Marshal := fun l => inr (pretty (Z.pos l));
     exports.Marshal_with_MessageToSign := fun l => inr (pretty (Z.pos l));
     exports.GetAuthToken := fun l _ => inr (pretty (Z.pos l)) |}.

(** Calls after a switch, none of which assigns the active client: a
    signing call, a [switchAPIKey] to an index without client, a
    [createClient] refused for its account index, a call of another
    signing function and a [checkClient]. *)
Definition calls_after_switch : list exported_call :=
  [ OfSigning (sharedlib.SignTransfer (transfer_args ""));
    OfRegistry (sharedlib.SwitchAPIKey [sharedlib.JsNumber 99]);
    OfRegistry
      (sharedlib.CreateClient
         [ sharedlib.JsString "https://example.org"; sharedlib.JsString "0xcc";
           sharedlib.JsNumber 300; sharedlib.JsNumber 2;
           sharedlib.JsNumber 0 ]);
    OfExports
      {| exports.answers := echo_answers;
         exports.function := exports.signWithdraw;
         exports.arguments := [sharedlib.JsNumber 5; sharedlib.JsNumber 301] |};
    OfCheckClient sample_lighter
      [sharedlib.JsNumber 1; sharedlib.JsNumber 7] ].

(** * Properties *)

(** ** Machine integers *)

Lemma uint8_range x : is_uint8 (uint8 x).
Proof. unfold is_uint8, uint8. apply Z.mod_pos_bound. lia. Qed.

Lemma uint8_id x : is_uint8 x -> uint8 x = x.
Proof. unfold is_uint8, uint8. intros H. apply Z.mod_small. lia. Qed.

Lemma uint32_of_uint8 x : is_uint8 x -> uint32 x = x.
Proof. unfold is_uint8, uint32. intros H. apply Z.mod_small. lia. Qed.

Lemma int64_id x : is_int64 x -> int64 x = x.
Proof.
  unfold is_int64, int64. intros H.
  rewrite Z.mod_small by lia. lia.
Qed.

(** ** The update-margin transaction *)

Section UpdateMarginProperties.

Import txtypes.
Context `{K : Constants} `{P : Poseidon}.

Lemma first_failing_None cs tx :
  first_failing cs tx = None <-> Forall (passes tx) cs.
Proof.
  induction cs as [|[f e] cs IH]; simpl.
  - split; [constructor | reflexivity].
  - destruct (f tx) eqn:Hf.
    + split; [discriminate |].
      intros Hall. inversion Hall as [|? ? Hp _]. unfold passes in Hp.
      simpl in Hp. congruence.
    + rewrite IH. split.
      * intros Hall. constructor; [exact Hf | exact Hall].
      * intros Hall. inversion Hall. assumption.
Qed.

Lemma first_failing_Some cs tx e :
  first_failing cs tx = Some e ->
  exists pre c post,
    cs = pre ++ c :: post /\ Forall (passes tx) pre /\
    fst c tx = true /\ snd c = e.
Proof.
  induction cs as [|[f e'] cs IH]; simpl; [discriminate |].
  destruct (f tx) eqn:Hf.
  - intros [= <-]. exists [], (f, e'), cs.
    split; [reflexivity |]. split; [constructor |]. split; [exact Hf | reflexivity].
  - intros Hff. destruct (IH Hff) as (pre & c & post & -> & Hpre & Hc & He).
    exists ((f, e') :: pre), c, post.
    split; [reflexivity |]. split; [| split; assumption].
    constructor; [exact Hf | exact Hpre].
Qed.

(** When a check fails, the reported error belongs to a failing check
    that is not declared after it. *)
Lemma first_failing_earliest cs tx i c :
  cs !! i = Some c -> fst c tx = true ->
  exists j c', (j <= i)%nat /\ cs !! j = Some c' /\ fst c' tx = true /\
               first_failing cs tx = Some (snd c').
Proof.
  revert i. induction cs as [|[f e] cs IH]; intros i Hi Hc.
  - discriminate.
  - simpl. destruct (f tx) eqn:Hf.
    + exists O, (f, e). split; [lia |]. split; [reflexivity |].
      split; [exact Hf | reflexivity].
    + destruct i as [|i]; simpl in Hi.
      * injection Hi as <-. simpl in Hc. congruence.
      * destruct (IH i Hi Hc) as (j & c' & Hj & Hl & Hc' & Hr).
        exists (S j), c'. split; [lia |]. split; [exact Hl |].
        split; [exact Hc' | exact Hr].
Qed.

Lemma Validate_unfold tx :
  Validate tx = first_failing declared_checks tx.
Proof. reflexivity. Qed.

(** [Validate] accepts exactly the transactions within all bounds. *)
Lemma Validate_None_iff tx :
  Validate tx = None <->
  account_index_ok tx /\ api_key_index_ok tx /\ market_index_ok tx /\
  usdc_amount_ok tx /\ nonce_ok tx /\ expired_at_ok tx.
Proof.
  unfold Validate, account_index_ok, api_key_index_ok, market_index_ok,
    usdc_amount_ok, nonce_ok, expired_at_ok.
  destruct (Z.leb_spec (AccountIndex tx) MinAccountIndex);
    [split; [discriminate | lia] |].
  destruct (Z.gtb_spec (AccountIndex tx) MaxAccountIndex);
    [split; [discriminate | lia] |].
  destruct (Z.gtb_spec (ApiKeyIndex tx) MaxApiKeyIndex);
    [split; [discriminate | lia] |].
  destruct (Z.ltb_spec (MarketIndex tx) MinMarketIndex);
    [split; [discriminate | lia] |].
  destruct (Z.gtb_spec (MarketIndex tx) MaxMarketIndex);
    [split; [discriminate | lia] |].
  destruct (Z.eqb_spec (USDCAmount tx) 0);
    [split; [discriminate | lia] |].
  destruct (Z.ltb_spec (Nonce tx) MinNonce);
    [split; [discriminate | lia] |].
  destruct (Z.ltb_spec (ExpiredAt tx) 0);
    [split; [discriminate | lia] |].
  destruct (Z.gtb_spec (ExpiredAt tx) MaxTimestamp);
    [split; [discriminate | lia] |].
  simpl. split; [lia | reflexivity].
Qed.

(** C1: for every transaction and chain id, the sequence [Hash] feeds
    to the sponge is the domain separator [chainId, type tag] followed
    by the fields in the declared order Nonce, ExpiredAt, AccountIndex,
    ApiKeyIndex, MarketIndex, Direction, USDCAmount, nine elements in
    all, and the digest is the sponge's output on exactly this
    sequence. *)
Theorem Hash_field_sequence (tx : L2UpdateMarginTxInfo) (chainId : Z)
    (extra : list Element) :
  Hash_elems tx chainId =
    domain_separator chainId ++ map (encode_field tx) declared_field_order
  /\ Hash_elems tx chainId =
       [ FromUint32 chainId; FromUint32 TxTypeL2UpdateMargin;
         FromInt64 (Nonce tx); FromInt64 (ExpiredAt tx);
         FromInt64 (AccountIndex tx); FromUint32 (uint32 (ApiKeyIndex tx));
         FromUint32 (uint32 (MarketIndex tx));
         FromUint32 (uint32 (Direction tx)); FromInt64 (USDCAmount tx) ]
  /\ length (Hash_elems tx chainId) = 9%nat
  /\ Hash tx chainId extra =
       (ToLittleEndianBytes
          (HashToQuinticExtension
             (domain_separator chainId ++
              map (encode_field tx) declared_field_order)),
        None).
Proof. repeat split. Qed.

(** C2: [Validate] returns nil exactly when every range check passes;
    otherwise it returns the error of the first failing check in the
    declared order, so that every check declared before the reported
    one has passed. *)
Theorem Validate_first_failing (tx : L2UpdateMarginTxInfo) :
  (Validate tx = None <->
     account_index_ok tx /\ api_key_index_ok tx /\ market_index_ok tx /\
     usdc_amount_ok tx /\ nonce_ok tx /\ expired_at_ok tx)
  /\ Validate tx = first_failing declared_checks tx
  /\ map snd declared_checks =
       [ ErrFromAccountIndexTooLow; ErrFromAccountIndexTooHigh;
         ErrApiKeyIndexTooHigh; ErrMarketIndexTooLow;
         ErrMarketIndexTooHigh; ErrUSDCAmountIsZero; ErrNonceTooLow;
         ErrExpiredAtInvalid ]
  /\ (forall e, Validate tx = Some e ->
        exists pre c post,
          declared_checks = pre ++ c :: post /\
          Forall (passes tx) pre /\ fst c tx = true /\ snd c = e)
  /\ (forall i c, declared_checks !! i = Some c -> fst c tx = true ->
        exists j c', (j <= i)%nat /\ declared_checks !! j = Some c' /\
                     fst c' tx = true /\ Validate tx = Some (snd c')).
Proof.
  split; [apply Validate_None_iff |].
  split; [reflexivity |]. split; [reflexivity |]. split.
  - intros e He. apply first_failing_Some. rewrite <- Validate_unfold.
    exact He.
  - intros i c Hi Hc. rewrite Validate_unfold.
    exact (first_failing_earliest _ _ _ _ Hi Hc).
Qed.

(** C3: with the other fields within bounds, an account index equal to
    the minimum is rejected as too low and the minimum plus one is
    accepted; the range of account indices is taken to hold more than
    its excluded minimum. *)
Theorem Validate_account_index_boundary (tx : L2UpdateMarginTxInfo) :
  MinAccountIndex < MaxAccountIndex ->
  api_key_index_ok tx -> market_index_ok tx -> usdc_amount_ok tx ->
  nonce_ok tx -> expired_at_ok tx ->
  Validate (with_AccountIndex MinAccountIndex tx)
    = Some ErrFromAccountIndexTooLow
  /\ Validate (with_AccountIndex (MinAccountIndex + 1) tx) = None.
Proof.
  intros Hrange Hapi Hmarket Husdc Hnonce Hexp. split.
  - unfold Validate. simpl. rewrite Z.leb_refl. reflexivity.
  - apply Validate_None_iff.
    unfold account_index_ok, api_key_index_ok, market_index_ok,
      usdc_amount_ok, nonce_ok, expired_at_ok in *.
    simpl. lia.
Qed.

(** C4: a zero USDC amount is never accepted; and once the checks
    declared before it pass, the zero-amount error is returned exactly
    when the amount is 0, whatever the sign of a non-zero amount. *)
Theorem Validate_zero_amount (tx : L2UpdateMarginTxInfo) :
  (USDCAmount tx = 0 -> Validate tx <> None)
  /\ (account_index_ok tx -> api_key_index_ok tx -> market_index_ok tx ->
        (Validate tx = Some ErrUSDCAmountIsZero <-> USDCAmount tx = 0)).
Proof.
  split.
  - intros Hz Hnone. apply Validate_None_iff in Hnone.
    destruct Hnone as (_ & _ & _ & Hne & _). exact (Hne Hz).
  - unfold account_index_ok, api_key_index_ok, market_index_ok.
    intros Hacc Hapi Hmarket. unfold Validate.
    destruct (Z.leb_spec (AccountIndex tx) MinAccountIndex); [lia |].
    destruct (Z.gtb_spec (AccountIndex tx) MaxAccountIndex); [lia |].
    destruct (Z.gtb_spec (ApiKeyIndex tx) MaxApiKeyIndex); [lia |].
    destruct (Z.ltb_spec (MarketIndex tx) MinMarketIndex); [lia |].
    destruct (Z.gtb_spec (MarketIndex tx) MaxMarketIndex); [lia |].
    destruct (Z.eqb_spec (USDCAmount tx) 0) as [Hz | Hnz].
    + split; [intros _; exact Hz | reflexivity].
    + split; [| intros Hz; contradiction].
      destruct (Nonce tx <? MinNonce); [discriminate |].
      destruct ((ExpiredAt tx <? 0) || (ExpiredAt tx >? MaxTimestamp));
        discriminate.
Qed.

(** C8: the variadic argument of [Hash] has no influence on the result:
    whatever extra elements are passed, digest and error are those of
    the call without any. *)
Theorem Hash_ignores_extra (tx : L2UpdateMarginTxInfo) (chainId : Z)
    (extra : list Element) :
  Hash tx chainId extra = Hash tx chainId [].
Proof. reflexivity. Qed.

End UpdateMarginProperties.

(** *** The update-margin theorems at [sample_tx] *)

(** Account index and amount both out of bounds: the earlier check wins. *)
Lemma Validate_first_failing_witness :
  exists pre c post,
    @txtypes.declared_checks sample_constants = pre ++ c :: post /\
    Forall (txtypes.passes (with_USDCAmount 0 (with_AccountIndex 0 sample_tx))) pre /\
    fst c (with_USDCAmount 0 (with_AccountIndex 0 sample_tx)) = true /\
    snd c = txtypes.ErrFromAccountIndexTooLow.
Proof.
  apply (proj1 (proj2 (proj2 (proj2
           (@Validate_first_failing sample_constants
              (with_USDCAmount 0 (with_AccountIndex 0 sample_tx))))))).
  reflexivity.
Defined.

Lemma Validate_account_index_boundary_witness :
  @txtypes.Validate sample_constants (with_AccountIndex 0 sample_tx)
    = Some txtypes.ErrFromAccountIndexTooLow
  /\ @txtypes.Validate sample_constants (with_AccountIndex 1 sample_tx) = None.
Proof.
  apply (@Validate_account_index_boundary sample_constants sample_tx);
    unfold txtypes.api_key_index_ok, txtypes.market_index_ok,
      txtypes.usdc_amount_ok, txtypes.nonce_ok, txtypes.expired_at_ok;
    simpl; lia.
Defined.

Lemma Validate_zero_amount_witness :
  @txtypes.Validate sample_constants (with_USDCAmount 0 sample_tx) <> None
  /\ @txtypes.Validate sample_constants (with_USDCAmount 0 sample_tx)
     = Some txtypes.ErrUSDCAmountIsZero.
Proof.
  split.
  - apply (proj1 (@Validate_zero_amount sample_constants
                    (with_USDCAmount 0 sample_tx))).
    reflexivity.
  - apply (proj2 (@Validate_zero_amount sample_constants
                    (with_USDCAmount 0 sample_tx)));
      unfold txtypes.account_index_ok, txtypes.api_key_index_ok,
        txtypes.market_index_ok;
      simpl; lia.
Defined.

(** ** Hexadecimal decoding *)

Section HexProperties.

Import hexutil.

Lemma fromHexChar_digit_value c : fromHexChar c = digit_value c.
Proof. destruct c as [[] [] [] [] [] [] [] []]; vm_compute; reflexivity. Qed.

Lemma digit_value_range c v : digit_value c = Some v -> 0 <= v < 16.
Proof.
  rewrite <- fromHexChar_digit_value. unfold fromHexChar.
  repeat match goal with
         | |- context [if ?b then _ else _] => destruct b eqn:?
         end; intros [= <-]; lia.
Qed.

Lemma nibbles_nat (n m : nat) :
  (n < 16)%nat -> (m < 16)%nat ->
  Z.lor (Z.shiftl (Z.of_nat n) 4) (Z.of_nat m)
    = 16 * Z.of_nat n + Z.of_nat m.
Proof.
  intros Hn Hm.
  do 16 (destruct n as [|n];
         [do 16 (destruct m as [|m]; [reflexivity |]); lia |]).
  lia.
Qed.

Lemma nibbles a b :
  0 <= a < 16 -> 0 <= b < 16 -> Z.lor (Z.shiftl a 4) b = 16 * a + b.
Proof.
  intros Ha Hb.
  rewrite <- (Z2Nat.id a), <- (Z2Nat.id b) by lia.
  apply nibbles_nat; lia.
Qed.

Lemma hex_bytes_byte cs : Forall is_uint8 (hex_bytes cs).
Proof.
  assert (Hd : forall c, 0 <= default 0 (digit_value c) < 16).
  { intros c. destruct (digit_value c) as [v|] eqn:Hv; simpl; [| lia].
    exact (digit_value_range _ _ Hv). }
  induction cs as [cs IH] using (induction_ltof1 _ (@length ascii)).
  destruct cs as [|hi [|lo rest]]; simpl; try constructor.
  - unfold is_uint8. pose proof (Hd hi). pose proof (Hd lo). lia.
  - apply IH. unfold ltof. simpl. lia.
Qed.

Lemma hex_Decode_digits n : forall cs,
  length cs = (2 * n)%nat -> Forall is_hex_digit cs ->
  hex_Decode cs = (hex_bytes cs, None) /\ length (hex_bytes cs) = n.
Proof.
  induction n as [|n IH]; intros cs Hlen Hall.
  - destruct cs; [split; reflexivity | discriminate].
  - destruct cs as [|hi [|lo rest]]; try (simpl in Hlen; lia).
    inversion Hall as [|? ? [a Ha] Hall']; subst.
    inversion Hall' as [|? ? [b Hb] Hrest]; subst.
    destruct (IH rest) as [Hdec Hn]; [simpl in Hlen; lia | exact Hrest |].
    simpl. rewrite !fromHexChar_digit_value, Ha, Hb, Hdec. simpl.
    rewrite (nibbles a b (digit_value_range _ _ Ha) (digit_value_range _ _ Hb)).
    split; [reflexivity | congruence].
Qed.

Lemma length_list_ascii_of_string s :
  length (list_ascii_of_string s) = String.length s.
Proof. induction s as [|c s IH]; simpl; congruence. Qed.

Lemma Decode_prefixed s :
  Decode ("0x" +:+ s) = hex_Decode (list_ascii_of_string s).
Proof. reflexivity. Qed.

End HexProperties.

(** ** The binding *)

Section BindingProperties.

Import sharedlib.
Context `{H : Host}.

(** *** Steps that only append calls *)

Lemma appends_refl E s : appends E s s.
Proof.
  split; [reflexivity |]. split; [reflexivity |].
  exists []. rewrite app_nil_r. split; [reflexivity | constructor].
Qed.

Lemma appends_trans E s1 s2 s3 :
  appends E s1 s2 -> appends E s2 s3 -> appends E s1 s3.
Proof.
  intros (Ht1 & Hb1 & n1 & Hc1 & Hf1) (Ht2 & Hb2 & n2 & Hc2 & Hf2).
  split; [congruence |]. split; [congruence |].
  exists (n1 ++ n2). split.
  - rewrite Hc2, Hc1, app_assoc. reflexivity.
  - apply Forall_app. split; assumption.
Qed.

Section Keeps.
Context {R : Type} (c : TxClientPtr) (E : event -> Prop).

Lemma keeps_ret {A} (a : A) (Q : A -> Prop) :
  Q a -> keeps (R:=R) c E (ret a) Q.
Proof.
  intros HQ s _. split; [apply appends_refl |].
  intros a' [= <-]. exact HQ.
Qed.

Lemma keeps_leave {A} (r : R) (Q : A -> Prop) : keeps c E (leave r) Q.
Proof. intros s _. split; [apply appends_refl | discriminate]. Qed.

Lemma keeps_panic {A} (Q : A -> Prop) : keeps (R:=R) c E panic Q.
Proof. intros s _. split; [apply appends_refl | discriminate]. Qed.

Lemma keeps_get : keeps (R:=R) c E get (fun s => txClient s = c).
Proof.
  intros s Hs. split; [apply appends_refl |].
  intros a [= <-]. exact Hs.
Qed.

Lemma keeps_time_Now : keeps (R:=R) c E time_Now (fun _ => True).
Proof.
  intros s _. split; [| trivial].
  split; [reflexivity |]. split; [reflexivity |].
  exists []. simpl. rewrite app_nil_r. split; [reflexivity | constructor].
Qed.

Lemma keeps_call {A} (e : event) (f : list event -> A) :
  E e -> keeps (R:=R) c E (call e f) (fun _ => True).
Proof.
  intros He s _. split; [| trivial].
  split; [reflexivity |]. split; [reflexivity |].
  exists [e]. split; [reflexivity |].
  constructor; [exact He | constructor].
Qed.

Lemma keeps_bind {A B} (m : M R A) (k : A -> M R B)
    (Q : A -> Prop) (Q' : B -> Prop) :
  keeps c E m Q -> (forall a, Q a -> keeps c E (k a) Q') ->
  keeps c E (bind m k) Q'.
Proof.
  intros Hm Hk s Hs. destruct (Hm s Hs) as [Happ HQ].
  unfold bind. destruct (m s) as [s1 [a | r | ]] eqn:Hms; simpl in *.
  - assert (Hs1 : txClient s1 = c) by (destruct Happ; congruence).
    destruct (Hk a (HQ a eq_refl) s1 Hs1) as [Happ' HQ'].
    split; [exact (appends_trans _ _ _ _ Happ Happ') | exact HQ'].
  - split; [exact Happ | discriminate].
  - split; [exact Happ | discriminate].
Qed.

Lemma keeps_weaken {A} (m : M R A) (Q Q' : A -> Prop) :
  keeps c E m Q -> (forall a, Q a -> Q' a) -> keeps c E m Q'.
Proof.
  intros Hm HQ s Hs. destruct (Hm s Hs) as [Happ Hv].
  split; [exact Happ |]. intros a Ha. apply HQ, Hv, Ha.
Qed.

Lemma keeps_run (m : M R R) Q s :
  keeps c E m Q -> txClient s = c -> appends E s (fst (run m s)).
Proof.
  intros Hm Hs. destruct (Hm s Hs) as [Happ _]. unfold run.
  destruct (m s) as [s1 [a | r | ]]; exact Happ.
Qed.

(** The loop over the legs reads the clock and nothing else; every
    leg it adds has client order index 0. *)
Lemma keeps_build_orders orderRequests : forall orders,
  Forall (fun o => ClientOrderIndex o = 0) orders ->
  keeps (R:=R) c E (build_orders orderRequests orders)
    (fun orders' =>
       Forall (fun o => ClientOrderIndex o = 0) orders' /\
       length orders' = (length orders + length orderRequests)%nat).
Proof.
  induction orderRequests as [|orderReq rest IH]; intros orders Hz; simpl.
  - apply keeps_ret. split; [exact Hz | lia].
  - apply keeps_bind with (Q := fun _ => True).
    + destruct (OrderExpiry orderReq =? -1).
      * apply keeps_bind with (Q := fun _ => True);
          [apply keeps_time_Now | intros; apply keeps_ret; exact I].
      * apply keeps_ret. exact I.
    + intros orderExpiry _. eapply keeps_weaken.
      * apply IH. apply Forall_app. split; [exact Hz |].
        constructor; [reflexivity | constructor].
      * intros orders' [Hz' Hlen]. split; [exact Hz' |].
        rewrite Hlen, length_app. simpl. lia.
Qed.

End Keeps.

(** Walks through a function body, one statement at a time. *)
Ltac walk :=
  repeat first
    [ apply keeps_leave
    | apply keeps_panic
    | apply keeps_ret; exact I
    | apply keeps_time_Now
    | lazymatch goal with
      | |- keeps _ _ (bind get _) _ =>
          apply (keeps_bind _ _ _ _ _ _ (keeps_get _ _)); intros ? ?
      | |- keeps _ _ (bind (build_orders _ _) _) _ =>
          apply (keeps_bind _ _ _ _ _ _
                   (keeps_build_orders _ _ _ [] (List.Forall_nil _)));
          intros ? [? ?]
      | |- keeps _ _ (bind _ _) _ =>
          apply keeps_bind with (Q := fun _ => True); [| intros ? _]
      | |- keeps _ _ (match ?x with _ => _ end) _ => destruct x eqn:?
      | |- keeps _ _ (require _ _ _ _) _ => unfold require
      | |- keeps _ _ (index _ _) _ => unfold index
      | |- keeps _ _ (Int _) _ => unfold Int
      | |- keeps _ _ (transfer_memo _) _ => unfold transfer_memo
      end ].

(** A signing function runs on the active client and leaves the
    registry alone. *)
Lemma signTransfer_keeps c args :
  keeps c (signed_by c) (signTransfer_body args) (fun _ => True).
Proof.
  unfold signTransfer_body. walk.
  apply keeps_call. simpl. congruence.
Qed.

Lemma signCreateGroupedOrders_keeps c args :
  keeps c (signed_by c) (signCreateGroupedOrders_body args) (fun _ => True).
Proof.
  unfold signCreateGroupedOrders_body. walk.
  apply keeps_call. simpl. congruence.
Qed.

Lemma signCreateGroupedOrders_legs c args :
  keeps c legs_without_client_order_index
    (signCreateGroupedOrders_body args) (fun _ => True).
Proof.
  unfold signCreateGroupedOrders_body. walk.
  apply keeps_call. simpl. assumption.
Qed.


(** *** The registry *)

Lemma switchAPIKey_number n s :
  switchAPIKey [JsNumber n] s =
    match map_lookup (backupTxClients s) (uint8 n) with
    | None => (s, Some (errorResponse "no client initialized for api key"))
    | Some c => (with_txClient c s, Some (errorResponse ""))
    end.
Proof.
  unfold switchAPIKey, run, switchAPIKey_body.
  cbn -[uint8]. unfold bind, get, require. cbn -[uint8].
  destruct (map_lookup (backupTxClients s) (uint8 n)); reflexivity.
Qed.

Lemma sign_appends c call s :
  txClient s = c -> appends (signed_by c) s (sign call s).
Proof.
  intros Hs. destruct call as [args | args]; simpl.
  - exact (keeps_run _ _ _ _ _ (signTransfer_keeps c args) Hs).
  - exact (keeps_run _ _ _ _ _ (signCreateGroupedOrders_keeps c args) Hs).
Qed.

(** C9: whatever the arguments and the state, every grouped-orders
    request that [signCreateGroupedOrders] hands to package client has
    client order index 0 in each of its legs. *)
Theorem grouped_legs_client_order_index (args : list jsValue) (s : State) :
  exists new,
    calls (fst (signCreateGroupedOrders args s)) = calls s ++ new /\
    Forall legs_without_client_order_index new.
Proof.
  destruct (keeps_run _ _ _ _ s
              (signCreateGroupedOrders_legs (txClient s) args) eq_refl)
    as (_ & _ & Hnew).
  exact Hnew.
Qed.

Lemma createClient_success args s s' :
  createClient args s = (s', Some (errorResponse "")) ->
  exists httpClient privateKey accountIndex apiKeyIndex chainId,
    is_uint8 apiKeyIndex /\
    NewTxClient (calls s) httpClient privateKey accountIndex apiKeyIndex
      chainId = (txClient s', None) /\
    calls s' = calls s ++ [CallNewTxClient httpClient privateKey
                             accountIndex apiKeyIndex chainId] /\
    map_lookup (backupTxClients s') apiKeyIndex = Some (txClient s') /\
    (forall k, k <> apiKeyIndex ->
       map_lookup (backupTxClients s') k = map_lookup (backupTxClients s) k).
Proof.
  unfold createClient, run, createClient_body.
  destruct args as [|a0 [|a1 [|a2 [|a3 [|a4 [|a5 args]]]]]];
    try (cbn; discriminate).
  cbn -[uint8 uint32 int64].
  unfold bind, require, validateArg. cbn -[uint8 uint32 int64].
  destruct a0; cbn -[uint8 uint32 int64]; try discriminate.
  all: destruct a1; cbn -[uint8 uint32 int64]; try discriminate.
  all: destruct a2; cbn -[uint8 uint32 int64]; try discriminate.
  all: destruct a3; cbn -[uint8 uint32 int64]; try discriminate.
  all: destruct a4; cbn -[uint8 uint32 int64]; try discriminate.
  all: destruct (int64 _ <=? 0); [discriminate |].
  all: match goal with
       | |- context [NewTxClient ?p ?h ?k ?a ?i ?ch] =>
           destruct (NewTxClient p h k a i ch) as [c [e|]] eqn:Hnew;
           cbn -[uint8 uint32 int64]; [discriminate |];
           destruct (backupTxClients s) as [m|] eqn:Hmap;
           cbn -[uint8 uint32 int64]; rewrite ?Hmap;
           cbn -[uint8 uint32 int64];
           intros [= <-]; exists h, k, a, i, ch; cbn -[uint8 uint32 int64];
           (split; [apply uint8_range |]); (split; [exact Hnew |]);
           (split; [reflexivity |])
       end.
  all: rewrite ?Hmap; cbn -[uint8 uint32 int64].
  all: split; [apply lookup_insert_eq |].
  all: intros k Hk; rewrite lookup_insert_ne by congruence.
  all: try reflexivity.
Qed.

Lemma switchAPIKey_result args s s' r :
  switchAPIKey args s = (s', r) ->
  (s' = s /\ ~ succeeded r)
  \/ (succeeded r /\ s' = with_txClient (txClient s') s /\
       exists k, is_uint8 k /\
                 map_lookup (backupTxClients s) k = Some (txClient s')).
Proof.
  unfold switchAPIKey, run, switchAPIKey_body, succeeded.
  destruct args as [|a0 [|a1 args]];
    try (cbn; intros [= <- <-]; left; split; [reflexivity | discriminate]).
  cbn -[uint8]. unfold bind, require, validateArg. cbn -[uint8].
  destruct a0; cbn -[uint8];
    try (intros [= <- <-]; left; split; [reflexivity | discriminate]).
  destruct (map_lookup (backupTxClients s) (uint8 n)) as [c|] eqn:Hk;
    cbn -[uint8]; intros [= <- <-].
  - right. split; [reflexivity |]. split; [reflexivity |].
    exists (uint8 n). split; [apply uint8_range | exact Hk].
  - left. split; [reflexivity | discriminate].
Qed.

Lemma invoke_registered call s s' r :
  invoke call s = (s', r) -> succeeded r -> registered s' (txClient s').
Proof.
  intros Hinv Hok. destruct call as [args | args]; simpl in Hinv.
  - unfold succeeded in Hok. subst r.
    destruct (createClient_success _ _ _ Hinv)
      as (h & k & a & i & ch & _ & _ & _ & Hreg & _).
    exists i. exact Hreg.
  - destruct (switchAPIKey_result _ _ _ _ Hinv)
      as [[_ Hfail] | (_ & Hs' & k & _ & Hk)]; [contradiction |].
    exists k. rewrite Hs'. exact Hk.
Qed.

Lemma runs_registered cs s s' :
  runs cs s s' -> cs <> [] -> registered s' (txClient s').
Proof.
  induction 1 as [s | call cs s s1 s' r Hinv Hok Hruns IH]; intros Hne.
  - contradiction.
  - destruct cs as [|call' cs].
    + inversion Hruns; subst. exact (invoke_registered _ _ _ _ Hinv Hok).
    + apply IH. discriminate.
Qed.

(** C10: after any non-empty sequence of successful [createClient]
    and [switchAPIKey] calls, the active client is the value of some
    entry of the registry.  A successful [createClient] stores the
    client [NewTxClient] returned under its api-key index and makes it
    the active one; [switchAPIKey] either keeps the active client or
    installs the value of a registry entry. *)
Theorem active_client_is_registered :
  (forall cs s s', runs cs s s' -> cs <> [] ->
     registered s' (txClient s'))
  /\ (forall args s s',
        createClient args s = (s', Some (errorResponse "")) ->
        exists httpClient privateKey accountIndex apiKeyIndex chainId,
          NewTxClient (calls s) httpClient privateKey accountIndex
            apiKeyIndex chainId = (txClient s', None) /\
          map_lookup (backupTxClients s') apiKeyIndex
            = Some (txClient s'))
  /\ (forall args s s' r,
        switchAPIKey args s = (s', r) ->
        txClient s' = txClient s \/ registered s (txClient s')).
Proof.
  split; [intros cs s s'; apply runs_registered |]. split.
  - intros args s s' Hok.
    destruct (createClient_success _ _ _ Hok)
      as (h & k & a & i & ch & _ & Hnew & _ & Hreg & _).
    exists h, k, a, i, ch. split; [exact Hnew | exact Hreg].
  - intros args s s' r Hsw.
    destruct (switchAPIKey_result _ _ _ _ Hsw)
      as [[-> _] | (_ & _ & k & _ & Hk)].
    + left. reflexivity.
    + right. exists k. exact Hk.
Qed.


(** When [NewTxClient] fails, [createClient] has already stored what
    it returned in [txClient]; the registry is not written. *)
Lemma createClient_NewTxClient_error s url privateKey chainId apiKeyIndex
    accountIndex c e :
  0 < int64 accountIndex ->
  NewTxClient (calls s) (NewHTTPClient url) privateKey (int64 accountIndex)
    (uint8 apiKeyIndex) (uint32 chainId) = (c, Some e) ->
  createClient
    [JsString url; JsString privateKey; JsNumber chainId;
     JsNumber apiKeyIndex; JsNumber accountIndex] s
  = ({| txClient := c;
        backupTxClients := backupTxClients s;
        calls := calls s ++
                 [CallNewTxClient (NewHTTPClient url) privateKey
                    (int64 accountIndex) (uint8 apiKeyIndex) (uint32 chainId)];
        ticks := ticks s |},
     Some (errorResponse
             ("error occurred when creating TxClient. err: " +:+ e))).
Proof.
  intros Hacc Hnew. unfold createClient, run, createClient_body.
  cbn -[uint8 uint32 int64]. unfold bind, require.
  cbn -[uint8 uint32 int64].
  destruct (Z.leb_spec (int64 accountIndex) 0); [lia |].
  cbn -[uint8 uint32 int64]. rewrite Hnew. reflexivity.
Qed.

(** *** The memo of a transfer *)

Lemma transfer_memo_empty : transfer_memo "" = ret (replicate 32 0).
Proof. reflexivity. Qed.

Lemma transfer_memo_length memoStr :
  memoStr <> ""%string -> String.length memoStr <> 64%nat ->
  transfer_memo memoStr =
    leave (stringError
      "memo expected to be 64 hex characters (32 bytes) or empty string").
Proof.
  intros Hne Hlen. unfold transfer_memo.
  destruct (decide (memoStr <> ""%string)); [| contradiction].
  destruct (Nat.eqb_spec (String.length memoStr) 64); [contradiction |].
  reflexivity.
Qed.

Lemma copy_full (dst src : list Z) :
  length src = length dst -> copy dst src = src.
Proof.
  intros Hlen. unfold copy.
  rewrite take_ge by lia. rewrite drop_ge by lia. apply app_nil_r.
Qed.

Lemma transfer_memo_hex memoStr :
  String.length memoStr = 64%nat ->
  Forall hexutil.is_hex_digit (list_ascii_of_string memoStr) ->
  transfer_memo memoStr
    = ret (hexutil.hex_bytes (list_ascii_of_string memoStr))
  /\ length (hexutil.hex_bytes (list_ascii_of_string memoStr)) = 32%nat.
Proof.
  intros Hlen Hall.
  destruct (hex_Decode_digits 32 (list_ascii_of_string memoStr))
    as [Hdec Hn]; [rewrite length_list_ascii_of_string; exact Hlen
                  | exact Hall |].
  split; [| exact Hn]. unfold transfer_memo.
  destruct (decide (memoStr <> ""%string)) as [_ | Hempty].
  - rewrite Hlen. simpl negb. cbv iota.
    rewrite Decode_prefixed, Hdec, Hn. simpl negb. cbv iota.
    rewrite copy_full; [reflexivity |]. rewrite Hn. reflexivity.
  - destruct memoStr; [discriminate Hlen |].
    exfalso. apply Hempty. discriminate.
Qed.

Lemma signTransfer_wellformed s c to amount fee memo nonce :
  txClient s = Some c ->
  signTransfer
    [JsNumber to; JsNumber amount; JsNumber fee; JsString memo;
     JsNumber nonce] s
  = run (let* memo := transfer_memo memo in
         let txInfo :=
           {| ToAccountIndex := int64 to;
              USDCAmount := int64 amount;
              Fee := int64 fee;
              Memo := memo |} in
         let ops :=
           {| Nonce :=
                if negb (int64 nonce =? -1) then Some (int64 nonce) else None;
              ExpiredAt := 0 |} in
         let* r :=
           call (CallGetTransferTransaction c txInfo ops)
                (fun past => GetTransferTransaction past c txInfo ops) in
         match r with
         | inl e =>
             leave (stringError ("failed to create transaction: " +:+ e))
         | inr tx =>
             match transfer_json tx with
             | inl e => leave (stringError e)
             | inr txInfoBytes =>
                 ret {| Result := txInfoBytes;
                        StringResponse_Error := ""%string |}
             end
         end) s.
Proof.
  intros Hc. unfold signTransfer, signTransfer_body.
  cbn -[int64 transfer_memo]. unfold run, bind, require, get.
  cbn -[int64 transfer_memo]. rewrite Hc. reflexivity.
Qed.

(** C5: on a created client and well-formed arguments, an empty memo
    gives a request whose memo is 32 zero bytes; a non-empty memo whose
    length is not 64 is answered with the memo error, and neither a
    request nor any other state change is made; a memo of 64
    hexadecimal digits gives a request whose memo is the 32 bytes the
    digits denote. *)
Theorem signTransfer_memo (s : State) (c : loc)
    (to amount fee nonce : Z) (memo : string) :
  txClient s = Some c ->
  let args :=
    [JsNumber to; JsNumber amount; JsNumber fee; JsString memo;
     JsNumber nonce] in
  let txInfo m :=
    {| ToAccountIndex := int64 to; USDCAmount := int64 amount;
       Fee := int64 fee; Memo := m |} in
  let ops :=
    {| Nonce :=
         if negb (int64 nonce =? -1) then Some (int64 nonce) else None;
       ExpiredAt := 0 |} in
  (memo = ""%string ->
     calls (fst (signTransfer args s))
       = calls s ++ [CallGetTransferTransaction c
                       (txInfo (replicate 32 0)) ops])
  /\ (memo <> ""%string -> String.length memo <> 64%nat ->
        signTransfer args s
          = (s, Some (stringError
               "memo expected to be 64 hex characters (32 bytes) or empty string")))
  /\ (String.length memo = 64%nat ->
        Forall hexutil.is_hex_digit (list_ascii_of_string memo) ->
        length (hexutil.hex_bytes (list_ascii_of_string memo)) = 32%nat /\
        calls (fst (signTransfer args s))
          = calls s ++ [CallGetTransferTransaction c
                          (txInfo (hexutil.hex_bytes
                                     (list_ascii_of_string memo))) ops]).
Proof.
  intros Hc args txInfo ops. subst args.
  rewrite (signTransfer_wellformed _ _ _ _ _ _ _ Hc).
  split; [| split].
  - intros ->. unfold run, bind. rewrite transfer_memo_empty.
    cbn -[int64 replicate].
    destruct (GetTransferTransaction _ _ _ _) as [e | tx];
      [reflexivity |].
    destruct (transfer_json tx); reflexivity.
  - intros Hne Hlen. unfold run, bind.
    rewrite (transfer_memo_length _ Hne Hlen). reflexivity.
  - intros Hlen Hall.
    destruct (transfer_memo_hex _ Hlen Hall) as [Hmemo Hn].
    split; [exact Hn |]. unfold run, bind. rewrite Hmemo.
    cbn -[int64 hexutil.hex_bytes].
    destruct (GetTransferTransaction _ _ _ _) as [e | tx];
      [reflexivity |].
    destruct (transfer_json tx); reflexivity.
Qed.


(** *** The legs of a grouped order *)

(** The loop always ends with one leg per request, and makes no call. *)
Lemma build_orders_total {R} orderRequests : forall orders s,
  exists s' orders',
    build_orders (R:=R) orderRequests orders s = (s', Next orders') /\
    txClient s' = txClient s /\ calls s' = calls s /\
    length orders' = (length orders + length orderRequests)%nat.
Proof.
  induction orderRequests as [|orderReq rest IH]; intros orders s; simpl.
  - exists s, orders. repeat split. lia.
  - unfold bind at 1.
    destruct (OrderExpiry orderReq =? -1); simpl.
    + match goal with
      | |- context [build_orders rest ?o ?st] =>
          destruct (IH o st) as (s' & orders' & Heq & Ht & Hc & Hlen)
      end.
      exists s', orders'. rewrite Heq. repeat split; try assumption.
      rewrite Hlen, length_app. simpl. lia.
    + match goal with
      | |- context [build_orders rest ?o ?st] =>
          destruct (IH o st) as (s' & orders' & Heq & Ht & Hc & Hlen)
      end.
      exists s', orders'. rewrite Heq. repeat split; try assumption.
      rewrite Hlen, length_app. simpl. lia.
Qed.

Lemma signCreateGroupedOrders_wellformed s c groupingType ordersJSON
    expiredAt nonce orderRequests :
  txClient s = Some c ->
  Unmarshal_orderRequests ordersJSON = inr orderRequests ->
  signCreateGroupedOrders
    [JsNumber groupingType; JsString ordersJSON; JsNumber expiredAt;
     JsNumber nonce] s
  = run (if (length orderRequests <? 2)%nat || (3 <? length orderRequests)%nat
         then leave (stringError "grouped orders must contain 2 or 3 orders")
         else
         let* orders := build_orders orderRequests [] in
         let txInfo :=
           {| GroupingType := uint8 groupingType; Orders := orders |} in
         let ops :=
           {| Nonce :=
                if negb (int64 nonce =? -1) then Some (int64 nonce) else None;
              ExpiredAt :=
                if negb (int64 expiredAt =? -1) then int64 expiredAt else 0 |} in
         let* r :=
           call (CallGetCreateGroupedOrdersTransaction c txInfo ops)
                (fun past =>
                   GetCreateGroupedOrdersTransaction past c txInfo ops) in
         match r with
         | inl e =>
             leave (stringError ("failed to create transaction: " +:+ e))
         | inr tx =>
             match Marshal_grouped tx with
             | inl e =>
                 leave (stringError
                   ("failed to marshal transaction: " +:+ e))
             | inr txInfoBytes =>
                 ret {| Result := txInfoBytes;
                        StringResponse_Error := ""%string |}
             end
         end) s.
Proof.
  intros Hc Hparse. unfold signCreateGroupedOrders, signCreateGroupedOrders_body.
  cbn -[int64 uint8 build_orders Nat.ltb]. unfold run, bind, require, get.
  cbn -[int64 uint8 build_orders Nat.ltb]. rewrite Hc.
  cbn -[int64 uint8 build_orders Nat.ltb]. rewrite Hparse. reflexivity.
Qed.

(** C6: on a created client and well-formed arguments whose JSON
    text parses, a list of fewer than 2 or more than 3 legs is answered
    with the count error before anything is built or recorded; a list
    of 2 or 3 legs is turned into a request of as many legs, which is
    handed to package client, whose answer decides the response. *)
Theorem grouped_orders_leg_count (s : State) (c : loc)
    (groupingType expiredAt nonce : Z) (ordersJSON : string)
    (orderRequests : list orderRequest) :
  txClient s = Some c ->
  Unmarshal_orderRequests ordersJSON = inr orderRequests ->
  let args :=
    [JsNumber groupingType; JsString ordersJSON; JsNumber expiredAt;
     JsNumber nonce] in
  let txInfo orders :=
    {| GroupingType := uint8 groupingType; Orders := orders |} in
  let ops :=
    {| Nonce :=
         if negb (int64 nonce =? -1) then Some (int64 nonce) else None;
       ExpiredAt :=
         if negb (int64 expiredAt =? -1) then int64 expiredAt else 0 |} in
  ((length orderRequests < 2 \/ 3 < length orderRequests)%nat ->
     signCreateGroupedOrders args s
       = (s, Some (stringError "grouped orders must contain 2 or 3 orders")))
  /\ ((length orderRequests = 2 \/ length orderRequests = 3)%nat ->
        exists orders,
          length orders = length orderRequests /\
          calls (fst (signCreateGroupedOrders args s))
            = calls s ++ [CallGetCreateGroupedOrdersTransaction c
                            (txInfo orders) ops] /\
          snd (signCreateGroupedOrders args s)
            = Some
                match GetCreateGroupedOrdersTransaction (calls s) c
                        (txInfo orders) ops with
                | inl e =>
                    stringError ("failed to create transaction: " +:+ e)
                | inr tx =>
                    match Marshal_grouped tx with
                    | inl e =>
                        stringError ("failed to marshal transaction: " +:+ e)
                    | inr txInfoBytes =>
                        {| Result := txInfoBytes;
                           StringResponse_Error := ""%string |}
                    end
                end).
Proof.
  intros Hc Hparse args txInfo ops. subst args.
  rewrite (signCreateGroupedOrders_wellformed _ _ _ _ _ _ _ Hc Hparse).
  split.
  - intros Hcount.
    assert (Htest : (length orderRequests <? 2)%nat
                    || (3 <? length orderRequests)%nat = true).
    { apply orb_true_iff.
      destruct Hcount; [left | right]; apply Nat.ltb_lt; assumption. }
    rewrite Htest. reflexivity.
  - intros Hcount.
    assert (Htest : (length orderRequests <? 2)%nat
                    || (3 <? length orderRequests)%nat = false).
    { apply orb_false_iff.
      split; apply Nat.ltb_ge; destruct Hcount; lia. }
    rewrite Htest.
    destruct (build_orders_total (R:=StringResponse) orderRequests [] s)
      as (s' & orders & Heq & _ & Hcalls & Hlen).
    unfold run, bind. rewrite Heq. cbn -[int64 uint8].
    exists orders. split; [exact Hlen |]. rewrite Hcalls.
    subst txInfo ops.
    destruct (GetCreateGroupedOrdersTransaction _ _ _ _) as [e | tx];
      cbn -[int64 uint8]; [split; reflexivity |].
    destruct (Marshal_grouped tx); cbn -[int64 uint8]; split; reflexivity.
Qed.

End BindingProperties.

(** *** The binding's theorems on [sample_host] *)

(** The memo of the transfer test, and what it denotes. *)
Example test_memo_bytes :
  hexutil.hex_bytes (list_ascii_of_string test_memo)
  = [1; 35; 69; 103; 137; 171; 205; 239; 1; 35; 69; 103; 137; 171; 205; 239;
     1; 35; 69; 103; 137; 171; 205; 239; 1; 35; 69; 103; 137; 171; 205; 239].
Proof. vm_compute. reflexivity. Qed.

Example test_memo_decodes :
  hexutil.Decode
    "0x0123456789ABCDEF0123456789abcdef0123456789abcdef0123456789abcdef"
  = ([1; 35; 69; 103; 137; 171; 205; 239; 1; 35; 69; 103; 137; 171; 205; 239;
      1; 35; 69; 103; 137; 171; 205; 239; 1; 35; 69; 103; 137; 171; 205; 239],
     None).
Proof. vm_compute. reflexivity. Qed.

Lemma test_memo_digits :
  Forall hexutil.is_hex_digit (list_ascii_of_string test_memo).
Proof. repeat (constructor; [eexists; reflexivity |]). constructor. Defined.

Lemma signTransfer_memo_witness :
  sharedlib.calls
    (fst (@sharedlib.signTransfer sample_host (transfer_args "") two_clients))
  = sharedlib.calls two_clients ++ [transfer_request (replicate 32 0)]
  /\ @sharedlib.signTransfer sample_host (transfer_args "short") two_clients
     = (two_clients,
        Some (sharedlib.stringError
          "memo expected to be 64 hex characters (32 bytes) or empty string"))
  /\ sharedlib.calls
       (fst (@sharedlib.signTransfer sample_host (transfer_args test_memo)
               two_clients))
     = sharedlib.calls two_clients ++
       [transfer_request
          [1; 35; 69; 103; 137; 171; 205; 239; 1; 35; 69; 103; 137; 171; 205;
           239; 1; 35; 69; 103; 137; 171; 205; 239; 1; 35; 69; 103; 137; 171;
           205; 239]].
Proof.
  split; [| split].
  - apply (proj1 (@signTransfer_memo sample_host two_clients 2%positive
                    8 1000000 1000 201 "" eq_refl)).
    reflexivity.
  - apply (proj1 (proj2 (@signTransfer_memo sample_host two_clients 2%positive
                           8 1000000 1000 201 "short" eq_refl))).
    + discriminate.
    + simpl. lia.
  - apply (proj2 (proj2 (@signTransfer_memo sample_host two_clients 2%positive
                           8 1000000 1000 201 test_memo eq_refl))).
    + reflexivity.
    + exact test_memo_digits.
Defined.

Lemma grouped_orders_leg_count_witness :
  @sharedlib.signCreateGroupedOrders sample_host (grouped_args "x") two_clients
  = (two_clients,
     Some (sharedlib.stringError "grouped orders must contain 2 or 3 orders"))
  /\ exists orders,
       length orders = 2%nat /\
       sharedlib.calls
         (fst (@sharedlib.signCreateGroupedOrders sample_host
                 (grouped_args "xx") two_clients))
       = sharedlib.calls two_clients ++
         [sharedlib.CallGetCreateGroupedOrdersTransaction 2%positive
            {| sharedlib.GroupingType := 1; sharedlib.Orders := orders |}
            {| sharedlib.Nonce := Some 301;
               sharedlib.ExpiredAt := 0 |}] /\
       snd (@sharedlib.signCreateGroupedOrders sample_host
              (grouped_args "xx") two_clients)
       = Some {| sharedlib.Result := "{}";
                 sharedlib.StringResponse_Error := "" |}.
Proof.
  split.
  - apply (proj1 (@grouped_orders_leg_count sample_host two_clients 2%positive
                    1 (-1) 301 "x" (replicate 1 sample_leg) eq_refl eq_refl)).
    left. simpl. lia.
  - apply (proj2 (@grouped_orders_leg_count sample_host two_clients 2%positive
                    1 (-1) 301 "xx" (replicate 2 sample_leg) eq_refl eq_refl)).
    left. reflexivity.
Defined.

Lemma three_calls_run :
  @sharedlib.runs sample_host three_calls sharedlib.init
    (sharedlib.with_txClient (Some 1%positive) two_clients).
Proof.
  eapply sharedlib.runs_cons; [vm_compute; reflexivity | reflexivity |].
  eapply sharedlib.runs_cons; [vm_compute; reflexivity | reflexivity |].
  eapply sharedlib.runs_cons; [vm_compute; reflexivity | reflexivity |].
  apply sharedlib.runs_nil.
Defined.

Lemma active_client_is_registered_witness :
  sharedlib.registered (sharedlib.with_txClient (Some 1%positive) two_clients)
    (Some 1%positive).
Proof.
  apply (proj1 (@active_client_is_registered sample_host) three_calls
           sharedlib.init
           (sharedlib.with_txClient (Some 1%positive) two_clients)).
  - exact three_calls_run.
  - discriminate.
Defined.

(** * Further properties *)

(** ** The update-margin transaction, continued *)

Section UpdateMarginMore.

Import txtypes.
Context `{K : Constants} `{P : Poseidon}.

(** X1: [Validate] looks at the six bounded fields only: its verdict is
    the same for two transactions that agree on them, whatever their
    direction, signature and signed hash.  No direction is refused. *)
Theorem Validate_ignores_direction (tx1 tx2 : L2UpdateMarginTxInfo) :
  same_bounded_fields tx1 tx2 -> Validate tx1 = Validate tx2.
Proof.
  intros (Ha & Hk & Hm & Hu & Hn & He). unfold Validate.
  rewrite Ha, Hk, Hm, Hu, Hn, He. reflexivity.
Qed.

(** Signing does not change the digest: a transaction hashes to
    the same bytes whatever its signature and signed hash. *)
Lemma Hash_ignores_signature (tx : L2UpdateMarginTxInfo) (chainId : Z)
    (sig : list Z) (signedHash : string) (extra : list Element) :
  Hash (with_signature sig signedHash tx) chainId extra = Hash tx chainId extra.
Proof. reflexivity. Qed.

(** X2: with the other fields within bounds, the largest account index
    is accepted and the next one is refused as too high. *)
Theorem Validate_account_index_upper (tx : L2UpdateMarginTxInfo) :
  MinAccountIndex < MaxAccountIndex ->
  api_key_index_ok tx -> market_index_ok tx -> usdc_amount_ok tx ->
  nonce_ok tx -> expired_at_ok tx ->
  Validate (with_AccountIndex MaxAccountIndex tx) = None
  /\ Validate (with_AccountIndex (MaxAccountIndex + 1) tx)
     = Some ErrFromAccountIndexTooHigh.
Proof.
  intros Hrange Hapi Hmarket Husdc Hnonce Hexp. split.
  - apply Validate_None_iff.
    unfold account_index_ok, api_key_index_ok, market_index_ok,
      usdc_amount_ok, nonce_ok, expired_at_ok in *.
    simpl. lia.
  - unfold Validate. simpl.
    destruct (Z.leb_spec (MaxAccountIndex + 1) MinAccountIndex); [lia |].
    destruct (Z.gtb_spec (MaxAccountIndex + 1) MaxAccountIndex); [| lia].
    reflexivity.
Qed.

(** X3: with the other fields within bounds, the expiry may be 0 and
    may be the largest timestamp; -1 and the largest timestamp plus one
    are refused as invalid. *)
Theorem Validate_expired_at_boundaries (tx : L2UpdateMarginTxInfo) :
  0 <= MaxTimestamp ->
  account_index_ok tx -> api_key_index_ok tx -> market_index_ok tx ->
  usdc_amount_ok tx -> nonce_ok tx ->
  Validate (with_ExpiredAt 0 tx) = None
  /\ Validate (with_ExpiredAt MaxTimestamp tx) = None
  /\ Validate (with_ExpiredAt (-1) tx) = Some ErrExpiredAtInvalid
  /\ Validate (with_ExpiredAt (MaxTimestamp + 1) tx) = Some ErrExpiredAtInvalid.
Proof.
  intros Hmax Hacc Hapi Hmarket Husdc Hnonce.
  assert (Hlate : forall v, ~ 0 <= v <= MaxTimestamp ->
            Validate (with_ExpiredAt v tx) = Some ErrExpiredAtInvalid).
  { intros v Hv.
    unfold account_index_ok, api_key_index_ok, market_index_ok,
      usdc_amount_ok, nonce_ok in *.
    unfold Validate. simpl.
    destruct (Z.leb_spec (AccountIndex tx) MinAccountIndex); [lia |].
    destruct (Z.gtb_spec (AccountIndex tx) MaxAccountIndex); [lia |].
    destruct (Z.gtb_spec (ApiKeyIndex tx) MaxApiKeyIndex); [lia |].
    destruct (Z.ltb_spec (MarketIndex tx) MinMarketIndex); [lia |].
    destruct (Z.gtb_spec (MarketIndex tx) MaxMarketIndex); [lia |].
    destruct (Z.eqb_spec (USDCAmount tx) 0); [lia |].
    destruct (Z.ltb_spec (Nonce tx) MinNonce); [lia |].
    destruct (Z.ltb_spec v 0); [reflexivity |].
    destruct (Z.gtb_spec v MaxTimestamp); [reflexivity | lia]. }
  assert (Hin : forall v, 0 <= v <= MaxTimestamp ->
            Validate (with_ExpiredAt v tx) = None).
  { intros v Hv. apply Validate_None_iff.
    unfold account_index_ok, api_key_index_ok, market_index_ok,
      usdc_amount_ok, nonce_ok, expired_at_ok in *.
    simpl. lia. }
  split; [apply Hin; lia |]. split; [apply Hin; lia |].
  split; apply Hlate; lia.
Qed.

(** X4: once the account, api-key, market and amount checks pass, a
    nonce below the minimum is refused as too low whatever the expiry;
    the minimum itself is accepted when the expiry is valid. *)
Theorem Validate_nonce_boundary (tx : L2UpdateMarginTxInfo) :
  account_index_ok tx -> api_key_index_ok tx -> market_index_ok tx ->
  usdc_amount_ok tx ->
  (forall v, v < MinNonce -> Validate (with_Nonce v tx) = Some ErrNonceTooLow)
  /\ (expired_at_ok tx -> Validate (with_Nonce MinNonce tx) = None).
Proof.
  intros Hacc Hapi Hmarket Husdc. split.
  - intros v Hv.
    unfold account_index_ok, api_key_index_ok, market_index_ok,
      usdc_amount_ok in *.
    unfold Validate. simpl.
    destruct (Z.leb_spec (AccountIndex tx) MinAccountIndex); [lia |].
    destruct (Z.gtb_spec (AccountIndex tx) MaxAccountIndex); [lia |].
    destruct (Z.gtb_spec (ApiKeyIndex tx) MaxApiKeyIndex); [lia |].
    destruct (Z.ltb_spec (MarketIndex tx) MinMarketIndex); [lia |].
    destruct (Z.gtb_spec (MarketIndex tx) MaxMarketIndex); [lia |].
    destruct (Z.eqb_spec (USDCAmount tx) 0); [lia |].
    destruct (Z.ltb_spec v MinNonce); [reflexivity | lia].
  - intros Hexp. apply Validate_None_iff.
    unfold account_index_ok, api_key_index_ok, market_index_ok,
      usdc_amount_ok, nonce_ok, expired_at_ok in *.
    simpl. lia.
Qed.

End UpdateMarginMore.

(** ** Hexadecimal text, continued *)

Section HexMore.

Import hexutil.

Lemma digit_value_hex_digit v :
  0 <= v < 16 -> digit_value (hex_digit v) = Some v.
Proof.
  intros Hv. rewrite <- (Z2Nat.id v) by lia.
  assert (Hn : (Z.to_nat v < 16)%nat) by lia.
  generalize dependent (Z.to_nat v). intros n Hn.
  do 16 (destruct n as [|n]; [reflexivity |]). lia.
Qed.

Lemma hex_text_digits bs :
  Forall is_uint8 bs -> Forall is_hex_digit (hex_text bs).
Proof.
  unfold is_uint8.
  induction 1 as [|b bs Hb _ IH]; simpl; constructor.
  - exists (b / 16). apply digit_value_hex_digit.
    split; [apply Z.div_pos; lia | apply Z.div_lt_upper_bound; lia].
  - constructor; [| exact IH].
    exists (b mod 16). apply digit_value_hex_digit.
    apply Z.mod_pos_bound. lia.
Qed.

Lemma hex_bytes_hex_text bs :
  Forall is_uint8 bs -> hex_bytes (hex_text bs) = bs.
Proof.
  unfold is_uint8.
  induction 1 as [|b bs Hb _ IH]; simpl; [reflexivity |].
  rewrite !digit_value_hex_digit, IH.
  - simpl. f_equal. rewrite (Z.div_mod b 16) at 3 by lia. reflexivity.
  - apply Z.mod_pos_bound. lia.
  - split; [apply Z.div_pos; lia | apply Z.div_lt_upper_bound; lia].
Qed.

Lemma length_hex_text bs : length (hex_text bs) = (2 * length bs)%nat.
Proof. induction bs as [|b bs IH]; simpl; lia. Qed.

(** A text of even length with a byte that is no digit is refused. *)
Lemma hex_Decode_not_digits n : forall cs,
  length cs = (2 * n)%nat -> ~ Forall is_hex_digit cs ->
  snd (hex_Decode cs) = Some "invalid hex string"%string.
Proof.
  induction n as [|n IH]; intros cs Hlen Hbad.
  - destruct cs; [| discriminate]. exfalso. apply Hbad. constructor.
  - destruct cs as [|hi [|lo rest]]; try (simpl in Hlen; lia).
    simpl. rewrite !fromHexChar_digit_value.
    destruct (digit_value hi) as [a|] eqn:Ha; [| reflexivity].
    destruct (digit_value lo) as [b|] eqn:Hb; [| reflexivity].
    destruct (hex_Decode rest) as [bs err] eqn:Hrest. simpl.
    change err with (snd (bs, err)). rewrite <- Hrest.
    apply IH; [simpl in Hlen; lia |].
    intros Hall. apply Hbad.
    constructor; [exists a; exact Ha |].
    constructor; [exists b; exact Hb | exact Hall].
Qed.

End HexMore.

(** ** The binding, continued *)

Section BindingMore.

Import sharedlib.
Context `{H : Host}.

(** *** Arguments *)

(** X5: [validateArg] accepts an index exactly when the argument is
    present and is neither null nor undefined; a missing argument, a
    null and an undefined one each have their own message. *)
Theorem validateArg_accepts (args : list jsValue) (index : nat)
    (argName : string) :
  (validateArg args index argName = None <->
     exists v, args !! index = Some v /\ v <> JsNull /\ v <> JsUndefined)
  /\ (args !! index = None ->
        validateArg args index argName
          = Some ("missing required argument: " +:+ argName +:+
                  " (index " +:+ pretty index +:+ ")"))
  /\ (args !! index = Some JsNull ->
        validateArg args index argName
          = Some ("argument " +:+ argName +:+ " cannot be null"))
  /\ (args !! index = Some JsUndefined ->
        validateArg args index argName
          = Some ("argument " +:+ argName +:+ " cannot be undefined")).
Proof.
  unfold validateArg.
  destruct (Nat.leb_spec (length args) index) as [Hout | Hin].
  - assert (Hnone : args !! index = None) by (apply lookup_ge_None; lia).
    rewrite Hnone. split; [| split; [| split]].
    + split; [discriminate | intros (v & Hv & _); discriminate].
    + reflexivity.
    + discriminate.
    + discriminate.
  - destruct (lookup_lt_is_Some_2 args index Hin) as [v Hv]. rewrite Hv.
    split; [| split; [| split]].
    + destruct v; simpl; split;
        try discriminate; try (intros (v & [= <-] & Hn & Hu); congruence);
        intros _; eexists; (split; [reflexivity | split; discriminate]).
    + discriminate.
    + intros [= ->]. reflexivity.
    + intros [= ->]. reflexivity.
Qed.

(** *** createClient, case by case *)

(** Every run of [createClient]: it leaves without a trace, or it has
    called [NewTxClient] on the five converted arguments and stored the
    pointer it got, and then either reports the error or registers the
    pointer. *)
Lemma createClient_cases args s s' r :
  createClient args s = (s', r) ->
  (s' = s /\ r <> Some (errorResponse ""))
  \/ exists a0 a1 n2 n3 n4 c err,
       args = [a0; a1; JsNumber n2; JsNumber n3; JsNumber n4] /\
       0 < int64 n4 /\
       NewTxClient (calls s) (NewHTTPClient (String a0)) (String a1)
         (int64 n4) (uint8 n3) (uint32 n2) = (c, err) /\
       calls s' = calls s ++
                  [CallNewTxClient (NewHTTPClient (String a0)) (String a1)
                     (int64 n4) (uint8 n3) (uint32 n2)] /\
       txClient s' = c /\ ticks s' = ticks s /\
       match err with
       | Some e =>
           backupTxClients s' = backupTxClients s /\
           r = Some (errorResponse
                       ("error occurred when creating TxClient. err: " +:+ e))
       | None =>
           backupTxClients s'
             = Some (<[uint8 n3 := c]> (default ∅ (backupTxClients s))) /\
           r = Some (errorResponse "")
       end.
Proof.
  unfold createClient, run, createClient_body.
  destruct args as [|a0 [|a1 [|a2 [|a3 [|a4 [|a5 args]]]]]];
    try (cbn; intros [= <- <-]; left; split; [reflexivity | discriminate]).
  cbn -[uint8 uint32 int64 String].
  unfold bind, require, validateArg. cbn -[uint8 uint32 int64 String].
  destruct a0; cbn -[uint8 uint32 int64 String];
    try (intros [= <- <-]; left; split; [reflexivity | discriminate]).
  all: destruct a1; cbn -[uint8 uint32 int64 String];
    try (intros [= <- <-]; left; split; [reflexivity | discriminate]).
  all: destruct a2; cbn -[uint8 uint32 int64 String];
    try (intros [= <- <-]; left; split; [reflexivity | discriminate]).
  all: destruct a3; cbn -[uint8 uint32 int64 String];
    try (intros [= <- <-]; left; split; [reflexivity | discriminate]).
  all: destruct a4; cbn -[uint8 uint32 int64 String];
    try (intros [= <- <-]; left; split; [reflexivity | discriminate]).
  all: match goal with
       | |- context [int64 ?n <=? 0] => destruct (Z.leb_spec (int64 n) 0)
       end;
       [intros [= <- <-]; left; split; [reflexivity | discriminate] |].
  all: match goal with
       | |- context [NewTxClient ?p ?h ?k ?a ?i ?ch] =>
           destruct (NewTxClient p h k a i ch) as [c [e|]] eqn:Hnew;
           cbn -[uint8 uint32 int64 String]
       end.
  all: try (intros [= <- <-]; right;
            do 5 eexists; exists c, (Some e);
            cbn -[uint8 uint32 int64 String];
            repeat (split; [first [reflexivity | eassumption] |]);
            reflexivity).
  all: destruct (backupTxClients s) as [m|] eqn:Hmap;
       cbn -[uint8 uint32 int64 String]; rewrite ?Hmap;
       cbn -[uint8 uint32 int64 String];
       intros [= <- <-]; right;
       do 5 eexists; exists c, None;
       cbn -[uint8 uint32 int64 String];
       repeat (split; [first [reflexivity | eassumption] |]);
       reflexivity.
Qed.

(** X6: an account index that is 0 or negative is refused before
    anything else happens: no client is built, and the active client
    and the registry stay as they were. *)
Theorem createClient_invalid_account_index (s : State) (url privateKey : string)
    (chainId apiKeyIndex accountIndex : Z) :
  int64 accountIndex <= 0 ->
  createClient
    [JsString url; JsString privateKey; JsNumber chainId;
     JsNumber apiKeyIndex; JsNumber accountIndex] s
  = (s, Some (errorResponse "invalid account index")).
Proof.
  intros Hacc. unfold createClient, run, createClient_body.
  cbn -[uint8 uint32 int64]. unfold bind, require.
  cbn -[uint8 uint32 int64].
  destruct (Z.leb_spec (int64 accountIndex) 0); [reflexivity | lia].
Qed.

(** X7: a [createClient] that does not succeed never writes the
    registry.  Either nothing at all has changed, or [NewTxClient] was
    called and failed, and then the active client has been replaced by
    the pointer [NewTxClient] returned. *)
Theorem createClient_failure (args : list jsValue) (s s' : State)
    (r : option ErrorResponse) :
  createClient args s = (s', r) -> r <> Some (errorResponse "") ->
  backupTxClients s' = backupTxClients s
  /\ (s' = s
      \/ exists httpClient privateKey accountIndex apiKeyIndex chainId c e,
           NewTxClient (calls s) httpClient privateKey accountIndex
             apiKeyIndex chainId = (c, Some e) /\
           txClient s' = c /\
           calls s' = calls s ++ [CallNewTxClient httpClient privateKey
                                    accountIndex apiKeyIndex chainId] /\
           r = Some (errorResponse
                       ("error occurred when creating TxClient. err: " +:+ e))).
Proof.
  intros Hrun Hfail.
  destruct (createClient_cases _ _ _ _ Hrun)
    as [[-> _] | (a0 & a1 & n2 & n3 & n4 & c & err & _ & _ & Hnew & Hcalls
                  & Hc & _ & Hrest)].
  - split; [reflexivity | left; reflexivity].
  - destruct err as [e|].
    + destruct Hrest as [Hmap ->]. split; [exact Hmap |]. right.
      exists (NewHTTPClient (String a0)), (String a1), (int64 n4), (uint8 n3),
        (uint32 n2), c, e.
      split; [exact Hnew |]. split; [exact Hc |].
      split; [exact Hcalls | reflexivity].
    + destruct Hrest as [_ ->]. contradiction.
Qed.

(** *** What the calls do to the registry *)

Lemma map_lookup_insert (m : option (gmap Z TxClientPtr)) (i k : Z)
    (c : TxClientPtr) :
  map_lookup (Some (<[i := c]> (default ∅ m))) k
  = if decide (i = k) then Some c else map_lookup m k.
Proof.
  simpl. rewrite lookup_insert. destruct (decide (i = k)); [reflexivity |].
  destruct m; [reflexivity | apply lookup_empty].
Qed.

(** One call changes the entry of an index only if it is a
    [createClient] for that index. *)
Lemma perform_entry (call : api_call) (s : State) (k : Z) :
  map_lookup (backupTxClients (perform call s)) k
    = map_lookup (backupTxClients s) k
  \/ (creates_at call k /\
      is_Some (map_lookup (backupTxClients (perform call s)) k)).
Proof.
  destruct call as [[args | args] | call]; simpl.
  - destruct (createClient args s) as [s' r] eqn:Hrun. simpl.
    destruct (createClient_cases _ _ _ _ Hrun)
      as [[-> _] | (a0 & a1 & n2 & n3 & n4 & c & err & -> & _ & _ & _
                    & _ & _ & Hrest)].
    + left. reflexivity.
    + destruct err as [e|].
      * destruct Hrest as [-> _]. left. reflexivity.
      * destruct Hrest as [-> _]. rewrite map_lookup_insert.
        destruct (decide (uint8 n3 = k)) as [Hk | Hk].
        -- right. split; [| eexists; reflexivity].
           exists n3. split; [reflexivity | exact Hk].
        -- left. reflexivity.
  - destruct (switchAPIKey args s) as [s' r] eqn:Hrun. simpl.
    destruct (switchAPIKey_result _ _ _ _ Hrun)
      as [[-> _] | (_ & -> & _)]; left; reflexivity.
  - destruct (sign_appends (txClient s) call s eq_refl) as (_ & -> & _).
    left. reflexivity.
Qed.

(** X8: an entry of the registry is never removed: whatever calls
    follow, with whatever arguments, an index that has a client keeps
    one, so [switchAPIKey] to it keeps succeeding.  The client stays the
    same one as long as no [createClient] is made for that index. *)
Theorem registry_entries_stay (cs : list api_call) (s : State) (k : Z) :
  is_uint8 k ->
  is_Some (map_lookup (backupTxClients s) k) ->
  is_Some (map_lookup (backupTxClients (perform_all cs s)) k)
  /\ snd (switchAPIKey [JsNumber k] (perform_all cs s))
     = Some (errorResponse "")
  /\ (Forall (fun call => ~ creates_at call k) cs ->
      map_lookup (backupTxClients (perform_all cs s)) k
      = map_lookup (backupTxClients s) k).
Proof.
  intros Hk Hsome.
  assert (Hstay : is_Some (map_lookup (backupTxClients (perform_all cs s)) k)).
  { revert s Hsome. induction cs as [|call cs IH]; intros s Hsome; simpl.
    - exact Hsome.
    - apply IH. destruct (perform_entry call s k) as [-> | [_ Hnew]];
        assumption. }
  split; [exact Hstay |]. split.
  - rewrite switchAPIKey_number, (uint8_id k Hk).
    destruct Hstay as [c ->]. reflexivity.
  - clear Hsome Hstay. revert s.
    induction cs as [|call cs IH]; intros s Hnone; simpl; [reflexivity |].
    inversion Hnone as [|? ? Hcall Hrest]; subst.
    rewrite (IH _ Hrest).
    destruct (perform_entry call s k) as [-> | [Hc _]];
      [reflexivity | contradiction].
Qed.

(** X9: the api-key index is taken modulo 256: [switchAPIKey] and
    [createClient] treat an index and the same index plus a multiple of
    256 alike. *)
Theorem apiKeyIndex_wraps (n m : Z) (s : State) (a0 a1 a2 a4 : jsValue) :
  switchAPIKey [JsNumber (n + 256 * m)] s = switchAPIKey [JsNumber n] s
  /\ createClient [a0; a1; a2; JsNumber (n + 256 * m); a4] s
     = createClient [a0; a1; a2; JsNumber n; a4] s.
Proof.
  assert (Hwrap : uint8 (n + 256 * m) = uint8 n).
  { unfold uint8. change (2 ^ 8) with 256.
    rewrite Z.mul_comm, Z.mod_add by lia. reflexivity. }
  split.
  - rewrite !switchAPIKey_number, Hwrap. reflexivity.
  - unfold createClient, run, createClient_body.
    cbn -[uint8 uint32 int64 String].
    unfold bind, require, validateArg. cbn -[uint8 uint32 int64 String].
    rewrite Hwrap. reflexivity.
Qed.

(** X10: the last switch wins: when an index has a client, switching
    to it ends in the same state whatever [switchAPIKey] call was made
    just before. *)
Theorem switchAPIKey_last_wins (args : list jsValue) (n : Z) (s : State) :
  is_Some (map_lookup (backupTxClients s) (uint8 n)) ->
  switchAPIKey [JsNumber n] (fst (switchAPIKey args s))
  = switchAPIKey [JsNumber n] s.
Proof.
  intros [c Hc].
  destruct (switchAPIKey args s) as [s1 r] eqn:Hrun. simpl.
  destruct (switchAPIKey_result _ _ _ _ Hrun) as [[-> _] | (_ & Hs1 & _)];
    [reflexivity |].
  assert (Hb : backupTxClients s1 = backupTxClients s)
    by (rewrite Hs1; reflexivity).
  assert (Hw : with_txClient c s1 = with_txClient c s)
    by (unfold with_txClient; rewrite Hs1; reflexivity).
  rewrite !switchAPIKey_number, Hb, Hc, Hw. reflexivity.
Qed.

(** *** signTransfer, continued *)

(** X11: a memo of 64 characters that are not all hexadecimal digits
    is refused as invalid hex, and nothing else happens. *)
Theorem signTransfer_memo_not_hex (s : State) (c : loc)
    (to amount fee nonce : Z) (memo : string) :
  txClient s = Some c ->
  String.length memo = 64%nat ->
  ~ Forall hexutil.is_hex_digit (list_ascii_of_string memo) ->
  signTransfer
    [JsNumber to; JsNumber amount; JsNumber fee; JsString memo;
     JsNumber nonce] s
  = (s, Some (stringError "invalid hex memo: invalid hex string")).
Proof.
  intros Hc Hlen Hbad.
  rewrite (signTransfer_wellformed _ _ _ _ _ _ _ Hc).
  pose proof (hex_Decode_not_digits 32 (list_ascii_of_string memo)) as Herr.
  rewrite length_list_ascii_of_string in Herr.
  specialize (Herr Hlen Hbad).
  unfold run, bind, transfer_memo.
  destruct (decide (memo <> ""%string)) as [_ | Hempty].
  - rewrite Hlen. simpl negb. cbv iota. rewrite Decode_prefixed.
    destruct (hexutil.hex_Decode (list_ascii_of_string memo)) as [bs err].
    simpl in Herr. subst err. reflexivity.
  - destruct memo; [discriminate Hlen |].
    exfalso. apply Hempty. discriminate.
Qed.

(** X12: the memo survives the trip through its text: for any 32
    bytes, passing their lower-case hexadecimal text as the memo puts
    exactly these bytes into the request. *)
Theorem signTransfer_memo_round_trip (s : State) (c : loc)
    (to amount fee nonce : Z) (memo : list Z) :
  txClient s = Some c ->
  Forall is_uint8 memo -> length memo = 32%nat ->
  calls (fst (signTransfer
                [JsNumber to; JsNumber amount; JsNumber fee;
                 JsString (string_of_list_ascii (hex_text memo));
                 JsNumber nonce] s))
  = calls s ++
    [CallGetTransferTransaction c
       {| ToAccountIndex := int64 to; USDCAmount := int64 amount;
          Fee := int64 fee; Memo := memo |}
       {| Nonce := if negb (int64 nonce =? -1) then Some (int64 nonce)
                   else None;
          ExpiredAt := 0 |}].
Proof.
  intros Hc Hbytes Hlen.
  rewrite (signTransfer_wellformed _ _ _ _ _ _ _ Hc).
  destruct (transfer_memo_hex (string_of_list_ascii (hex_text memo)))
    as [Hmemo _].
  - rewrite <- length_list_ascii_of_string,
      list_ascii_of_string_of_list_ascii, length_hex_text, Hlen.
    reflexivity.
  - rewrite list_ascii_of_string_of_list_ascii.
    apply hex_text_digits, Hbytes.
  - rewrite list_ascii_of_string_of_list_ascii,
      (hex_bytes_hex_text _ Hbytes) in Hmemo.
    unfold run, bind. rewrite Hmemo. cbn -[int64].
    destruct (GetTransferTransaction _ _ _ _) as [e | tx]; [reflexivity |].
    destruct (transfer_json tx); reflexivity.
Qed.

(** *** signCreateGroupedOrders, continued *)

(** The loop, in closed form. *)
Lemma build_orders_legs {R} orderRequests : forall orders s,
  build_orders (R:=R) orderRequests orders s
  = ({| txClient := txClient s; backupTxClients := backupTxClients s;
        calls := calls s;
        ticks := (ticks s + default_expiries orderRequests)%nat |},
     Next (orders ++ legs_from (ticks s) orderRequests)).
Proof.
  unfold default_expiries.
  induction orderRequests as [|orderReq rest IH]; intros orders s.
  - simpl. rewrite app_nil_r, Nat.add_0_r. destruct s; reflexivity.
  - simpl. unfold bind at 1. rewrite filter_cons.
    destruct (Z.eqb_spec (OrderExpiry orderReq) (-1)) as [Hd | Hd].
    + destruct (decide (OrderExpiry orderReq = -1)); [| contradiction].
      simpl. rewrite IH. simpl. rewrite <- app_assoc.
      f_equal. f_equal. lia.
    + destruct (decide (OrderExpiry orderReq = -1)); [contradiction |].
      simpl. rewrite IH. simpl. rewrite <- app_assoc. reflexivity.
Qed.

(** X13: the legs of a grouped order are the requests, in their order
    and field by field, with client order index 0; a request whose
    expiry is -1 gets the clock's reading plus 28 days, read once per
    such request, and any other expiry is passed on as it is. *)
Theorem grouped_orders_legs (s : State) (c : loc)
    (groupingType expiredAt nonce : Z) (ordersJSON : string)
    (orderRequests : list orderRequest) :
  txClient s = Some c ->
  Unmarshal_orderRequests ordersJSON = inr orderRequests ->
  (2 <= length orderRequests <= 3)%nat ->
  let s' :=
    fst (signCreateGroupedOrders
           [JsNumber groupingType; JsString ordersJSON; JsNumber expiredAt;
            JsNumber nonce] s) in
  calls s'
  = calls s ++
    [CallGetCreateGroupedOrdersTransaction c
       {| GroupingType := uint8 groupingType;
          Orders := legs_from (ticks s) orderRequests |}
       {| Nonce := if negb (int64 nonce =? -1) then Some (int64 nonce)
                   else None;
          ExpiredAt := if negb (int64 expiredAt =? -1) then int64 expiredAt
                       else 0 |}]
  /\ ticks s' = (ticks s + default_expiries orderRequests)%nat.
Proof.
  intros Hc Hparse Hcount s'. subst s'.
  rewrite (signCreateGroupedOrders_wellformed _ _ _ _ _ _ _ Hc Hparse).
  assert (Htest : (length orderRequests <? 2)%nat
                  || (3 <? length orderRequests)%nat = false).
  { apply orb_false_iff. split; apply Nat.ltb_ge; lia. }
  rewrite Htest. unfold run, bind. rewrite build_orders_legs.
  cbn -[int64 uint8 legs_from].
  destruct (GetCreateGroupedOrdersTransaction _ _ _ _) as [e | tx];
    cbn -[int64 uint8 legs_from]; [split; reflexivity |].
  destruct (Marshal_grouped tx); cbn -[int64 uint8 legs_from];
    split; reflexivity.
Qed.

(** X14: when the JSON text of the orders does not parse, the parse
    error is reported and nothing else happens. *)
Theorem grouped_orders_parse_error (s : State) (c : loc)
    (groupingType expiredAt nonce : Z) (ordersJSON e : string) :
  txClient s = Some c ->
  Unmarshal_orderRequests ordersJSON = inl e ->
  signCreateGroupedOrders
    [JsNumber groupingType; JsString ordersJSON; JsNumber expiredAt;
     JsNumber nonce] s
  = (s, Some (stringError ("failed to parse ordersJSON: " +:+ e))).
Proof.
  intros Hc Hparse. unfold signCreateGroupedOrders, signCreateGroupedOrders_body.
  cbn -[int64 uint8 build_orders Nat.ltb]. unfold run, bind, require, get.
  cbn -[int64 uint8 build_orders Nat.ltb]. rewrite Hc.
  cbn -[int64 uint8 build_orders Nat.ltb]. rewrite Hparse. reflexivity.
Qed.

(** *** Arguments of the registry functions *)

(** X28: [switchAPIKey] and [createClient] return nothing at all, not
    even an error, when a string or any other value that is not a
    number stands where the api-key index or the chain id is expected;
    the state is left as it is. *)
Theorem registry_not_a_number (v a3 a4 : jsValue) (url privateKey : string)
    (s : State) :
  exports.not_a_number v ->
  switchAPIKey [v] s = (s, None)
  /\ (a3 <> JsNull -> a3 <> JsUndefined -> a4 <> JsNull ->
      a4 <> JsUndefined ->
      createClient [JsString url; JsString privateKey; v; a3; a4] s
      = (s, None)).
Proof.
  intros Hv. split.
  - unfold switchAPIKey, run, switchAPIKey_body.
    cbn -[uint8]. unfold bind, require, validateArg. cbn -[uint8].
    destruct v; simpl in Hv; first [contradiction | reflexivity].
  - intros H3n H3u H4n H4u.
    unfold createClient, run, createClient_body.
    cbn -[uint8 uint32 int64]. unfold bind, require, validateArg.
    cbn -[uint8 uint32 int64].
    destruct v; simpl in Hv; try contradiction;
      destruct a3; try congruence; destruct a4; try congruence;
      reflexivity.
Qed.

(** X29: the binding does not refuse an empty URL: [createClient]
    then builds the client on a nil HTTP client; for any other URL the
    HTTP client has that endpoint, an empty channel name and fat-finger
    protection switched on. *)
Theorem createClient_http_client (s : State) (url privateKey : string)
    (chainId apiKeyIndex accountIndex : Z) :
  0 < int64 accountIndex ->
  let s' :=
    fst (createClient
           [JsString url; JsString privateKey; JsNumber chainId;
            JsNumber apiKeyIndex; JsNumber accountIndex] s) in
  let built httpClient :=
    calls s' = calls s ++
               [CallNewTxClient httpClient privateKey (int64 accountIndex)
                  (uint8 apiKeyIndex) (uint32 chainId)] in
  (url = ""%string -> built None)
  /\ (url <> ""%string ->
        built (Some {| endpoint := url; channelName := ""%string;
                       fatFingerProtection := true |})).
Proof.
  intros Hacc s' built. subst s' built.
  assert (Hcalls : forall httpClient,
            NewHTTPClient url = httpClient ->
            calls (fst (createClient
                          [JsString url; JsString privateKey; JsNumber chainId;
                           JsNumber apiKeyIndex; JsNumber accountIndex] s))
            = calls s ++
              [CallNewTxClient httpClient privateKey (int64 accountIndex)
                 (uint8 apiKeyIndex) (uint32 chainId)]).
  { intros httpClient <-.
    unfold createClient, run, createClient_body.
    cbn -[uint8 uint32 int64 NewHTTPClient]. unfold bind, require.
    cbn -[uint8 uint32 int64 NewHTTPClient].
    destruct (Z.leb_spec (int64 accountIndex) 0); [lia |].
    destruct (NewTxClient _ _ _ _ _ _) as [c [e|]];
      cbn -[uint8 uint32 int64 NewHTTPClient]; [reflexivity |].
    destruct (backupTxClients s); reflexivity. }
  split.
  - intros ->. apply Hcalls. reflexivity.
  - intros Hne. apply Hcalls. unfold NewHTTPClient.
    destruct (decide (url = ""%string)); [contradiction | reflexivity].
Qed.

End BindingMore.

(** ** The other exported functions *)

Section ExportsProperties.

Import sharedlib exports.
Context `{H : Host}.

(** *** No signing function writes a global *)

Section Quiet.
Context `{T : TxClient} (c : TxClientPtr) (E : event -> Prop).

Lemma keeps_number {R} args i :
  keeps (R:=R) c E (number args i) (fun _ => True).
Proof.
  unfold number, index.
  destruct (args !! i) as [a|].
  - apply keeps_bind with (Q := fun _ => True);
      [apply keeps_ret; exact I | intros a' _].
    destruct a'; first [apply keeps_panic | apply keeps_ret; exact I].
  - apply keeps_bind with (Q := fun _ => True);
      [apply keeps_panic | intros a' _].
    destruct a'; first [apply keeps_panic | apply keeps_ret; exact I].
Qed.

Lemma keeps_require {R} (mk : string -> R) args i argName :
  keeps c E (require mk args i argName) (fun _ => True).
Proof.
  unfold require. destruct (validateArg args i argName);
    [apply keeps_leave | apply keeps_ret; exact I].
Qed.

Lemma keeps_require_from {R} (mk : string -> R) args argNames : forall i,
  keeps c E (require_from mk args i argNames) (fun _ => True).
Proof.
  induction argNames as [|argName rest IH]; intros i; simpl.
  - apply keeps_ret. exact I.
  - apply keeps_bind with (Q := fun _ => True);
      [apply keeps_require | intros _ _; apply IH].
Qed.

Lemma keeps_active_client :
  keeps c E active_client (fun _ => True).
Proof.
  unfold active_client.
  apply keeps_bind with (Q := fun _ => True); [| intros s _].
  - eapply keeps_weaken; [apply keeps_get | trivial].
  - destruct (txClient s); [apply keeps_ret; exact I | apply keeps_leave].
Qed.

Lemma keeps_respond r : keeps c E (respond r) (fun _ => True).
Proof.
  unfold respond. destruct r as [e | tx]; [apply keeps_leave |].
  destruct (Marshal tx); [apply keeps_leave | apply keeps_ret; exact I].
Qed.

End Quiet.

Ltac stroll :=
  repeat first
    [ apply keeps_leave
    | apply keeps_panic
    | apply keeps_ret; exact I
    | apply keeps_time_Now
    | apply keeps_number
    | apply keeps_require
    | apply keeps_require_from
    | apply keeps_active_client
    | apply keeps_respond
    | lazymatch goal with
      | |- keeps _ _ (bind _ _) _ =>
          apply keeps_bind with (Q := fun _ => True); [| intros ? _]
      | |- keeps _ _ (match ?x with _ => _ end) _ => destruct x eqn:?
      | |- keeps _ _ (index _ _) _ => unfold index
      end ].

Lemma body_keeps `{T : TxClient} c E f args :
  keeps c E (body f args) (fun _ => True).
Proof.
  destruct f; simpl;
    [ unfold signChangePubKey_body | unfold signCreateOrder_body
    | unfold signCancelOrder_body | unfold signWithdraw_body
    | unfold signCreateSubAccount_body | unfold signCancelAllOrders_body
    | unfold signModifyOrder_body | unfold signCreatePublicPool_body
    | unfold signUpdatePublicPool_body | unfold signMintShares_body
    | unfold signBurnShares_body | unfold signUpdateLeverage_body
    | unfold signUpdateMargin_body | unfold createAuthToken_body ];
    stroll.
Qed.

Lemma exported_keeps `{T : TxClient} f args s :
  txClient (fst (exported f args s)) = txClient s
  /\ backupTxClients (fst (exported f args s)) = backupTxClients s
  /\ calls (fst (exported f args s)) = calls s.
Proof.
  unfold exported.
  destruct (keeps_run _ _ _ _ s
              (body_keeps (txClient s) (fun _ => False) f args) eq_refl)
    as (Ht & Hb & new & Hc & Hnew).
  split; [exact Ht |]. split; [exact Hb |].
  destruct new as [|e new]; [rewrite Hc; apply app_nil_r |].
  inversion Hnew as [|? ? Hfalse _]. contradiction.
Qed.

(** X15: none of the fourteen other signing functions writes a
    global: after any sequence of their calls, with any arguments and
    any answers from package client, the active client, the registry
    and the record of the modelled client calls are as before. *)
Theorem signing_keeps_registry (cs : list signing) (s : State) :
  txClient (exported_all cs s) = txClient s
  /\ backupTxClients (exported_all cs s) = backupTxClients s
  /\ calls (exported_all cs s) = calls s.
Proof.
  revert s. induction cs as [|call cs IH]; intros s; simpl.
  - repeat split.
  - destruct (IH (fst (@exported H (answers call) (function call)
                         (arguments call) s))) as (Ht & Hb & Hc).
    destruct (@exported_keeps (answers call) (function call)
                (arguments call) s) as (Ht' & Hb' & Hc').
    unfold exported_all in *. simpl.
    split; [congruence |]. split; congruence.
Qed.

(** *** Without a client *)

Lemma validateArg_message args i argName e :
  validateArg args i argName = Some e -> e <> ""%string.
Proof.
  unfold validateArg. destruct (length args <=? i)%nat.
  - intros [= <-]. discriminate.
  - destruct (args !! i) as [v|]; [| discriminate].
    destruct (IsNull v); [intros [= <-]; discriminate |].
    destruct (IsUndefined v); [intros [= <-]; discriminate | discriminate].
Qed.

Lemma is_error_stringError msg : msg <> ""%string -> is_error (stringError msg).
Proof. intros Hmsg. split; [reflexivity | exact Hmsg]. Qed.

Section Idle.
Context `{T : TxClient}.

Lemma idle_ret {A} (a : A) : idle (ret a).
Proof. intros s _. split; [reflexivity | exact I]. Qed.

Lemma idle_panic {A} : idle (A:=A) panic.
Proof. intros s _. split; [reflexivity | exact I]. Qed.

Lemma idle_bind {A B} (m : M StringResponse A) (k : A -> M StringResponse B) :
  idle m -> (forall a, idle (k a)) -> idle (bind m k).
Proof.
  intros Hm Hk s Hs. destruct (Hm s Hs) as [Hst Hres]. unfold bind.
  destruct (m s) as [s1 [a | r | ]]; simpl in *; subst s1.
  - exact (Hk a s Hs).
  - split; [reflexivity | exact Hres].
  - split; [reflexivity | exact I].
Qed.

Lemma idle_number args i : idle (number args i).
Proof.
  unfold number, index.
  destruct (args !! i) as [a|]; apply idle_bind;
    first [apply idle_ret | apply idle_panic | idtac];
    intros a'; destruct a'; first [apply idle_panic | apply idle_ret].
Qed.

Lemma idle_require args i argName : idle (require stringError args i argName).
Proof.
  unfold require.
  destruct (validateArg args i argName) as [e|] eqn:He; [| apply idle_ret].
  intros s _. split; [reflexivity |]. simpl.
  apply is_error_stringError. exact (validateArg_message _ _ _ _ He).
Qed.

Lemma idle_require_from args argNames : forall i,
  idle (require_from stringError args i argNames).
Proof.
  induction argNames as [|argName rest IH]; intros i; simpl.
  - apply idle_ret.
  - apply idle_bind; [apply idle_require | intros _; apply IH].
Qed.

Lemma refuses_leave {A} msg :
  msg <> ""%string -> refuses (A:=A) (leave (stringError msg)).
Proof.
  intros Hmsg s _. split; [reflexivity |]. simpl.
  apply is_error_stringError, Hmsg.
Qed.

Lemma refuses_panic {A} : refuses (A:=A) panic.
Proof. intros s _. split; [reflexivity | exact I]. Qed.

Lemma refuses_bind {A B} (m : M StringResponse A)
    (k : A -> M StringResponse B) :
  idle m -> (forall a, refuses (k a)) -> refuses (bind m k).
Proof.
  intros Hm Hk s Hs. destruct (Hm s Hs) as [Hst Hres]. unfold bind.
  destruct (m s) as [s1 [a | r | ]]; simpl in *; subst s1.
  - exact (Hk a s Hs).
  - split; [reflexivity | exact Hres].
  - split; [reflexivity | exact I].
Qed.

Lemma refuses_active_client {B} (k : loc -> M StringResponse B) :
  refuses (bind active_client k).
Proof.
  intros s Hs. unfold active_client, bind, get. rewrite Hs. simpl.
  split; [reflexivity |]. apply is_error_stringError. discriminate.
Qed.

Lemma body_refuses f args : refuses (body f args).
Proof.
  destruct f; simpl;
    [ unfold signChangePubKey_body | unfold signCreateOrder_body
    | unfold signCancelOrder_body | unfold signWithdraw_body
    | unfold signCreateSubAccount_body | unfold signCancelAllOrders_body
    | unfold signModifyOrder_body | unfold signCreatePublicPool_body
    | unfold signUpdatePublicPool_body | unfold signMintShares_body
    | unfold signBurnShares_body | unfold signUpdateLeverage_body
    | unfold signUpdateMargin_body | unfold createAuthToken_body ];
    repeat first
      [ apply refuses_active_client
      | apply refuses_leave; discriminate
      | apply idle_require
      | apply idle_require_from
      | apply idle_number
      | apply idle_ret
      | lazymatch goal with
        | |- refuses (bind _ _) => apply refuses_bind; [| intros ?]
        | |- refuses (match ?x with _ => _ end) => destruct x eqn:?
        | |- idle (bind _ _) => apply idle_bind; [| intros ?]
        | |- idle (match ?x with _ => _ end) => destruct x eqn:?
        end ].
Qed.

End Idle.

(** X16: before a client exists no signing function signs: for every
    function, arguments and answers of the outside, the state is left
    as it is and the response, if there is one, reports an error. *)
Theorem no_client_no_signature `{T : TxClient} (f : signer)
    (args : list jsValue) (s : State) :
  txClient s = None ->
  fst (exported f args s) = s
  /\ forall r, snd (exported f args s) = Some r -> is_error r.
Proof.
  intros Hs. destruct (body_refuses f args s Hs) as [Hst Hres].
  unfold exported, run.
  destruct (body f args s) as [s1 [r | r | ]]; simpl in *.
  - contradiction.
  - split; [exact Hst |]. intros r' [= <-]. exact Hres.
  - split; [exact Hst | discriminate].
Qed.

(** *** Arguments that are not what the function expects *)

Lemma validateArg_not_a_number args i argName v :
  args !! i = Some v -> not_a_number v -> validateArg args i argName = None.
Proof.
  intros Hv Hnan. unfold validateArg.
  destruct (Nat.leb_spec (length args) i) as [Hout | _].
  - apply lookup_ge_None_2 in Hout. congruence.
  - rewrite Hv. destruct v; simpl in *; first [contradiction | reflexivity].
Qed.

Lemma require_not_a_number {R} (mk : string -> R) args i argName :
  Forall not_a_number args -> (i < length args)%nat ->
  require mk args i argName = ret tt.
Proof.
  intros Hall Hi. destruct (lookup_lt_is_Some_2 args i Hi) as [v Hv].
  unfold require.
  rewrite (validateArg_not_a_number args i argName v Hv); [reflexivity |].
  rewrite Forall_lookup in Hall. exact (Hall i v Hv).
Qed.

Lemma require_from_not_a_number {R} (mk : string -> R) args argNames :
  Forall not_a_number args -> forall i s,
  (i + length argNames <= length args)%nat ->
  require_from mk args i argNames s = (s, Next tt).
Proof.
  intros Hall. induction argNames as [|argName rest IH]; intros i s Hlen.
  - reflexivity.
  - simpl in *. rewrite (require_not_a_number mk args i argName Hall) by lia.
    unfold bind. simpl. apply IH. lia.
Qed.

Lemma number_not_a_number {R} args i s :
  Forall not_a_number args -> (i < length args)%nat ->
  number (R:=R) args i s = (s, Panic).
Proof.
  intros Hall Hi. destruct (lookup_lt_is_Some_2 args i Hi) as [v Hv].
  rewrite Forall_lookup in Hall. specialize (Hall i v Hv).
  unfold number, index, bind. rewrite Hv. simpl.
  destruct v; simpl in *; first [contradiction | reflexivity].
Qed.

(** X17: a string, or anything else that is not a number, where a
    number is expected makes the function return nothing at all, not
    even an error: shown here for calls whose arguments are all of that
    kind.  The state is left as it is. *)
Theorem not_a_number_no_response `{T : TxClient} (f : signer)
    (args : list jsValue) (s : State) (c : loc) :
  txClient s = Some c ->
  length args = arity f -> Forall not_a_number args ->
  exported f args s = (s, None).
Proof.
  intros Hc Hlen Hall.
  assert (Hclient : active_client s = (s, Next c)).
  { unfold active_client, bind, get. rewrite Hc. reflexivity. }
  destruct f; simpl in Hlen; unfold exported, run; simpl body;
    [ unfold signChangePubKey_body | unfold signCreateOrder_body
    | unfold signCancelOrder_body | unfold signWithdraw_body
    | unfold signCreateSubAccount_body | unfold signCancelAllOrders_body
    | unfold signModifyOrder_body | unfold signCreatePublicPool_body
    | unfold signUpdatePublicPool_body | unfold signMintShares_body
    | unfold signBurnShares_body | unfold signUpdateLeverage_body
    | unfold signUpdateMargin_body | unfold createAuthToken_body ];
    rewrite Hlen;
    cbn -[require require_from number active_client index hexutil.Decode];
    unfold bind;
    repeat (first
      [ rewrite (require_not_a_number _ _ _ _ Hall) by lia
      | rewrite (require_from_not_a_number _ _ _ Hall) by (simpl; lia)
      | rewrite Hclient
      | rewrite number_not_a_number by (first [assumption | lia]) ];
      cbn -[require require_from number active_client index hexutil.Decode]);
    try reflexivity.
  (* signChangePubKey reads its first argument as a string *)
  destruct args as [|a0 [|a1 [|a2 args]]]; try discriminate Hlen.
  inversion Hall as [|? ? _ Hrest]; subst.
  inversion Hrest as [|? ? Ha1 _]; subst.
  unfold number, index, bind. simpl.
  destruct a1; simpl in Ha1; first [contradiction | reflexivity].
Qed.

(** *** What the functions ask of the client *)

Lemma run_respond `{T : TxClient} (r : string + Tx) (s : State) :
  (let (s', f) := respond r s in
   match f with
   | Next x | Return x => (s', Some x)
   | Panic => (s', None)
   end) = (s, Some (response_of r)).
Proof.
  unfold respond, response_of. destruct r as [e | tx]; [reflexivity |].
  destruct (Marshal tx); reflexivity.
Qed.

(** X18: [signCreateOrder] passes the client order index on as it is
    given, and an order expiry of -1 is replaced by the clock's reading
    plus 28 days, read once; any other expiry, 0 and other negative
    values included, is passed on unchanged and the clock is not read. *)
Theorem signCreateOrder_request `{T : TxClient} (s : State) (c : loc)
    (marketIndex clientOrderIndex baseAmount price isAsk orderType
     timeInForce reduceOnly triggerPrice orderExpiry nonce : Z) :
  txClient s = Some c ->
  let args :=
    [ JsNumber marketIndex; JsNumber clientOrderIndex; JsNumber baseAmount;
      JsNumber price; JsNumber isAsk; JsNumber orderType;
      JsNumber timeInForce; JsNumber reduceOnly; JsNumber triggerPrice;
      JsNumber orderExpiry; JsNumber nonce ] in
  let txInfo expiry :=
    {| ReqMarketIndex := uint8 marketIndex;
       ClientOrderIndex := int64 clientOrderIndex;
       ReqBaseAmount := int64 baseAmount;
       ReqPrice := uint32 price;
       ReqIsAsk := uint8 isAsk;
       ReqType := uint8 orderType;
       ReqTimeInForce := uint8 timeInForce;
       ReqReduceOnly := uint8 reduceOnly;
       ReqTriggerPrice := uint32 triggerPrice;
       ReqOrderExpiry := expiry |} in
  let ops :=
    {| Nonce := if negb (int64 nonce =? -1) then Some (int64 nonce) else None;
       ExpiredAt := 0 |} in
  (int64 orderExpiry = -1 ->
     exported signCreateOrder args s
     = ({| txClient := txClient s; backupTxClients := backupTxClients s;
           calls := calls s; ticks := S (ticks s) |},
        Some (response_of
                (GetTransaction c
                   (GetCreateOrderTransaction
                      (txInfo (now_ms (ticks s) + days28_ms))) ops))))
  /\ (int64 orderExpiry <> -1 ->
        exported signCreateOrder args s
        = (s, Some (response_of
                      (GetTransaction c
                         (GetCreateOrderTransaction
                            (txInfo (int64 orderExpiry))) ops)))).
Proof.
  intros Hc args txInfo ops. subst args txInfo ops.
  unfold exported, run. simpl body. unfold signCreateOrder_body.
  cbn -[uint8 uint32 int64 respond active_client].
  unfold bind, require. cbn -[uint8 uint32 int64 respond active_client].
  unfold active_client, bind, get. rewrite Hc.
  cbn -[uint8 uint32 int64 respond].
  split; intros Hexp.
  - rewrite Hexp. cbn -[uint8 uint32 int64 respond]. rewrite <- Hc.
    apply run_respond.
  - destruct (Z.eqb_spec (int64 orderExpiry) (-1)); [contradiction |].
    cbn -[uint8 uint32 int64 respond]. apply run_respond.
Qed.

(** X19: [signWithdraw] converts the amount to an unsigned 64-bit
    integer without a check: a negative amount is not refused, it is
    sent to the client as the amount plus 2^64. *)
Theorem signWithdraw_negative_amount `{T : TxClient} (s : State) (c : loc)
    (usdcAmount nonce : Z) :
  txClient s = Some c ->
  - 2 ^ 63 <= usdcAmount < 0 ->
  exported signWithdraw [JsNumber usdcAmount; JsNumber nonce] s
  = (s, Some (response_of
                (GetTransaction c
                   (GetWithdrawTransaction
                      {| WithdrawTxReq.USDCAmount := usdcAmount + 2 ^ 64 |})
                   {| Nonce := if negb (int64 nonce =? -1)
                               then Some (int64 nonce) else None;
                      ExpiredAt := 0 |}))).
Proof.
  intros Hc Hneg.
  assert (Hwrap : uint64 usdcAmount = usdcAmount + 2 ^ 64).
  { unfold uint64.
    rewrite <- (Z.mod_add usdcAmount 1 (2 ^ 64)) by lia.
    rewrite Z.mul_1_l. apply Z.mod_small. lia. }
  unfold exported, run. simpl body. unfold signWithdraw_body.
  cbn -[uint64 int64 respond active_client].
  unfold bind, require. cbn -[uint64 int64 respond active_client].
  unfold active_client, bind, get. rewrite Hc.
  cbn -[uint64 int64 respond]. rewrite Hwrap. apply run_respond.
Qed.

(** X20: the integer arguments are cut to the width of their field
    without a check: [signUpdateLeverage] answers alike for a market
    index or margin mode increased by a multiple of 256 and for a margin
    fraction increased by a multiple of 65536. *)
Theorem signUpdateLeverage_wraps `{T : TxClient} (s : State)
    (marketIndex initialMarginFraction marginMode i j k : Z) (a3 : jsValue) :
  exported signUpdateLeverage
    [ JsNumber (marketIndex + 256 * i);
      JsNumber (initialMarginFraction + 65536 * j);
      JsNumber (marginMode + 256 * k); a3 ] s
  = exported signUpdateLeverage
      [ JsNumber marketIndex; JsNumber initialMarginFraction;
        JsNumber marginMode; a3 ] s.
Proof.
  assert (H8 : forall n m, uint8 (n + 256 * m) = uint8 n).
  { intros n m. unfold uint8. change (2 ^ 8) with 256.
    rewrite Z.mul_comm, Z.mod_add by lia. reflexivity. }
  assert (H16 : uint16 (initialMarginFraction + 65536 * j)
                = uint16 initialMarginFraction).
  { unfold uint16. change (2 ^ 16) with 65536.
    rewrite Z.mul_comm, Z.mod_add by lia. reflexivity. }
  unfold exported, run. simpl body. unfold signUpdateLeverage_body.
  cbn -[uint8 uint16 int64 respond active_client].
  unfold bind, require, validateArg.
  cbn -[uint8 uint16 int64 respond active_client].
  rewrite !H8, H16. reflexivity.
Qed.

(** *** createAuthToken *)

(** X21: without an argument, or with deadline 0, the token's deadline
    is the clock's reading in whole seconds plus 7 hours; any other
    deadline, a past one included, is handed to the client as it is and
    the clock is not read. *)
Theorem createAuthToken_deadline `{T : TxClient} (s : State) (c : loc)
    (deadline : Z) :
  txClient s = Some c ->
  let token d :=
    match GetAuthToken c d with
    | inl e => stringError ("failed to create auth token: " +:+ e)
    | inr authToken =>
        {| Result := authToken; StringResponse_Error := ""%string |}
    end in
  let later :=
    {| txClient := txClient s; backupTxClients := backupTxClients s;
       calls := calls s; ticks := S (ticks s) |} in
  exported createAuthToken [] s
    = (later, Some (token (now_ms (ticks s) / 1000 + hours7_s)))
  /\ (int64 deadline = 0 ->
        exported createAuthToken [JsNumber deadline] s
        = (later, Some (token (now_ms (ticks s) / 1000 + hours7_s))))
  /\ (int64 deadline <> 0 ->
        exported createAuthToken [JsNumber deadline] s
        = (s, Some (token (int64 deadline)))).
Proof.
  intros Hc token later. subst token later.
  unfold exported, run. simpl body. unfold createAuthToken_body.
  split; [| split]; [| intros Hd | intros Hd];
    cbn -[int64 active_client time_Now];
    unfold number, index, bind; cbn -[int64 active_client time_Now];
    unfold active_client, bind, get; rewrite Hc;
    cbn -[int64 time_Now].
  - unfold time_Now. cbn -[int64]. rewrite <- Hc.
    destruct (GetAuthToken c _); reflexivity.
  - rewrite Hd. unfold time_Now. cbn -[int64]. rewrite <- Hc.
    destruct (GetAuthToken c _); reflexivity.
  - destruct (Z.eqb_spec (int64 deadline) 0); [contradiction |].
    cbn -[int64]. destruct (GetAuthToken c _); reflexivity.
Qed.

(** *** signChangePubKey *)

(** X22: the public key must be hexadecimal text with the [0x]
    prefix, which the memo of [signTransfer] must not have: an empty
    key and a key without the prefix are refused as badly formatted, a
    key of other than 40 bytes is refused with its length, and a key of
    40 bytes reaches the client as exactly these bytes. *)
Theorem signChangePubKey_key `{T : TxClient} (s : State) (c : loc)
    (pubKey : string) (nonce : Z) :
  txClient s = Some c ->
  let answer := exported signChangePubKey [JsString pubKey; JsNumber nonce] s in
  (pubKey = ""%string ->
     answer = (s, Some (stringError
                          "invalid public key format: empty hex string")))
  /\ (pubKey <> ""%string ->
        hexutil.has0xPrefix (list_ascii_of_string pubKey) = false ->
        answer = (s, Some (stringError
                   "invalid public key format: hex string without 0x prefix")))
  /\ (forall digits n,
        pubKey = ("0x" +:+ digits)%string ->
        Forall hexutil.is_hex_digit (list_ascii_of_string digits) ->
        String.length digits = (2 * n)%nat ->
        (n <> 40%nat ->
           answer = (s, Some (stringError
                      ("invalid pub key length. expected 40 but got " +:+
                       pretty n))))
        /\ (n = 40%nat ->
              answer
              = (s, Some
                   match
                     GetTransaction c
                       (GetChangePubKeyTransaction
                          {| ChangePubKeyReq.PubKey :=
                               hexutil.hex_bytes (list_ascii_of_string digits) |})
                       {| Nonce := if negb (int64 nonce =? -1)
                                   then Some (int64 nonce) else None;
                          ExpiredAt := 0 |}
                   with
                   | inl e =>
                       stringError ("failed to create transaction: " +:+ e)
                   | inr tx =>
                       match Marshal_with_MessageToSign tx with
                       | inl e => stringError e
                       | inr txInfoBytes =>
                           {| Result := txInfoBytes;
                              StringResponse_Error := ""%string |}
                       end
                   end))).
Proof.
  intros Hc answer. subst answer.
  unfold exported, run. simpl body. unfold signChangePubKey_body.
  cbn -[int64 active_client hexutil.Decode copy replicate].
  unfold bind, require. cbn -[int64 active_client hexutil.Decode copy replicate].
  unfold active_client, bind, get, number, index. rewrite Hc.
  cbn -[int64 hexutil.Decode copy replicate].
  split; [| split].
  - intros ->. reflexivity.
  - intros Hne Hprefix. unfold hexutil.Decode.
    destruct (list_ascii_of_string pubKey) as [|c0 cs] eqn:Hcs.
    + destruct pubKey; [contradiction | discriminate].
    + rewrite Hprefix. reflexivity.
  - intros digits n -> Hdigits Hlen.
    destruct (hex_Decode_digits n (list_ascii_of_string digits))
      as [Hdec Hn]; [rewrite length_list_ascii_of_string; exact Hlen
                    | exact Hdigits |].
    rewrite Decode_prefixed, Hdec, Hn. split.
    + intros Hn40. destruct (Nat.eqb_spec n 40); [contradiction |].
      reflexivity.
    + intros ->. cbn -[int64 hexutil.hex_bytes copy replicate].
      rewrite copy_full by (rewrite Hn; reflexivity).
      unfold new_opts.
      destruct (GetTransaction c _ _) as [e | tx]; [reflexivity |].
      destruct (Marshal_with_MessageToSign tx); reflexivity.
Qed.

(** *** The argument check of signCreateOrder *)

Lemma require_from_first_bad {R} (mk : string -> R) args argNames :
  forall i k argName e s,
  argNames !! k = Some argName ->
  (forall j argName', (j < k)%nat -> argNames !! j = Some argName' ->
     validateArg args (i + j) argName' = None) ->
  validateArg args (i + k) argName = Some e ->
  require_from mk args i argNames s = (s, Return (mk e)).
Proof.
  induction argNames as [|argName0 rest IH]; intros i k argName e s Hk Hok Hbad.
  - discriminate.
  - simpl. unfold bind, require. destruct k as [|k].
    + injection Hk as ->. rewrite Nat.add_0_r in Hbad. rewrite Hbad.
      reflexivity.
    + specialize (Hok O argName0 ltac:(lia) eq_refl) as H0.
      rewrite Nat.add_0_r in H0. rewrite H0. simpl.
      apply (IH (S i) k argName e s Hk).
      * intros j argName' Hj Hname.
        replace (S i + j)%nat with (i + S j)%nat by lia.
        apply Hok; [lia | exact Hname].
      * replace (S i + k)%nat with (i + S k)%nat by lia. exact Hbad.
Qed.

(** X23: [signCreateOrder] names the first argument that is null or
    undefined: when the arguments before it are neither, the response
    is the message for that argument, whether or not a client exists,
    and nothing else happens. *)
Theorem signCreateOrder_first_bad_argument `{T : TxClient}
    (args : list jsValue) (s : State) (k : nat) (argName : string) :
  length args = 11%nat ->
  signCreateOrder_argNames !! k = Some argName ->
  (forall j v, (j < k)%nat -> args !! j = Some v ->
     v <> JsNull /\ v <> JsUndefined) ->
  (args !! k = Some JsNull ->
     exported signCreateOrder args s
     = (s, Some (stringError ("argument " +:+ argName +:+ " cannot be null"))))
  /\ (args !! k = Some JsUndefined ->
        exported signCreateOrder args s
        = (s, Some (stringError
                      ("argument " +:+ argName +:+ " cannot be undefined")))).
Proof.
  intros Hlen Hname Hbefore.
  assert (Hk : (k < 11)%nat).
  { apply lookup_lt_Some in Hname. exact Hname. }
  assert (Hok : forall j argName', (j < k)%nat ->
            signCreateOrder_argNames !! j = Some argName' ->
            validateArg args (0 + j) argName' = None).
  { intros j argName' Hj _. simpl.
    destruct (lookup_lt_is_Some_2 args j ltac:(lia)) as [v Hv].
    destruct (Hbefore j v Hj Hv) as [Hnull Hundef].
    unfold validateArg.
    destruct (Nat.leb_spec (length args) j); [lia |].
    rewrite Hv. destruct v; simpl; congruence. }
  assert (Hbad : forall v e, args !! k = Some v ->
            (if IsNull v then Some ("argument " +:+ argName +:+ " cannot be null")
             else if IsUndefined v
                  then Some ("argument " +:+ argName +:+ " cannot be undefined")
                  else None) = Some e ->
            exported signCreateOrder args s = (s, Some (stringError e))).
  { intros v e Hv He.
    unfold exported, run. simpl body. unfold signCreateOrder_body.
    rewrite Hlen. cbn [negb Nat.eqb]. unfold bind at 1.
    rewrite (require_from_first_bad stringError args signCreateOrder_argNames
               0 k argName e s Hname Hok); [reflexivity |].
    simpl. unfold validateArg.
    destruct (Nat.leb_spec (length args) k); [lia |].
    rewrite Hv. exact He. }
  split; intros Hv; apply (Hbad _ _ Hv); reflexivity.
Qed.

End ExportsProperties.

(** ** Keys and the client check *)

Section IdentityProperties.

Import sharedlib exports identity.
Context `{H : Host}.

(** *** Encoding and decoding *)

Lemma hex_Encode_hex_text b :
  Forall is_uint8 b -> hex_Encode b = hex_text b.
Proof.
  unfold is_uint8. induction 1 as [|v b Hv _ IH]; simpl; [reflexivity |].
  rewrite IH. unfold hex_digit, hextable.
  rewrite Z.shiftr_div_pow2 by lia.
  change 15 with (Z.ones 4). rewrite Z.land_ones by lia.
  reflexivity.
Qed.

Lemma Decode_Encode b :
  Forall is_uint8 b -> hexutil.Decode (Encode b) = (b, None).
Proof.
  intros Hb. unfold Encode.
  change (string_of_list_ascii ("0"%char :: "x"%char :: hex_Encode b))
    with ("0x" +:+ string_of_list_ascii (hex_Encode b))%string.
  rewrite Decode_prefixed, list_ascii_of_string_of_list_ascii,
    (hex_Encode_hex_text b Hb).
  destruct (hex_Decode_digits (length b) (hex_text b)) as [Hdec _].
  - apply length_hex_text.
  - apply hex_text_digits, Hb.
  - rewrite Hdec, (hex_bytes_hex_text b Hb). reflexivity.
Qed.

Lemma remove_first_0x_Encode b :
  string_of_list_ascii (remove_first_0x (list_ascii_of_string (Encode b)))
  = string_of_list_ascii (hex_Encode b).
Proof.
  unfold Encode. rewrite list_ascii_of_string_of_list_ascii. reflexivity.
Qed.

(** *** generateAPIKey *)

(** X24: [generateAPIKey] samples without a seed exactly when it is
    called without arguments or its first argument is null, undefined
    or reads as the empty string; otherwise the seed is the first
    argument as a string, and further arguments are never looked at. *)
Theorem generateAPIKey_seed (args : list jsValue) :
  (seed_pointer args = None <->
     args = [] \/
     exists a0 rest, args = a0 :: rest /\
       (a0 = JsNull \/ a0 = JsUndefined \/ String a0 = ""%string))
  /\ (forall seed, seed_pointer args = Some seed ->
        exists a0 rest, args = a0 :: rest /\ a0 <> JsNull /\
                        a0 <> JsUndefined /\ String a0 = seed).
Proof.
  unfold seed_pointer, seed_of. destruct args as [|a0 rest].
  - split.
    + split; [intros _; left; reflexivity | reflexivity].
    + discriminate.
  - destruct (negb (IsNull a0) && negb (IsUndefined a0)) eqn:Hgood.
    + assert (Hn : a0 <> JsNull /\ a0 <> JsUndefined).
      { destruct a0; simpl in Hgood; try discriminate; split; discriminate. }
      destruct (decide (String a0 <> ""%string)) as [Hs | Hs].
      * split.
        -- split; [discriminate |].
           intros [Hnil | (b0 & r & [= <- <-] & [-> | [-> | He]])];
             [discriminate | destruct Hn; congruence
             | destruct Hn; congruence | contradiction].
        -- intros seed [= <-]. exists a0, rest. tauto.
      * split; [| discriminate].
        split; [| reflexivity]. intros _. right. exists a0, rest.
        split; [reflexivity |]. right. right.
        destruct (String a0); [reflexivity |]. exfalso. apply Hs. discriminate.
    + split; [| discriminate].
      split; [| reflexivity]. intros _. right. exists a0, rest.
      split; [reflexivity |].
      destruct a0; simpl in Hgood; try discriminate; tauto.
Qed.

Lemma signChangePubKey_decoded `{T : TxClient} (s : State) (c : loc)
    (pubKey : string) (nonce : Z) (bytes : list Z) :
  txClient s = Some c ->
  hexutil.Decode pubKey = (bytes, None) -> length bytes = 40%nat ->
  exported signChangePubKey [JsString pubKey; JsNumber nonce] s
  = (s, Some
       match
         GetTransaction c
           (GetChangePubKeyTransaction {| ChangePubKeyReq.PubKey := bytes |})
           {| Nonce := if negb (int64 nonce =? -1) then Some (int64 nonce)
                       else None;
              ExpiredAt := 0 |}
       with
       | inl e => stringError ("failed to create transaction: " +:+ e)
       | inr tx =>
           match Marshal_with_MessageToSign tx with
           | inl e => stringError e
           | inr txInfoBytes =>
               {| Result := txInfoBytes; StringResponse_Error := ""%string |}
           end
       end).
Proof.
  intros Hc Hdec Hlen.
  unfold exported, run. simpl body. unfold signChangePubKey_body.
  cbn -[int64 active_client hexutil.Decode copy replicate].
  unfold bind, require.
  cbn -[int64 active_client hexutil.Decode copy replicate].
  unfold active_client, bind, get, number, index. rewrite Hc.
  cbn -[int64 hexutil.Decode copy replicate].
  rewrite Hdec, Hlen. cbn -[int64 copy replicate].
  rewrite copy_full by (rewrite Hlen; reflexivity).
  unfold new_opts.
  destruct (GetTransaction c _ _) as [e | tx]; [reflexivity |].
  destruct (Marshal_with_MessageToSign tx); reflexivity.
Qed.

(** X25: a public key as [generateAPIKey] prints it is a key
    [signChangePubKey] accepts: when the key has 40 bytes, the request
    carries exactly the bytes of the generated key. *)
Theorem generated_key_accepted `{T : TxClient} `{C : Curve} (s : State)
    (c : loc) (seed : list jsValue) (nonce : Z) :
  txClient s = Some c ->
  let key := SampleScalar (seed_pointer seed) in
  Forall is_uint8 (SchnorrPk_bytes key) ->
  length (SchnorrPk_bytes key) = 40%nat ->
  exported signChangePubKey
    [JsString (PublicKey (generateAPIKey seed)); JsNumber nonce] s
  = (s, Some
       match
         GetTransaction c
           (GetChangePubKeyTransaction
              {| ChangePubKeyReq.PubKey := SchnorrPk_bytes key |})
           {| Nonce := if negb (int64 nonce =? -1) then Some (int64 nonce)
                       else None;
              ExpiredAt := 0 |}
       with
       | inl e => stringError ("failed to create transaction: " +:+ e)
       | inr tx =>
           match Marshal_with_MessageToSign tx with
           | inl e => stringError e
           | inr txInfoBytes =>
               {| Result := txInfoBytes; StringResponse_Error := ""%string |}
           end
       end).
Proof.
  intros Hc key Hbytes Hlen.
  apply signChangePubKey_decoded; [exact Hc | | exact Hlen].
  unfold generateAPIKey. simpl. apply Decode_Encode. exact Hbytes.
Qed.

(** *** checkClient *)

(** X26: [checkClient] only looks: for every list of arguments and
    every state it leaves the state as it is, and it always answers,
    also where the signing functions would return nothing. *)
Theorem checkClient_answers `{L : Lighter} (args : list jsValue) (s : State) :
  exists r, checkClient args s = (s, Some r).
Proof.
  unfold checkClient, run, checkClient_body.
  destruct args as [|a0 [|a1 [|a2 rest]]];
    try (cbn; eexists; reflexivity).
  cbn -[uint8 int64 Encode remove_first_0x].
  unfold bind, require, validateArg, recovered.
  cbn -[uint8 int64 Encode remove_first_0x].
  destruct a0; cbn -[uint8 int64 Encode remove_first_0x];
    try (eexists; reflexivity);
    destruct a1; cbn -[uint8 int64 Encode remove_first_0x];
    try (eexists; reflexivity).
  all: match goal with
       | |- context [map_lookup ?m ?k] =>
           destruct (map_lookup m k) as [[client|]|];
           cbn -[uint8 int64 Encode remove_first_0x];
           try (eexists; reflexivity)
       end.
  all: repeat match goal with
       | |- context [if ?b then _ else _] =>
           destruct b; cbn -[uint8 int64 Encode remove_first_0x];
           try (eexists; reflexivity)
       | |- context [match GetApiKey ?c ?a ?k with _ => _ end] =>
           destruct (GetApiKey c a k) as [err | [|ak keys]];
           cbn -[uint8 int64 Encode remove_first_0x];
           try (eexists; reflexivity)
       end.
Qed.

(** X27: for a registered client, [checkClient] succeeds exactly when
    the client's api-key index and account index are the ones asked
    for, the exchange returns at least one key, and the first key it
    returns is the client's own public key in lower-case hexadecimal
    without prefix.  The active client plays no part, and an index
    without entry is answered with "api key not registered". *)
Theorem checkClient_success `{L : Lighter} (s : State)
    (apiKeyIndex accountIndex : Z) :
  let answer :=
    snd (checkClient [JsNumber apiKeyIndex; JsNumber accountIndex] s) in
  (map_lookup (backupTxClients s) (uint8 apiKeyIndex) = None ->
     answer = Some (errorResponse "api key not registered"))
  /\ (forall client,
        map_lookup (backupTxClients s) (uint8 apiKeyIndex)
          = Some (Some client) ->
        (answer = Some (errorResponse "") <->
           GetApiKeyIndex client = uint8 apiKeyIndex /\
           GetAccountIndex client = int64 accountIndex /\
           exists ak keys,
             GetApiKey client (int64 accountIndex) (uint8 apiKeyIndex)
               = inr (ak :: keys) /\
             ApiKey_PublicKey ak
               = string_of_list_ascii (hex_Encode (PubKeyBytes client)))).
Proof.
  intros answer. subst answer.
  unfold checkClient, run, checkClient_body.
  cbn -[uint8 int64 Encode remove_first_0x].
  unfold bind, require, recovered.
  cbn -[uint8 int64 Encode remove_first_0x].
  split.
  - intros ->. reflexivity.
  - intros client ->. cbn -[uint8 int64 Encode remove_first_0x].
    rewrite remove_first_0x_Encode.
    destruct (Z.eqb_spec (GetApiKeyIndex client) (uint8 apiKeyIndex))
      as [Hk | Hk]; cbn -[uint8 int64];
      [| split; [discriminate | intros (Hk' & _); contradiction]].
    destruct (Z.eqb_spec (GetAccountIndex client) (int64 accountIndex))
      as [Ha | Ha]; cbn -[uint8 int64];
      [| split; [discriminate | intros (_ & Ha' & _); contradiction]].
    destruct (GetApiKey client (int64 accountIndex) (uint8 apiKeyIndex))
      as [err | [|ak keys]] eqn:Hkeys; cbn -[uint8 int64].
    + split; [discriminate | intros (_ & _ & ak & keys & [=] & _)].
    + split; [discriminate | intros (_ & _ & ak & keys & [=] & _)].
    + destruct (String.eqb_spec (ApiKey_PublicKey ak)
                  (string_of_list_ascii (hex_Encode (PubKeyBytes client))))
        as [Hpk | Hpk]; cbn -[uint8 int64].
      * split; [| reflexivity]. intros _.
        split; [exact Hk |]. split; [exact Ha |].
        exists ak, keys. split; [reflexivity | exact Hpk].
      * split; [discriminate |].
        intros (_ & _ & ak' & keys' & [= <- <-] & Hpk'). contradiction.
Qed.

End IdentityProperties.

(** ** The exported functions in sequence *)

Section SequenceProperties.

Import sharedlib.
Context `{H : Host}.

Lemma checkClient_state `{L : identity.Lighter} (args : list jsValue)
    (s : State) :
  fst (identity.checkClient args s) = s.
Proof.
  unfold identity.checkClient, run, identity.checkClient_body.
  destruct args as [|a0 [|a1 [|a2 rest]]]; try reflexivity.
  cbn -[uint8 int64 identity.Encode identity.remove_first_0x].
  unfold bind, require, validateArg, identity.recovered.
  cbn -[uint8 int64 identity.Encode identity.remove_first_0x].
  destruct a0; cbn -[uint8 int64 identity.Encode identity.remove_first_0x];
    try reflexivity;
    destruct a1; cbn -[uint8 int64 identity.Encode identity.remove_first_0x];
    try reflexivity.
  all: match goal with
       | |- context [map_lookup ?m ?k] =>
           destruct (map_lookup m k) as [[client|]|];
           cbn -[uint8 int64 identity.Encode identity.remove_first_0x];
           try reflexivity
       end.
  all: repeat match goal with
       | |- context [if ?b then _ else _] =>
           destruct b;
           cbn -[uint8 int64 identity.Encode identity.remove_first_0x];
           try reflexivity
       | |- context [match identity.GetApiKey ?c ?a ?k with _ => _ end] =>
           destruct (identity.GetApiKey c a k) as [err | [|ak keys]];
           cbn -[uint8 int64 identity.Encode identity.remove_first_0x];
           try reflexivity
       end.
Qed.

(** A call that does not assign the active client leaves it and the
    registry as they are. *)
Lemma step_quiet (call : exported_call) (s : State) :
  ~ repoints call s ->
  txClient (step call s) = txClient s
  /\ backupTxClients (step call s) = backupTxClients s.
Proof.
  intros Hquiet. destruct call as [[args | args] | call | call | L args];
    simpl in *.
  - destruct (createClient args s) as [s' r] eqn:Hrun.
    destruct (createClient_cases _ _ _ _ Hrun)
      as [[-> _] | (a0 & a1 & n2 & n3 & n4 & c & err & _ & _ & _ & Hcalls & _)];
      [split; reflexivity |].
    exfalso. apply Hquiet. simpl. rewrite Hcalls. intros Heq.
    apply (f_equal length) in Heq. rewrite length_app in Heq.
    simpl in Heq. lia.
  - destruct (switchAPIKey args s) as [s' r] eqn:Hrun.
    destruct (switchAPIKey_result _ _ _ _ Hrun) as [[-> _] | [Hok _]];
      [split; reflexivity | contradiction].
  - destruct (sign_appends (txClient s) call s eq_refl) as (Ht & Hb & _).
    split; assumption.
  - destruct (exported_keeps (T:=exports.answers call)
                (exports.function call) (exports.arguments call) s)
      as (Ht & Hb & _).
    split; assumption.
  - rewrite checkClient_state. split; reflexivity.
Qed.

Lemma steps_quiet (cs : list exported_call) : forall s,
  quiet repoints cs s ->
  txClient (steps cs s) = txClient s
  /\ backupTxClients (steps cs s) = backupTxClients s.
Proof.
  induction cs as [|call cs IH]; intros s Hquiet; simpl in *.
  - split; reflexivity.
  - destruct Hquiet as [Hcall Hrest].
    destruct (step_quiet call s Hcall) as [Ht Hb].
    destruct (IH _ Hrest) as [Ht' Hb'].
    split; congruence.
Qed.

(** The twelve functions whose arguments are all numbers put the
    request to the active client. *)
Lemma exported_numbers `{T : exports.TxClient} (f : exports.signer)
    (zs : list Z) (req : exports.request) (s : State) (l : loc) :
  txClient s = Some l ->
  request_of f zs (now_ms (ticks s)) = Some req ->
  snd (exports.exported f (JsNumber <$> zs) s)
  = Some (exports.response_of
            (exports.GetTransaction l req
               (exports.new_opts (int64 (default 0 (last zs)))))).
Proof.
  intros Hc Hreq.
  destruct f; simpl in Hreq; try discriminate Hreq;
    repeat (destruct zs as [|? zs]; try discriminate Hreq);
    injection Hreq as <-;
    unfold exports.exported, run; simpl exports.body;
    cbv delta [exports.signCreateOrder_body exports.signCancelOrder_body
               exports.signWithdraw_body exports.signCreateSubAccount_body
               exports.signCancelAllOrders_body exports.signModifyOrder_body
               exports.signCreatePublicPool_body
               exports.signUpdatePublicPool_body exports.signMintShares_body
               exports.signBurnShares_body exports.signUpdateLeverage_body
               exports.signUpdateMargin_body] beta;
    cbn -[uint8 uint16 uint32 uint64 int64 exports.respond
          exports.active_client time_Now];
    unfold bind, require;
    cbn -[uint8 uint16 uint32 uint64 int64 exports.respond
          exports.active_client time_Now];
    unfold exports.active_client, bind, get; rewrite Hc;
    cbn -[uint8 uint16 uint32 uint64 int64 exports.respond time_Now];
    try (rewrite run_respond; reflexivity).
  match goal with
  | |- context [int64 ?e =? -1] => destruct (int64 e =? -1)
  end;
    cbn -[uint8 uint16 uint32 uint64 int64 exports.respond];
    rewrite run_respond; reflexivity.
Qed.

Lemma signs_with_active (s : State) (l : loc) :
  txClient s = Some l -> signs_with l s.
Proof.
  intros Hc. unfold signs_with.
  split; [| split; [| split; [| split]]].
  - intros T f zs req Hreq. exact (exported_numbers f zs req s l Hc Hreq).
  - intros T digits nonce Hdigits Hlen.
    assert (Hn : length (list_ascii_of_string digits) = (2 * 40)%nat)
      by (rewrite length_list_ascii_of_string; exact Hlen).
    destruct (hex_Decode_digits 40 (list_ascii_of_string digits) Hn Hdigits)
      as [Hdec Hbytes].
    rewrite (signChangePubKey_decoded s l ("0x" +:+ digits) nonce
               (hexutil.hex_bytes (list_ascii_of_string digits)) Hc).
    + reflexivity.
    + rewrite Decode_prefixed, Hdec. reflexivity.
    + exact Hbytes.
  - intros T deadline.
    unfold exports.exported, run. simpl exports.body.
    unfold exports.createAuthToken_body.
    cbn -[int64 exports.active_client time_Now].
    unfold exports.number, index, bind.
    cbn -[int64 exports.active_client time_Now].
    unfold exports.active_client, bind, get. rewrite Hc.
    cbn -[int64 time_Now].
    destruct (int64 deadline =? 0); unfold time_Now; cbn -[int64];
      destruct (exports.GetAuthToken l _); reflexivity.
  - intros to amount fee nonce memo Hlen Hdigits.
    rewrite (signTransfer_wellformed _ _ _ _ _ _ _ Hc).
    destruct (transfer_memo_hex memo Hlen Hdigits) as [Hmemo _].
    unfold run, bind. rewrite Hmemo. cbn -[int64].
    destruct (GetTransferTransaction _ _ _ _) as [e | tx]; [reflexivity |].
    destruct (transfer_json tx); reflexivity.
  - intros groupingType expiredAt nonce ordersJSON orderRequests Hparse Hcount.
    rewrite (signCreateGroupedOrders_wellformed _ _ _ _ _ _ _ Hc Hparse).
    assert (Htest : (length orderRequests <? 2)%nat
                    || (3 <? length orderRequests)%nat = false).
    { apply orb_false_iff. split; apply Nat.ltb_ge; lia. }
    rewrite Htest. unfold run, bind. rewrite build_orders_legs.
    cbn -[int64 uint8 legs_from].
    destruct (GetCreateGroupedOrdersTransaction _ _ _ _) as [e | tx];
      cbn -[int64 uint8 legs_from]; [reflexivity |].
    destruct (Marshal_grouped tx); reflexivity.
Qed.

(** C7: for an api-key index with no entry in the registry,
    [switchAPIKey] answers that no client is initialized and leaves the
    state, the active client with it, as it was.  For an index with an
    entry it succeeds and the active client becomes the client of that
    entry.  That client stays the active one, and the registry stays as
    it is, over every run of calls of the exported functions in which
    no [switchAPIKey] succeeds and no [createClient] gets as far as
    building a client; after such a run each of the sixteen signing
    functions puts its request to that client. *)
Theorem switchAPIKey_switches (n : Z) (s : State) :
  (map_lookup (backupTxClients s) (uint8 n) = None ->
     switchAPIKey [JsNumber n] s
     = (s, Some (errorResponse "no client initialized for api key")))
  /\ (forall c, map_lookup (backupTxClients s) (uint8 n) = Some c ->
        switchAPIKey [JsNumber n] s
        = (with_txClient c s, Some (errorResponse ""))
        /\ forall cs,
             quiet repoints cs (fst (switchAPIKey [JsNumber n] s)) ->
             let s' := steps cs (fst (switchAPIKey [JsNumber n] s)) in
             txClient s' = c
             /\ backupTxClients s' = backupTxClients s
             /\ forall l, c = Some l -> signs_with l s').
Proof.
  split.
  - intros Hnone. rewrite switchAPIKey_number, Hnone. reflexivity.
  - intros c Hsome. rewrite switchAPIKey_number, Hsome.
    split; [reflexivity |].
    intros cs Hquiet s'. subst s'. simpl fst in *.
    destruct (steps_quiet cs _ Hquiet) as [Ht Hb]. simpl in Ht, Hb.
    split; [exact Ht |]. split; [exact Hb |].
    intros l ->. apply signs_with_active. exact Ht.
Qed.

End SequenceProperties.

(** ** The further properties on the sample instances *)

Lemma Validate_ignores_direction_witness :
  @txtypes.Validate sample_constants (with_Direction 255 sample_tx)
  = @txtypes.Validate sample_constants sample_tx.
Proof.
  apply (@Validate_ignores_direction sample_constants).
  unfold same_bounded_fields. simpl. repeat split.
Defined.

Lemma Validate_account_index_upper_witness :
  @txtypes.Validate sample_constants
    (with_AccountIndex (2 ^ 48 - 2) sample_tx) = None
  /\ @txtypes.Validate sample_constants
       (with_AccountIndex (2 ^ 48 - 2 + 1) sample_tx)
     = Some txtypes.ErrFromAccountIndexTooHigh.
Proof.
  apply (@Validate_account_index_upper sample_constants sample_tx);
    unfold txtypes.api_key_index_ok, txtypes.market_index_ok,
      txtypes.usdc_amount_ok, txtypes.nonce_ok, txtypes.expired_at_ok;
    simpl; lia.
Defined.

Lemma Validate_expired_at_boundaries_witness :
  @txtypes.Validate sample_constants (with_ExpiredAt 0 sample_tx) = None
  /\ @txtypes.Validate sample_constants
       (with_ExpiredAt (2 ^ 48 - 1) sample_tx) = None
  /\ @txtypes.Validate sample_constants (with_ExpiredAt (-1) sample_tx)
     = Some txtypes.ErrExpiredAtInvalid
  /\ @txtypes.Validate sample_constants
       (with_ExpiredAt (2 ^ 48 - 1 + 1) sample_tx)
     = Some txtypes.ErrExpiredAtInvalid.
Proof.
  apply (@Validate_expired_at_boundaries sample_constants sample_tx);
    unfold txtypes.account_index_ok, txtypes.api_key_index_ok,
      txtypes.market_index_ok, txtypes.usdc_amount_ok, txtypes.nonce_ok;
    simpl; lia.
Defined.

Lemma Validate_nonce_boundary_witness :
  @txtypes.Validate sample_constants (with_Nonce (-1) sample_tx)
  = Some txtypes.ErrNonceTooLow
  /\ @txtypes.Validate sample_constants (with_Nonce 0 sample_tx) = None.
Proof.
  assert (Hb : (forall v, v < 0 ->
                  @txtypes.Validate sample_constants (with_Nonce v sample_tx)
                  = Some txtypes.ErrNonceTooLow)
               /\ (@txtypes.expired_at_ok sample_constants sample_tx ->
                   @txtypes.Validate sample_constants (with_Nonce 0 sample_tx)
                   = None)).
  { apply (@Validate_nonce_boundary sample_constants sample_tx);
      unfold txtypes.account_index_ok, txtypes.api_key_index_ok,
        txtypes.market_index_ok, txtypes.usdc_amount_ok;
      simpl; lia. }
  destruct Hb as [Hlow Hmin]. split.
  - apply Hlow. lia.
  - apply Hmin. unfold txtypes.expired_at_ok. simpl. lia.
Defined.

Lemma validateArg_accepts_witness :
  sharedlib.validateArg [sharedlib.JsNumber 1; sharedlib.JsNull] 1 "nonce"
  = Some "argument nonce cannot be null"%string
  /\ sharedlib.validateArg [sharedlib.JsNumber 1; sharedlib.JsNull] 0 "nonce"
     = None.
Proof.
  split.
  - apply (proj1 (proj2 (proj2
             (validateArg_accepts [sharedlib.JsNumber 1; sharedlib.JsNull]
                1 "nonce")))).
    reflexivity.
  - apply (proj1 (validateArg_accepts [sharedlib.JsNumber 1; sharedlib.JsNull]
                    0 "nonce")).
    exists (sharedlib.JsNumber 1).
    split; [reflexivity | split; discriminate].
Defined.

Lemma createClient_invalid_account_index_witness :
  @sharedlib.createClient sample_host
    [ sharedlib.JsString "https://example.org"; sharedlib.JsString "0xaa";
      sharedlib.JsNumber 300; sharedlib.JsNumber 0; sharedlib.JsNumber 0 ]
    two_clients
  = (two_clients, Some (sharedlib.errorResponse "invalid account index")).
Proof.
  apply (createClient_invalid_account_index (H:=sample_host)).
  vm_compute. discriminate.
Defined.

Lemma createClient_failure_witness :
  sharedlib.backupTxClients
    (fst (@sharedlib.createClient sample_host (create_args "" 5) two_clients))
  = sharedlib.backupTxClients two_clients.
Proof.
  apply (createClient_failure (H:=sample_host) (create_args "" 5) two_clients
           (fst (@sharedlib.createClient sample_host (create_args "" 5)
                   two_clients))
           (snd (@sharedlib.createClient sample_host (create_args "" 5)
                   two_clients))).
  - reflexivity.
  - vm_compute. discriminate.
Defined.

Lemma registry_entries_stay_witness :
  snd (sharedlib.switchAPIKey [sharedlib.JsNumber 0]
         (@perform_all sample_host
            [ Registry (sharedlib.CreateClient (create_args "0xcc" 2));
              Signing (sharedlib.SignTransfer (transfer_args ""));
              Registry (sharedlib.SwitchAPIKey [sharedlib.JsNumber 9]) ]
            two_clients))
  = Some (sharedlib.errorResponse "").
Proof.
  apply (registry_entries_stay (H:=sample_host)
           [ Registry (sharedlib.CreateClient (create_args "0xcc" 2));
             Signing (sharedlib.SignTransfer (transfer_args ""));
             Registry (sharedlib.SwitchAPIKey [sharedlib.JsNumber 9]) ]
           two_clients 0).
  - unfold is_uint8. lia.
  - exists (Some 1%positive). reflexivity.
Defined.

Lemma switchAPIKey_last_wins_witness :
  sharedlib.switchAPIKey [sharedlib.JsNumber 0]
    (fst (sharedlib.switchAPIKey [sharedlib.JsNumber 1] two_clients))
  = sharedlib.switchAPIKey [sharedlib.JsNumber 0] two_clients.
Proof.
  apply switchAPIKey_last_wins.
  exists (Some 1%positive). reflexivity.
Defined.

Lemma bad_memo_not_digits :
  ~ Forall hexutil.is_hex_digit (list_ascii_of_string bad_memo).
Proof.
  intros Hall. rewrite Forall_lookup in Hall.
  destruct (Hall 63%nat "g"%char eq_refl) as [v Hv]. discriminate Hv.
Defined.

Lemma signTransfer_memo_not_hex_witness :
  @sharedlib.signTransfer sample_host (transfer_args bad_memo) two_clients
  = (two_clients,
     Some (sharedlib.stringError "invalid hex memo: invalid hex string")).
Proof.
  apply (signTransfer_memo_not_hex (H:=sample_host) two_clients 2%positive).
  - reflexivity.
  - reflexivity.
  - exact bad_memo_not_digits.
Defined.

Lemma signTransfer_memo_round_trip_witness :
  sharedlib.calls
    (fst (@sharedlib.signTransfer sample_host
            (transfer_args
               (string_of_list_ascii (hex_text (replicate 32 171))))
            two_clients))
  = sharedlib.calls two_clients ++ [transfer_request (replicate 32 171)].
Proof.
  apply (signTransfer_memo_round_trip (H:=sample_host) two_clients 2%positive
           8 1000000 1000 201 (replicate 32 171)).
  - reflexivity.
  - repeat constructor; unfold is_uint8; lia.
  - reflexivity.
Defined.

Lemma grouped_orders_legs_witness :
  sharedlib.ticks
    (fst (@sharedlib.signCreateGroupedOrders sample_host (grouped_args "xx")
            two_clients))
  = 2%nat.
Proof.
  apply (grouped_orders_legs (H:=sample_host) two_clients 2%positive
           1 (-1) 301 "xx" (replicate 2 sample_leg)).
  - reflexivity.
  - reflexivity.
  - simpl. lia.
Defined.

Lemma grouped_orders_parse_error_witness :
  @sharedlib.signCreateGroupedOrders deaf_host (grouped_args "[") two_clients
  = (two_clients,
     Some (sharedlib.stringError
             "failed to parse ordersJSON: unexpected end of JSON input")).
Proof.
  apply (grouped_orders_parse_error (H:=deaf_host) two_clients 2%positive
           1 (-1) 301 "[" "unexpected end of JSON input").
  - reflexivity.
  - reflexivity.
Defined.

Lemma no_client_no_signature_witness :
  fst (@exports.exported sample_host sample_answers exports.signCreateOrder
         (order_args (-1)) no_client) = no_client.
Proof.
  apply (no_client_no_signature (H:=sample_host) (T:=sample_answers)).
  reflexivity.
Defined.

Lemma not_a_number_no_response_witness :
  @exports.exported sample_host sample_answers exports.signCancelOrder
    [sharedlib.JsString "1"; sharedlib.JsString "2"; sharedlib.JsString "3"]
    two_clients
  = (two_clients, None).
Proof.
  apply (not_a_number_no_response (H:=sample_host) (T:=sample_answers)
           exports.signCancelOrder _ two_clients 2%positive).
  - reflexivity.
  - reflexivity.
  - repeat constructor.
Defined.

Lemma signCreateOrder_request_witness :
  sharedlib.ticks
    (fst (@exports.exported sample_host sample_answers exports.signCreateOrder
            (order_args (-1)) two_clients)) = 1%nat
  /\ fst (@exports.exported sample_host sample_answers exports.signCreateOrder
            (order_args 1700000000000) two_clients) = two_clients.
Proof.
  destruct (signCreateOrder_request (H:=sample_host) (T:=sample_answers)
              two_clients 2%positive 1 55 401 3000 1 0 1 0 0 (-1) 301 eq_refl)
    as [Hdefault _].
  destruct (signCreateOrder_request (H:=sample_host) (T:=sample_answers)
              two_clients 2%positive 1 55 401 3000 1 0 1 0 0 1700000000000
              301 eq_refl)
    as [_ Hgiven].
  split.
  - unfold order_args. rewrite (Hdefault eq_refl). reflexivity.
  - unfold order_args. rewrite Hgiven; [reflexivity |].
    vm_compute. discriminate.
Defined.

Lemma signWithdraw_negative_amount_witness :
  snd (@exports.exported sample_host sample_answers exports.signWithdraw
         [sharedlib.JsNumber (-1); sharedlib.JsNumber 301] two_clients)
  = Some {| sharedlib.Result := "{}";
            sharedlib.StringResponse_Error := "" |}.
Proof.
  rewrite (signWithdraw_negative_amount (H:=sample_host) (T:=sample_answers)
             two_clients 2%positive (-1) 301 eq_refl); [reflexivity |].
  lia.
Defined.

Lemma createAuthToken_deadline_witness :
  fst (@exports.exported sample_host sample_answers exports.createAuthToken
         [sharedlib.JsNumber 1700000000] two_clients) = two_clients.
Proof.
  destruct (createAuthToken_deadline (H:=sample_host) (T:=sample_answers)
              two_clients 2%positive 1700000000 eq_refl)
    as (_ & _ & Hgiven).
  rewrite Hgiven; [reflexivity |]. vm_compute. discriminate.
Defined.

Lemma signChangePubKey_key_witness :
  @exports.exported sample_host sample_answers exports.signChangePubKey
    [sharedlib.JsString "abab"; sharedlib.JsNumber 301] two_clients
  = (two_clients,
     Some (sharedlib.stringError
             "invalid public key format: hex string without 0x prefix")).
Proof.
  apply (proj1 (proj2 (signChangePubKey_key (H:=sample_host)
                         (T:=sample_answers) two_clients 2%positive "abab" 301
                         eq_refl))).
  - discriminate.
  - reflexivity.
Defined.

Lemma signCreateOrder_first_bad_argument_witness :
  @exports.exported sample_host sample_answers exports.signCreateOrder
    [ sharedlib.JsNumber 1; sharedlib.JsNumber 55; sharedlib.JsNull;
      sharedlib.JsNumber 3000; sharedlib.JsNumber 1; sharedlib.JsUndefined;
      sharedlib.JsNumber 1; sharedlib.JsNumber 0; sharedlib.JsNumber 0;
      sharedlib.JsNumber 0; sharedlib.JsNumber 301 ] no_client
  = (no_client,
     Some (sharedlib.stringError "argument baseAmount cannot be null")).
Proof.
  apply (proj1 (signCreateOrder_first_bad_argument (H:=sample_host)
                  (T:=sample_answers)
                  [ sharedlib.JsNumber 1; sharedlib.JsNumber 55;
                    sharedlib.JsNull; sharedlib.JsNumber 3000;
                    sharedlib.JsNumber 1; sharedlib.JsUndefined;
                    sharedlib.JsNumber 1; sharedlib.JsNumber 0;
                    sharedlib.JsNumber 0; sharedlib.JsNumber 0;
                    sharedlib.JsNumber 301 ]
                  no_client 2%nat "baseAmount" eq_refl eq_refl
                  ltac:(intros [|[|j]] v Hj Hv; [ | | lia];
                        inversion Hv; split; discriminate))).
  reflexivity.
Defined.

Lemma generateAPIKey_seed_witness :
  @identity.seed_pointer sample_host [sharedlib.JsString ""] = None
  /\ @identity.seed_pointer sample_host [sharedlib.JsString "seed"]
     = Some "seed"%string.
Proof.
  split.
  - apply (proj1 (generateAPIKey_seed (H:=sample_host)
                    [sharedlib.JsString ""])).
    right. exists (sharedlib.JsString ""), []. split; [reflexivity |].
    right. right. reflexivity.
  - destruct (@identity.seed_pointer sample_host [sharedlib.JsString "seed"])
      as [seed|] eqn:Hseed.
    + destruct (proj2 (generateAPIKey_seed (H:=sample_host)
                         [sharedlib.JsString "seed"]) seed Hseed)
        as (a0 & rest & [= <- <-] & _ & _ & <-).
      reflexivity.
    + discriminate Hseed.
Defined.

Lemma generated_key_accepted_witness :
  snd (@exports.exported sample_host sample_answers exports.signChangePubKey
         [ sharedlib.JsString
             (identity.PublicKey
                (@identity.generateAPIKey sample_host sample_curve []));
           sharedlib.JsNumber 301 ] two_clients)
  = Some {| sharedlib.Result := "{}";
            sharedlib.StringResponse_Error := "" |}.
Proof.
  rewrite (generated_key_accepted (H:=sample_host) (T:=sample_answers)
             (C:=sample_curve) two_clients 2%positive [] 301 eq_refl).
  - reflexivity.
  - repeat constructor; unfold is_uint8; lia.
  - reflexivity.
Defined.

Lemma checkClient_success_witness :
  snd (@identity.checkClient sample_lighter
         [sharedlib.JsNumber 5; sharedlib.JsNumber 7] two_clients)
  = Some (sharedlib.errorResponse "api key not registered")
  /\ snd (@identity.checkClient sample_lighter
            [sharedlib.JsNumber 1; sharedlib.JsNumber 7] two_clients)
     = Some (sharedlib.errorResponse "").
Proof.
  split.
  - apply (proj1 (checkClient_success (L:=sample_lighter) two_clients 5 7)).
    reflexivity.
  - apply (proj2 (checkClient_success (L:=sample_lighter) two_clients 1 7)
             2%positive eq_refl).
    split; [reflexivity |]. split; [reflexivity |].
    eexists _, _. split; reflexivity.
Defined.

Lemma registry_not_a_number_witness :
  sharedlib.switchAPIKey [sharedlib.JsString "0"] two_clients
  = (two_clients, None).
Proof.
  apply (proj1 (registry_not_a_number (H:=sample_host)
                  (sharedlib.JsString "0") (sharedlib.JsNumber 0)
                  (sharedlib.JsNumber 7) "" "" two_clients
                  ltac:(vm_compute; auto))).
Defined.

Lemma createClient_http_client_witness :
  sharedlib.calls
    (fst (@sharedlib.createClient sample_host
            [ sharedlib.JsString ""; sharedlib.JsString "0xcc";
              sharedlib.JsNumber 300; sharedlib.JsNumber 2;
              sharedlib.JsNumber 7 ] two_clients))
  = sharedlib.calls two_clients ++
    [sharedlib.CallNewTxClient None "0xcc" 7 2 300].
Proof.
  apply (proj1 (createClient_http_client (H:=sample_host) two_clients ""
                  "0xcc" 300 2 7 ltac:(vm_compute; reflexivity))).
  reflexivity.
Defined.

Lemma calls_after_switch_quiet :
  @quiet sample_host (@repoints sample_host) calls_after_switch
    (fst (sharedlib.switchAPIKey [sharedlib.JsNumber 0] two_clients)).
Proof.
  unfold calls_after_switch. simpl quiet.
  split; [intros [] |].
  split; [vm_compute; discriminate |].
  split; [vm_compute; intros Hne; apply Hne; reflexivity |].
  split; [intros [] |].
  split; [intros [] | exact I].
Defined.

Lemma switchAPIKey_switches_witness :
  sharedlib.switchAPIKey [sharedlib.JsNumber 99] two_clients
  = (two_clients,
     Some (sharedlib.errorResponse "no client initialized for api key"))
  /\ sharedlib.switchAPIKey [sharedlib.JsNumber 0] two_clients
     = (sharedlib.with_txClient (Some 1%positive) two_clients,
        Some (sharedlib.errorResponse ""))
  /\ sharedlib.txClient
       (@steps sample_host calls_after_switch
          (fst (sharedlib.switchAPIKey [sharedlib.JsNumber 0] two_clients)))
     = Some 1%positive
  /\ snd (@exports.exported sample_host echo_answers
            exports.signCreateSubAccount [sharedlib.JsNumber 301]
            (@steps sample_host calls_after_switch
               (fst (sharedlib.switchAPIKey [sharedlib.JsNumber 0]
                       two_clients))))
     = Some {| sharedlib.Result := "1";
               sharedlib.StringResponse_Error := "" |}.
Proof.
  split; [| split; [| split]].
  - apply (proj1 (switchAPIKey_switches (H:=sample_host) 99 two_clients)).
    reflexivity.
  - apply (proj2 (switchAPIKey_switches (H:=sample_host) 0 two_clients)
             (Some 1%positive)).
    reflexivity.
  - apply (proj2 (proj2 (switchAPIKey_switches (H:=sample_host) 0 two_clients)
                    (Some 1%positive) eq_refl)
             calls_after_switch calls_after_switch_quiet).
  - destruct (proj2 (proj2 (switchAPIKey_switches (H:=sample_host) 0
                              two_clients)
                       (Some 1%positive) eq_refl)
                calls_after_switch calls_after_switch_quiet)
      as (_ & _ & Huse).
    destruct (Huse 1%positive eq_refl) as [Hnumbers _].
    exact (Hnumbers echo_answers exports.signCreateSubAccount [301]
             exports.GetCreateSubAccountTransaction eq_refl).
Defined.

(** C7 does not hold up to the next switch alone: in [two_clients] a
    switch to api-key index 0 makes client 1 the active one; a
    [createClient] for api-key index 2 then succeeds, and the active
    client is the client it built, client 3, although no
    [switchAPIKey] was called in between. *)
Lemma switchAPIKey_not_until_next_switch :
  ~ @active_until_next_switch sample_host.
Proof.
  intros Hclaim.
  specialize (Hclaim 0 two_clients (Some 1%positive)
                [OfRegistry (sharedlib.CreateClient (create_args "0xcc" 2))]
                eq_refl).
  assert (Hquiet :
    @quiet sample_host switches
      [OfRegistry (sharedlib.CreateClient (create_args "0xcc" 2))]
      (fst (sharedlib.switchAPIKey [sharedlib.JsNumber 0] two_clients))).
  { simpl. split; [intros [] | exact I]. }
  specialize (Hclaim Hquiet). vm_compute in Hclaim. discriminate Hclaim.
Qed.
